(** * ApRES radar: HTTP control client and RTK position-triggered acquisition

    A shallow embedding of [apreshttp.py] (the HTTP client of the radar) and
    of [ApRES_RTK_SAR.py] (the controller that shoots a burst every time the
    sledge has advanced one step), followed by the properties checked on
    them.

    Conventions of the embedding:
    - Python values that cross the HTTP boundary or are inspected with
      [isinstance] are kept dynamically typed ([Py.pyval]); integers are [Z];
      a float is the rational it stands for, and the arithmetic of
      [apreshttp.py] rounds its float results to binary64 ([Py.binary64]).
      The positions and distances of the controller are exact rationals.
    - A Python exception is a value of [Py.exn]; a call that may raise
      returns a [Py.result].  State survives a raise, as in Python: stateful
      code has type [St -> result A * St].
    - Wall-clock time is an integer number of microseconds.
    - What [API.debug] prints when debugging is switched on is not kept.
    - What lies outside the two modules (the radar behind the socket, the
      [haversine] and [datetime.strftime] library functions, the duration of
      a spoken message) is gathered in explicit parameters. *)

From Stdlib Require Import ZArith QArith Qabs Qround Qpower Lqa String Ascii
  List Bool Lia DecimalString.
Import ListNotations.

Local Open Scope string_scope.
Local Open Scope Z_scope.

(* ===================================================================== *)
(** * Part I: the programs                                                *)
(* ===================================================================== *)

(** ** Python values, exceptions and the operators the sources use *)

Module Py.

#[warnings="-register-all"]
Inductive pyval : Type :=
| PNone
| PBool (b : bool)
| PInt (z : Z)
| PFloat (q : Q)
| PStr (s : string)
| PList (l : list pyval)
| PTuple (l : list pyval)
| PDict (d : list (string * pyval)).

(** Exception classes met in the two modules.  [ConnectionError] is the
    builtin class; [RequestsConnectionError] is
    [requests.exceptions.ConnectionError], a subclass of [IOError] that is
    unrelated to the builtin one.  [Unmodelled] marks a Python behaviour the
    embedding does not follow (it is never produced on the inputs of the
    theorems below). *)
Inductive exn_class : Type :=
| TypeError | ValueError | KeyError | IndexError | AttributeError
| ZeroDivisionError | OverflowError | FileExistsError | NotADirectoryError
| ReError | JSONDecodeError
| ConnectionError
| RequestsConnectionError
| InvalidAPIKeyException | InternalRadarErrorException | RadarBusyException
| NotFoundException | SystemResetException | SystemHousekeepingException
| BadResponseException
| NoChirpStartedException | ResultsTimeoutException | DidNotUpdateException
| Unmodelled.

(** An exception instance: its class and the argument it was built with. *)
Record exn : Type := Exc { exn_kind : exn_class; exn_arg : option pyval }.

Inductive result (A : Type) : Type :=
| Ok (a : A)
| Raise (e : exn).
Arguments Ok {A} a.
Arguments Raise {A} e.

Definition bare (c : exn_class) : exn := Exc c None.
Definition withmsg (c : exn_class) (s : string) : exn := Exc c (Some (PStr s)).

Definition exn_class_eqb (a b : exn_class) : bool :=
  match a, b with
  | TypeError, TypeError | ValueError, ValueError | KeyError, KeyError
  | IndexError, IndexError | AttributeError, AttributeError
  | ZeroDivisionError, ZeroDivisionError | OverflowError, OverflowError
  | FileExistsError, FileExistsError
  | NotADirectoryError, NotADirectoryError | ReError, ReError
  | JSONDecodeError, JSONDecodeError
  | ConnectionError, ConnectionError
  | RequestsConnectionError, RequestsConnectionError
  | InvalidAPIKeyException, InvalidAPIKeyException
  | InternalRadarErrorException, InternalRadarErrorException
  | RadarBusyException, RadarBusyException
  | NotFoundException, NotFoundException
  | SystemResetException, SystemResetException
  | SystemHousekeepingException, SystemHousekeepingException
  | BadResponseException, BadResponseException
  | NoChirpStartedException, NoChirpStartedException
  | ResultsTimeoutException, ResultsTimeoutException
  | DidNotUpdateException, DidNotUpdateException
  | Unmodelled, Unmodelled => true
  | _, _ => false
  end.

(** [except C:] catches an instance of class [C]; none of the classes
    caught by name in the sources has a subclass in [exn_class]. *)
Definition is_instance (e : exn) (c : exn_class) : bool :=
  exn_class_eqb (exn_kind e) c.

(** Pure fallible code. *)
Definition rbind {A B} (r : result A) (k : A -> result B) : result B :=
  match r with
  | Ok a => k a
  | Raise e => Raise e
  end.

(** Dictionaries keep insertion order, as Python's do. *)
Definition dict := list (string * pyval).

Fixpoint lookup (k : string) (d : dict) : option pyval :=
  match d with
  | [] => None
  | (k', v) :: d' => if String.eqb k k' then Some v else lookup k d'
  end.

Definition has_key (k : string) (d : dict) : bool :=
  match lookup k d with Some _ => true | None => false end.

(** [d[k] = v]: overwrite in place, or append. *)
Fixpoint setitem (k : string) (v : pyval) (d : dict) : dict :=
  match d with
  | [] => [(k, v)]
  | (k', v') :: d' =>
      if String.eqb k k' then (k, v) :: d' else (k', v') :: setitem k v d'
  end.

(** [{**a, **b}] *)
Definition merge (a b : dict) : dict :=
  fold_left (fun acc kv => setitem (fst kv) (snd kv) acc) b a.

(** Numbers: [bool] is a subclass of [int]. *)
Definition num_of (v : pyval) : option Q :=
  match v with
  | PBool b => Some (if b then 1%Q else 0%Q)
  | PInt z => Some (inject_Z z)
  | PFloat q => Some q
  | _ => None
  end.

Definition int_of (v : pyval) : option Z :=
  match v with
  | PBool b => Some (if b then 1 else 0)
  | PInt z => Some z
  | _ => None
  end.

Definition isinstance_int (v : pyval) : bool :=
  match v with PInt _ | PBool _ => true | _ => false end.
Definition isinstance_float (v : pyval) : bool :=
  match v with PFloat _ => true | _ => false end.
Definition isinstance_str (v : pyval) : bool :=
  match v with PStr _ => true | _ => false end.
Definition is_numeric (v : pyval) : bool :=
  isinstance_int v || isinstance_float v.
Definition is_None (v : pyval) : bool :=
  match v with PNone => true | _ => false end.

Definition Qltb (x y : Q) : bool := negb (Qle_bool y x).

(** [a == b].  Numbers compare by value across [bool], [int] and [float];
    a list never equals a tuple. *)
Fixpoint py_eq (a b : pyval) {struct a} : bool :=
  match a, b with
  | PNone, PNone => true
  | PStr s, PStr t => String.eqb s t
  | PList l, PList m =>
      (fix go (l m : list pyval) {struct l} : bool :=
         match l, m with
         | [], [] => true
         | x :: l', y :: m' => py_eq x y && go l' m'
         | _, _ => false
         end) l m
  | PTuple l, PTuple m =>
      (fix go (l m : list pyval) {struct l} : bool :=
         match l, m with
         | [], [] => true
         | x :: l', y :: m' => py_eq x y && go l' m'
         | _, _ => false
         end) l m
  | PDict d, PDict e =>
      Nat.eqb (List.length d) (List.length e) &&
      (fix go (d : list (string * pyval)) {struct d} : bool :=
         match d with
         | [] => true
         | (k, v) :: d' =>
             match lookup k e with
             | Some w => py_eq v w
             | None => false
             end && go d'
         end) d
  | _, _ =>
      match num_of a, num_of b with
      | Some x, Some y => Qeq_bool x y
      | _, _ => false
      end
  end.

Definition py_ne (a b : pyval) : bool := negb (py_eq a b).

(** Truthiness, for [x or y]. *)
Definition truthy (v : pyval) : bool :=
  match v with
  | PNone => false
  | PBool b => b
  | PInt z => negb (z =? 0)
  | PFloat q => negb (Qeq_bool q 0)
  | PStr s => negb (String.eqb s "")
  | PList l | PTuple l => match l with [] => false | _ => true end
  | PDict d => match d with [] => false | _ => true end
  end.

Definition py_or (a b : pyval) : pyval := if truthy a then a else b.

(** Strings. *)
Definition str_of_Z (z : Z) : string := NilZero.string_of_int (Z.to_int z).

(** [s.find(sub)] *)
Definition find (sub s : string) : Z :=
  match String.index 0 sub s with
  | Some i => Z.of_nat i
  | None => -1
  end.

Definition contains_str (sub s : string) : bool :=
  match String.index 0 sub s with Some _ => true | None => false end.

(** [s[i:]] for [0 <= i] *)
Definition slice_from (i : nat) (s : string) : string :=
  substring i (String.length s - i) s.

(** [s[-1]], when [s] is not empty *)
Fixpoint last_char (s : string) : option ascii :=
  match s with
  | EmptyString => None
  | String c EmptyString => Some c
  | String _ s' => last_char s'
  end.

(** [s[0:-1]] *)
Fixpoint drop_last (s : string) : string :=
  match s with
  | EmptyString => EmptyString
  | String _ EmptyString => EmptyString
  | String c s' => String c (drop_last s')
  end.

Fixpoint chars (s : string) : list pyval :=
  match s with
  | EmptyString => []
  | String c s' => PStr (String c EmptyString) :: chars s'
  end.

Fixpoint join (sep : string) (l : list string) : string :=
  match l with
  | [] => ""
  | [x] => x
  | x :: l' => x ++ sep ++ join sep l'
  end.

(** Iteration order of a value ([for v in x], [tuple(x)], [sum(x)]). *)
Definition iter (v : pyval) : result (list pyval) :=
  match v with
  | PList l | PTuple l => Ok l
  | PDict d => Ok (map (fun kv => PStr (fst kv)) d)
  | PStr s => Ok (chars s)
  | _ => Raise (bare TypeError)
  end.

Definition len (v : pyval) : result Z :=
  match v with
  | PList l | PTuple l => Ok (Z.of_nat (List.length l))
  | PDict d => Ok (Z.of_nat (List.length d))
  | PStr s => Ok (Z.of_nat (String.length s))
  | _ => Raise (bare TypeError)
  end.

(** [key in v] for a string [key] *)
Definition contains (key : string) (v : pyval) : result bool :=
  match v with
  | PDict d => Ok (has_key key d)
  | PList l | PTuple l => Ok (existsb (py_eq (PStr key)) l)
  | PStr s => Ok (contains_str key s)
  | _ => Raise (bare TypeError)
  end.

(** [v[key]] for a string [key] *)
Definition getitem (v : pyval) (key : string) : result pyval :=
  match v with
  | PDict d =>
      match lookup key d with
      | Some x => Ok x
      | None => Raise (Exc KeyError (Some (PStr key)))
      end
  | _ => Raise (bare TypeError)
  end.

(** [v[i]] for an integer [i]; negative indices count from the end. *)
Definition getindex (v : pyval) (i : Z) : result pyval :=
  match v with
  | PList l | PTuple l =>
      let n := Z.of_nat (List.length l) in
      let j := if i <? 0 then i + n else i in
      if (0 <=? j) && (j <? n)
      then match nth_error l (Z.to_nat j) with
           | Some x => Ok x
           | None => Raise (bare IndexError)
           end
      else Raise (bare IndexError)
  | PStr s =>
      let n := Z.of_nat (String.length s) in
      let j := if i <? 0 then i + n else i in
      if (0 <=? j) && (j <? n)
      then match String.get (Z.to_nat j) s with
           | Some c => Ok (PStr (String c EmptyString))
           | None => Raise (bare IndexError)
           end
      else Raise (bare IndexError)
  | PDict _ => Raise (bare KeyError)
  | _ => Raise (bare TypeError)
  end.

(** Python's rounding of a number to the nearest integer, ties to even. *)
Definition round_half_even (q : Q) : Z :=
  let n := Qfloor q in
  let r := (q - inject_Z n)%Q in
  if Qltb r (1 # 2) then n
  else if Qltb (1 # 2) r then n + 1
  else if Z.even n then n else n + 1.

(** Floats are IEEE 754 binary64 numbers.  [ilog2 q] is the exponent of the
    power of two at or below [|q|], for [q] other than zero. *)
Definition ilog2 (q : Q) : Z :=
  let e := Z.log2 (Z.abs (Qnum q)) - Z.log2 (Zpos (Qden q)) in
  if Qle_bool (2 ^ e) (Qabs q) then e else e - 1.

(** The float nearest to the rational [q]: 53 significant bits, ties to
    even, no spacing finer than [2 ^ -1074]; [None] when the nearest
    number of that shape is [2 ^ 1024] or more, beyond the largest float. *)
Definition binary64 (q : Q) : option Q :=
  if Qeq_bool q 0 then Some 0%Q
  else
    let p := Z.max (ilog2 q - 52) (-1074) in
    let r := (inject_Z (round_half_even (q / 2 ^ p)) * 2 ^ p)%Q in
    if Qle_bool (2 ^ 1024) (Qabs r) then None else Some r.

(** [float(v)] as the arithmetic operators apply it to an operand. *)
Definition to_float (v : pyval) : result Q :=
  match v with
  | PFloat q => Ok q
  | _ =>
      match int_of v with
      | Some z =>
          match binary64 (inject_Z z) with
          | Some q => Ok q
          | None => Raise (bare OverflowError)
          end
      | None => Raise (bare TypeError)
      end
  end.

(** The float result of an operation on floats whose exact value is [q];
    an infinite result is not followed. *)
Definition float_result (q : Q) : result pyval :=
  match binary64 q with
  | Some r => Ok (PFloat r)
  | None => Raise (withmsg Unmodelled "inf")
  end.

(** Arithmetic on numbers.  Two [int]s give an [int], anything with a
    [float] gives a [float].  A non-numeric operand raises [TypeError]
    (sequence concatenation and repetition are not followed: in the
    sources every such expression ends by adding an [int], which raises
    [TypeError] in Python as well). *)
Definition arith (fz : Z -> Z -> Z) (fq : Q -> Q -> Q) (a b : pyval)
  : result pyval :=
  match int_of a, int_of b with
  | Some x, Some y => Ok (PInt (fz x y))
  | _, _ =>
      match num_of a, num_of b with
      | Some _, Some _ =>
          rbind (to_float a) (fun x =>
          rbind (to_float b) (fun y => float_result (fq x y)))
      | _, _ => Raise (bare TypeError)
      end
  end.

Definition add := arith Z.add Qplus.
Definition sub := arith Z.sub Qminus.
Definition mul := arith Z.mul Qmult.

(** [a / b]: true division, a [float].  The quotient of two [int]s is the
    float nearest to the exact quotient, and [OverflowError] when there is
    none; with a [float] operand the other one is converted first. *)
Definition truediv (a b : pyval) : result pyval :=
  match int_of a, int_of b with
  | Some x, Some y =>
      if y =? 0 then Raise (bare ZeroDivisionError)
      else match binary64 (inject_Z x / inject_Z y) with
           | Some q => Ok (PFloat q)
           | None => Raise (bare OverflowError)
           end
  | _, _ =>
      match num_of a, num_of b with
      | Some _, Some _ =>
          rbind (to_float a) (fun x =>
          rbind (to_float b) (fun y =>
          if Qeq_bool y 0 then Raise (bare ZeroDivisionError)
          else float_result (x / y)))
      | _, _ => Raise (bare TypeError)
      end
  end.

(** [sum(v)] *)
Definition sum (v : pyval) : result pyval :=
  rbind (iter v)
    (fun l => fold_left (fun acc x => rbind acc (fun a => add a x)) l
                (Ok (PInt 0))).

End Py.

Import Py.

(** ** The HTTP boundary and the world the programs run in *)

Module Http.

(** What [requests] hands back: the status code, the [Content-Type] header
    when there is one, the decoded body ([None] when [response.json()]
    raises) and the raw text. *)
Record response : Type := mkResponse {
  status_code : Z;
  content_type : option string;
  json : option pyval;
  text : string }.

Inductive outcome : Type :=
| Unreachable                 (* the connection is refused, reset or lost *)
| Reply (r : response).

(** One round trip: how long it blocked the caller and how it ended. *)
Record exchange : Type := mkExchange { latency : N; answer : outcome }.

Inductive verb : Type := GET | POST.

Record request : Type := mkRequest {
  req_verb : verb;
  req_url : string;
  req_data : dict;                (* form fields (POST) or query (GET) *)
  req_files : option dict;
  req_redirects : bool }.

(** Everything that is not code of the two modules. *)
Record env : Type := mkEnv {
  radar : Z -> request -> exchange;   (* the n-th request and its fate *)
  haversine : Q * Q -> Q * Q -> Q;    (* great-circle distance, metres *)
  strftime : Z -> string;             (* now.strftime("%Y%m%d_%H%M%S") *)
  strptime : string -> option Z;      (* "%Y-%m-%d %H:%M:%S" *)
  say_time : string -> N }.           (* how long a spoken message blocks *)

Inductive level : Type := LvInfo | LvWarning | LvError | LvCritical.

(** What the operator hears and reads.  An f-string is kept as its
    template together with the values that fill it. *)
Inductive event : Type :=
| Say (words : string)
| Printed (template : string) (args : list pyval)
| Log (lvl : level) (template : string) (args : list pyval).

(** The cached radar configuration ([Radar.Config]).  The last three
    attributes do not exist before the first [get]. *)
Record Config : Type := mkConfig {
  nAttenuators : pyval;
  nSubBursts : pyval;
  nAverages : pyval;
  afGain : pyval;
  rfAttn : pyval;
  userData : option pyval;
  txAntenna : option pyval;
  rxAntenna : option pyval }.

(** The [API] object with the attributes its children read. *)
Record API : Type := mkAPI {
  root : string;
  timeout : Z;                  (* seconds *)
  wait : Z;
  resultsInterval : Z;          (* seconds *)
  debugEnable : bool;
  requestCount : Z;
  apiKey : string;
  config : Config }.

Record world : Type := mkWorld {
  clock : Z;                    (* microseconds *)
  api : API;
  wire : list request;          (* requests sent, latest first *)
  events : list event;          (* latest first *)
  files : list string;          (* paths that exist locally *)
  dirs : list string }.

Definition second : Z := 1000000.

End Http.

Import Http.

(** ** Stateful code

    [M St A] is a computation on a state [St] that returns an [A] or raises,
    and keeps the state either way.  [None] is not a Python outcome: it
    says that the fuel handed to a [while] loop was not enough to see the
    loop end. *)

Definition M (St A : Type) : Type := St -> option (result A * St).

Definition ret {St A} (a : A) : M St A := fun s => Some (Ok a, s).
Definition raise {St A} (e : exn) : M St A := fun s => Some (Raise e, s).

Definition bind {St A B} (m : M St A) (k : A -> M St B) : M St B :=
  fun s =>
    match m s with
    | Some (Ok a, s') => k a s'
    | Some (Raise e, s') => Some (Raise e, s')
    | None => None
    end.

(** [try: m  except ...: h]; the handler re-raises what it does not catch. *)
Definition try_except {St A} (m : M St A) (h : exn -> M St A) : M St A :=
  fun s =>
    match m s with
    | Some (Raise e, s') => h e s'
    | r => r
    end.

Definition lift_result {St A} (r : result A) : M St A :=
  match r with
  | Ok a => ret a
  | Raise e => raise e
  end.

Definition get_state {St} : M St St := fun s => Some (Ok s, s).
Definition modify {St} (f : St -> St) : M St unit := fun s => Some (Ok tt, f s).
Definition out_of_fuel {St A} : M St A := fun _ => None.

Declare Scope py_scope.
Delimit Scope py_scope with py.
Notation "x <- m ;; k" := (bind m (fun x => k))
  (at level 61, m at next level, right associativity) : py_scope.
Notation "m ;; k" := (bind m (fun _ => k))
  (at level 61, right associativity) : py_scope.
Notation "'when' b 'then' m" := (if b then m else ret tt)
  (at level 60, b at level 9) : py_scope.
Local Open Scope py_scope.

(** Updates of the world. *)
Definition set_clock (t : Z) (w : world) : world :=
  mkWorld t (api w) (wire w) (events w) (files w) (dirs w).
Definition set_api (a : API) (w : world) : world :=
  mkWorld (clock w) a (wire w) (events w) (files w) (dirs w).
Definition set_wire (l : list request) (w : world) : world :=
  mkWorld (clock w) (api w) l (events w) (files w) (dirs w).
Definition set_events (l : list event) (w : world) : world :=
  mkWorld (clock w) (api w) (wire w) l (files w) (dirs w).
Definition set_files (l : list string) (w : world) : world :=
  mkWorld (clock w) (api w) (wire w) (events w) l (dirs w).
Definition set_dirs (l : list string) (w : world) : world :=
  mkWorld (clock w) (api w) (wire w) (events w) (files w) l.

Definition set_requestCount (n : Z) (a : API) : API :=
  mkAPI (root a) (timeout a) (wait a) (resultsInterval a) (debugEnable a)
        n (apiKey a) (config a).
Definition set_config (c : Config) (a : API) : API :=
  mkAPI (root a) (timeout a) (wait a) (resultsInterval a) (debugEnable a)
        (requestCount a) (apiKey a) c.
Definition set_root (r : string) (a : API) : API :=
  mkAPI r (timeout a) (wait a) (resultsInterval a) (debugEnable a)
        (requestCount a) (apiKey a) (config a).
Definition set_apiKey (k : string) (a : API) : API :=
  mkAPI (root a) (timeout a) (wait a) (resultsInterval a) (debugEnable a)
        (requestCount a) k (config a).

Definition elapse (dt : Z) : M world unit :=
  modify (fun w => set_clock (clock w + dt) w).
Definition now : M world Z := fun w => Some (Ok (clock w), w).
(** [time.sleep(n)] *)
Definition sleep (n : Z) : M world unit := elapse (n * second).
Definition emit (e : event) : M world unit :=
  modify (fun w => set_events (e :: events w) w).
Definition the_api : M world API := fun w => Some (Ok (api w), w).
Definition the_config : M world Config := fun w => Some (Ok (config (api w)), w).
Definition update_config (f : Config -> Config) : M world unit :=
  modify (fun w => set_api (set_config (f (config (api w))) (api w)) w).

(** ** apreshttp.py *)

Module apreshttp.

(** *** class API *)

(** [API.assignRootURL]: the value stored in [self.root]. *)
Definition assignRootURL (root : pyval) : result string :=
  match root with
  | PStr root =>
      let http_idx := find "http://" root in
      let root :=
        if 0 <? http_idx then slice_from (Z.to_nat http_idx) root
        else if http_idx =? -1 then "http://" ++ root
        else root in
      match last_char root with
      | None => Raise (bare IndexError)
      | Some c =>
          if Ascii.eqb c "/"%char then Ok (drop_last root) else Ok root
      end
  | _ => Raise (bare TypeError)
  end.

Definition empty_config : Config :=
  mkConfig PNone PNone PNone (PList []) (PList []) None None None.

(** [API.__init__] *)
Definition API_init (root : pyval) : result API :=
  rbind (assignRootURL root) (fun r =>
  Ok (mkAPI r 30 1 2 false 0 "INVALID" empty_config)).

(** [API.setKey] *)
Definition setKey (key : pyval) : M world unit :=
  match key with
  | PStr k =>
      if (0 <? Z.of_nat (String.length k))
      then modify (fun w => set_api (set_apiKey k (api w)) w)
      else raise (bare InvalidAPIKeyException)
  | _ => raise (bare InvalidAPIKeyException)
  end.

(** *** class APIChild *)

(** [APIChild.formCompleteURL] *)
Definition formCompleteURL (a : API) (url_part : string) : string :=
  root a ++ "/api/" ++ url_part.

Definition response_json (r : response) : result pyval :=
  match json r with
  | Some j => Ok j
  | None => Raise (bare JSONDecodeError)
  end.

(** [APIChild.validateResponse] *)
Definition validateResponse (r : response) : result unit :=
  match content_type r with
  | Some ct =>
      if String.eqb ct "application/json" then
        rbind (response_json r) (fun j =>
        rbind (contains "errorCode" j) (fun c1 =>
        rbind (if c1 then Ok true else contains "errorMessage" j) (fun c =>
        if c then
          rbind (getitem j "errorCode") (fun code =>
          if py_eq code (PInt 401) then
            rbind (getitem j "errorMessage") (fun m =>
            Raise (Exc InvalidAPIKeyException (Some m)))
          else if py_eq code (PInt 404) then
            rbind (getitem j "errorMessage") (fun m =>
            Raise (Exc NotFoundException (Some m)))
          else if py_eq code (PInt 500) then
            rbind (getitem j "errorMessage") (fun m =>
            Raise (Exc InternalRadarErrorException (Some m)))
          else if py_eq code (PInt 503) then
            rbind (getitem j "errorMessage") (fun m =>
            Raise (Exc RadarBusyException (Some m)))
          else Ok tt)
        else Ok tt)))
      else Ok tt
  | None => Ok tt
  end.

(** [requests.post] / [requests.get]: the request goes on the wire, the
    caller blocks for the latency of the exchange, and a lost connection
    raises [requests.exceptions.ConnectionError]. *)
Definition transmit (E : env) (rq : request) : M world response :=
  a <- the_api ;;
  modify (fun w => set_wire (rq :: wire w) w) ;;
  let x := radar E (requestCount a) rq in
  elapse (Z.of_N (latency x)) ;;
  match answer x with
  | Unreachable => raise (bare RequestsConnectionError)
  | Reply r => ret r
  end.

Definition next_request : M world Z :=
  modify (fun w =>
    set_api (set_requestCount (requestCount (api w) + 1) (api w)) w) ;;
  a <- the_api ;;
  ret (requestCount a).

(** [APIChild.postRequest] *)
Definition postRequest (E : env) (url : string) (data_obj : option dict)
    (files_obj : option dict) (allow_redirects : bool) : M world response :=
  a <- the_api ;;
  let completeUrl := formCompleteURL a url in
  let data_obj :=
    match data_obj with
    | None => [("apikey", PStr (apiKey a))]
    | Some d =>
        if has_key "apikey" d then d else setitem "apikey" (PStr (apiKey a)) d
    end in
  n <- next_request ;;
  let data_obj :=
    if debugEnable a then setitem "requestid" (PInt n) data_obj
    else data_obj in
  response <- transmit E
    (mkRequest POST completeUrl data_obj files_obj allow_redirects) ;;
  lift_result (validateResponse response) ;;
  ret response.

(** [APIChild.getRequest] *)
Definition getRequest (E : env) (url : string) (data_obj : option dict)
  : M world response :=
  a <- the_api ;;
  let completeUrl := formCompleteURL a url in
  let data_obj := match data_obj with None => [] | Some d => d end in
  n <- next_request ;;
  let data_obj :=
    if debugEnable a then setitem "requestid" (PInt n) data_obj
    else data_obj in
  response <- transmit E (mkRequest GET completeUrl data_obj None true) ;;
  lift_result (validateResponse response) ;;
  ret response.

(** *** class Radar.Config *)

Definition require_key (key msg : string) (j : pyval) : result unit :=
  rbind (contains key j) (fun c =>
  if c then Ok tt else Raise (withmsg BadResponseException msg)).

(** [Radar.Config.readResponse].  The attributes are assigned one by one,
    so a response that fails half-way leaves the earlier ones updated. *)
Definition readResponse (response : response) : M world unit :=
  j <- lift_result (response_json response) ;;
  lift_result (require_key "nSubBursts" "No nSubBursts key in response." j) ;;
  lift_result (require_key "nAttenuators" "No nAttenuators key in response." j) ;;
  lift_result (require_key "nAverages" "No nAverages key in response." j) ;;
  lift_result (require_key "rfAttn" "No rfAttn key in response." j) ;;
  lift_result (require_key "afGain" "No rfAttn key in response." j) ;;
  lift_result (require_key "userData" "No userData key in response." j) ;;
  lift_result (require_key "txAntenna" "No txAntenna key in response." j) ;;
  lift_result (require_key "rxAntenna" "No rxAntenna key in response." j) ;;
  v <- lift_result (getitem j "nAttenuators") ;;
  update_config (fun c => mkConfig v (nSubBursts c) (nAverages c) (afGain c)
    (rfAttn c) (userData c) (txAntenna c) (rxAntenna c)) ;;
  v <- lift_result (getitem j "nSubBursts") ;;
  update_config (fun c => mkConfig (nAttenuators c) v (nAverages c) (afGain c)
    (rfAttn c) (userData c) (txAntenna c) (rxAntenna c)) ;;
  v <- lift_result (getitem j "nAverages") ;;
  update_config (fun c => mkConfig (nAttenuators c) (nSubBursts c) v (afGain c)
    (rfAttn c) (userData c) (txAntenna c) (rxAntenna c)) ;;
  v <- lift_result (getitem j "userData") ;;
  update_config (fun c => mkConfig (nAttenuators c) (nSubBursts c) (nAverages c)
    (afGain c) (rfAttn c) (Some v) (txAntenna c) (rxAntenna c)) ;;
  v <- lift_result (getitem j "rfAttn") ;;
  update_config (fun c => mkConfig (nAttenuators c) (nSubBursts c) (nAverages c)
    (afGain c) v (userData c) (txAntenna c) (rxAntenna c)) ;;
  v <- lift_result (getitem j "afGain") ;;
  update_config (fun c => mkConfig (nAttenuators c) (nSubBursts c) (nAverages c)
    v (rfAttn c) (userData c) (txAntenna c) (rxAntenna c)) ;;
  v <- lift_result (rbind (getitem j "txAntenna") iter) ;;
  update_config (fun c => mkConfig (nAttenuators c) (nSubBursts c) (nAverages c)
    (afGain c) (rfAttn c) (userData c) (Some (PTuple v)) (rxAntenna c)) ;;
  v <- lift_result (rbind (getitem j "rxAntenna") iter) ;;
  update_config (fun c => mkConfig (nAttenuators c) (nSubBursts c) (nAverages c)
    (afGain c) (rfAttn c) (userData c) (txAntenna c) (Some (PTuple v))) ;;
  c <- the_config ;;
  n_rf <- lift_result (len (rfAttn c)) ;;
  n_af <- lift_result (len (afGain c)) ;;
  if py_eq (PInt n_rf) (nAttenuators c) && py_eq (PInt n_af) (nAttenuators c)
  then ret tt
  else raise (withmsg BadResponseException
    "Number of attenuator settings did not match nAttenuators in response.").

(** [Radar.Config.get].  With [debugEnable] the source passes an extra
    keyword that [getRequest] swallows, so both branches send the same
    request. *)
Definition Config_get (E : env) : M world unit :=
  response <- getRequest E "radar/config" None ;;
  if negb (status_code response =? 200)
  then raise (Exc BadResponseException (Some (PInt (status_code response))))
  else readResponse response.

(** [str(x)] for the values that reach it in the sources: an antenna flag
    is equal to 0 or to 1, an index is an [int]. *)
Definition str (v : pyval) : result string :=
  match v with
  | PInt z => Ok (str_of_Z z)
  | PBool b => Ok (if b then "True" else "False")
  | PStr s => Ok s
  | PNone => Ok "None"
  | PFloat q =>
      if Qeq_bool q 0 then Ok "0.0"
      else if Qeq_bool q 1 then Ok "1.0"
      else Raise (bare Unmodelled)
  | _ => Raise (bare Unmodelled)
  end.

Fixpoint map_result {A B} (f : A -> result B) (l : list A) : result (list B) :=
  match l with
  | [] => Ok []
  | x :: l' =>
      rbind (f x) (fun y => rbind (map_result f l') (fun ys => Ok (y :: ys)))
  end.

(** The loop over an antenna tuple in [set]: every entry must be 0 or 1;
    [count] is incremented once per entry. *)
Fixpoint antenna_loop (name : string) (l : list pyval) (count : Z) : result Z :=
  match l with
  | [] => Ok count
  | v :: l' =>
      if py_ne v (PInt 0) && py_ne v (PInt 1)
      then Raise (Exc ValueError (Some (PTuple
             [PStr ("Value at #{} in " ++ name ++ " should be 0 or 1 only");
              PInt count])))
      else antenna_loop name l' (count + 1)
  end.

(** The [txAnt] / [rxAnt] block of [set]: the string to post. *)
Definition antenna_field (name : string) (ant : pyval) : result string :=
  match ant with
  | PTuple l =>
      if Z.of_nat (List.length l) =? 8 then
        rbind (antenna_loop name l 0) (fun count =>
        if 0 <? count then
          rbind (map_result str l) (fun strs => Ok (join "," strs))
        else Raise (withmsg ValueError
               "Must have at least one rxAntenna enabled."))
      else Raise (withmsg ValueError (name ++ " should be an 8-element tuple."))
  | _ => Raise (withmsg ValueError (name ++ " should be an 8-element tuple."))
  end.

(** The character class [[1-<str(nAtts)>]] of the key pattern in
    [parseRFAttnAFGain], for an [int] count: the range from ['1'] to the
    first digit, and every further digit on its own.  A range that runs
    backwards is a pattern error. *)
Definition key_class (nAtts : pyval) : result (ascii -> bool) :=
  match nAtts with
  | PInt n =>
      match str_of_Z n with
      | String d0 rest =>
          if (nat_of_ascii d0 <? 49)%nat then Raise (bare ReError)
          else Ok (fun c =>
                 ((49 <=? nat_of_ascii c)%nat &&
                  (nat_of_ascii c <=? nat_of_ascii d0)%nat)
                 || contains_str (String c EmptyString) rest)
      | EmptyString => Raise (bare ReError)
      end
  | _ => Raise (bare Unmodelled)
  end.

(** [re.search(type + "([1-n])", key)] matches and the match starts at 0. *)
Definition key_matches (type : string) (cls : ascii -> bool) (key : string)
  : bool :=
  String.prefix type key &&
  match String.get (String.length type) key with
  | Some c => cls c
  | None => false
  end.

Fixpoint list_items (type : string) (l : list pyval) (i : Z) (resp : dict)
  : dict :=
  match l with
  | [] => resp
  | x :: l' =>
      list_items type l' (i + 1)
        (if is_numeric x then setitem (type ++ str_of_Z (i + 1)) x resp
         else resp)
  end.

Fixpoint dict_items (type : string) (cls : ascii -> bool)
    (d : list (string * pyval)) (resp : dict) : result dict :=
  match d with
  | [] => Ok resp
  | (key, val) :: d' =>
      if key_matches type cls key
      then dict_items type cls d' (setitem key val resp)
      else Raise (Exc KeyError (Some (PStr
             ("Invalid key '" ++ key ++ "' in " ++ type ++ " argument."))))
  end.

(** [Radar.Config.parseRFAttnAFGain].  The attribute [self.nAtts] that the
    source reads when [nAtts] is [None] does not exist. *)
Definition parseRFAttnAFGain (c : Config) (type : string) (arg nAtts : pyval)
  : result dict :=
  if negb (String.eqb type "rfAttn" || String.eqb type "afGain")
  then Raise (withmsg Unmodelled "Exception: invalid type")
  else if is_numeric arg then
    if py_ne nAtts PNone then
      if py_eq nAtts (PInt 1) then Ok [(type ++ "1", arg)]
      else Raise (withmsg ValueError
        ("nAtts or current nAttenuators > 1, cannot add a sigular " ++ type
         ++ " parameter"))
    else Raise (bare AttributeError)
  else match arg with
  | PList l =>
      if py_ne nAtts PNone then
        if py_eq (PInt (Z.of_nat (List.length l))) nAtts
        then Ok (list_items type l 0 [])
        else Raise (withmsg ValueError
          ("If " ++ type ++ "Set is a list, it should have the same number"
           ++ " of elements as the number of attenuators"))
      else Raise (bare AttributeError)
  | PDict d =>
      let nAtts := if py_eq nAtts PNone then nAttenuators c else nAtts in
      rbind (key_class nAtts) (fun cls => dict_items type cls d [])
  | _ => Ok []
  end.

(** [int(key[-1]) - 1] *)
Definition index_of_key (key : string) : result Z :=
  match last_char key with
  | None => Raise (bare IndexError)
  | Some ch =>
      let n := nat_of_ascii ch in
      if ((48 <=? n) && (n <=? 57))%nat
      then Ok (Z.of_nat n - 48 - 1)
      else Raise (bare ValueError)
  end.

(** ["{:f}".format(v)] succeeds on numbers only. *)
Definition format_f (v : pyval) : result unit :=
  match v with
  | PBool _ | PInt _ | PFloat _ => Ok tt
  | PStr _ => Raise (bare ValueError)
  | _ => Raise (bare TypeError)
  end.

(** The loops of [set] that compare what was sent with what came back. *)
Fixpoint check_updated (valid : list (string * pyval)) (got : pyval)
  : result unit :=
  match valid with
  | [] => Ok tt
  | (key, value) :: valid' =>
      rbind (index_of_key key) (fun idx =>
      rbind (getindex got idx) (fun mem =>
      rbind (format_f value) (fun _ =>
      rbind (format_f mem) (fun _ =>
      if py_ne value mem
      then Raise (withmsg DidNotUpdateException (key ++ " did not update."))
      else check_updated valid' got))))
  end.

Definition numeric_field (key msg : string) (v : pyval) (data_obj : dict)
  : result dict :=
  if py_ne v PNone then
    if is_numeric v then Ok (setitem key v data_obj)
    else Raise (withmsg ValueError msg)
  else Ok data_obj.

Definition antenna_entry (key name : string) (ant : pyval) (data_obj : dict)
  : result dict :=
  if py_ne ant PNone then
    rbind (antenna_field name ant) (fun s => Ok (setitem key (PStr s) data_obj))
  else Ok data_obj.

(** [Radar.Config.set].  The result is [true] when the method returns the
    config object and [false] when it falls off its end (a status other
    than 200 and 400). *)
Definition Config_set (E : env)
    (nAtts nAverages nBursts rfAttnSet afGainSet txAnt rxAnt userData : pyval)
  : M world bool :=
  Config_get E ;;
  c <- the_config ;;
  data_obj <- lift_result (numeric_field "nAttenuators"
                 "nAtts should be numeric" nAtts []) ;;
  data_obj <- lift_result (numeric_field "nSubBursts"
                 "nBursts should be numeric" nBursts data_obj) ;;
  data_obj <- lift_result (numeric_field "nAverages"
                 "nAverages should be numeric" nAverages data_obj) ;;
  data_obj <- lift_result (antenna_entry "txAntenna" "txAnt" txAnt data_obj) ;;
  data_obj <- lift_result (antenna_entry "rxAntenna" "rxAnt" rxAnt data_obj) ;;
  valid_rf <- (if py_ne rfAttnSet PNone
               then v <- lift_result (parseRFAttnAFGain c "rfAttn" rfAttnSet
                                        (py_or nAtts (nAttenuators c))) ;;
                    ret (Some v)
               else ret None) ;;
  let data_obj :=
    match valid_rf with Some v => merge data_obj v | None => data_obj end in
  valid_af <- (if py_ne afGainSet PNone
               then v <- lift_result (parseRFAttnAFGain c "afGain" afGainSet
                                        (py_or nAtts (nAttenuators c))) ;;
                    ret (Some v)
               else ret None) ;;
  let data_obj :=
    match valid_af with Some v => merge data_obj v | None => data_obj end in
  let data_obj :=
    if py_ne userData PNone && isinstance_str userData
    then setitem "userData" userData data_obj
    else data_obj in
  response <- postRequest E "radar/config" (Some data_obj) None true ;;
  if status_code response =? 400 then
    j <- lift_result (response_json response) ;;
    m <- lift_result (getitem j "errorMessage") ;;
    raise (Exc BadResponseException (Some m))
  else if status_code response =? 200 then
    readResponse response ;;
    c <- the_config ;;
    if py_ne nAtts PNone && py_ne nAtts (nAttenuators c)
    then raise (withmsg DidNotUpdateException "nAttenuators did not update.")
    else
    if py_ne nBursts PNone && py_ne nBursts (nSubBursts c)
    then raise (withmsg DidNotUpdateException "nSubBursts did not update.")
    else
    match valid_rf with
    | Some v => lift_result (check_updated v (rfAttn c))
    | None => ret tt
    end ;;
    match valid_af with
    | Some v => lift_result (check_updated v (afGain c))
    | None => ret tt
    end ;;
    ret true
  else ret false.

(** *** class Radar *)

Definition VALID_BURST_STATUS_CODE : Z := 303.

(** A callback argument: [None], a function, or some other object. *)
Inductive callback (A : Type) : Type :=
| CbNone
| CbFun (f : A -> M world unit)
| CbOther (v : pyval).
Arguments CbNone {A}.
Arguments CbFun {A} f.
Arguments CbOther {A} v.

Definition cb_is_None {A} (c : callback A) : bool :=
  match c with CbNone => true | _ => false end.
Definition cb_callable {A} (c : callback A) : bool :=
  match c with CbFun _ => true | _ => false end.
Definition call {A} (c : callback A) (a : A) : M world unit :=
  match c with
  | CbFun f => f a
  | _ => raise (bare TypeError)
  end.

(** [Radar.Results]: the extra attributes exist for one kind only. *)
Record Results : Type := mkResults {
  res_type : pyval;
  res_nAttenuators : pyval;
  startFrequency : pyval;
  stopFrequency : pyval;
  period : pyval;
  bandwidth : pyval;
  res_nAverages : option pyval;
  histogram : option (list pyval);
  chirp : option (list pyval);
  filename : option pyval }.

(** [int(x)] on numbers, truncating towards zero; parsing a string is not
    followed. *)
Definition int (v : pyval) : result pyval :=
  match v with
  | PInt z => Ok (PInt z)
  | PBool b => Ok (PInt (if b then 1 else 0))
  | PFloat q => Ok (PInt (if Qle_bool 0 q then Qfloor q else Qceiling q))
  | PStr _ => Raise (bare Unmodelled)
  | _ => Raise (bare TypeError)
  end.

Definition require (key msg : string) (j : pyval) : result pyval :=
  rbind (contains key j) (fun c =>
  if c then getitem j key else Raise (withmsg BadResponseException msg)).

(** [[v / 65536 * 2.5 for v in chirp]] *)
Definition scale_chirp (ch : pyval) : result pyval :=
  rbind (iter ch) (fun vs =>
  rbind (map_result (fun v =>
           rbind (truediv v (PInt 65536)) (fun x => mul x (PFloat (5 # 2))))
           vs) (fun l => Ok (PList l))).

(** [Radar.Results.__init__] with its two loaders. *)
Definition Results_init (response : response) : result Results :=
  rbind (response_json response) (fun j =>
  rbind (require "type" "No key 'type' found in results." j) (fun ty =>
  rbind (require "nAttenuators" "No key 'nAttenuators' found in results." j)
    (fun natt =>
  rbind (require "startFrequency" "No key 'startFrequency' found in results." j)
    (fun f0 =>
  rbind (require "stopFrequency" "No key 'stopFrequency' found in results." j)
    (fun f1 =>
  rbind (require "period" "No key 'period' found in results." j) (fun per =>
  rbind (sub f1 f0) (fun bw =>
  if py_eq ty (PStr "trial") then
    rbind (require_key "nAverages" "No key 'nAverages' found in results." j)
      (fun _ =>
    rbind (rbind (getitem j "nAttenuators") int) (fun natt' =>
    rbind (rbind (getitem j "nAverages") int) (fun navg =>
    rbind (rbind (getitem j "histogram") iter) (fun hist =>
    rbind (rbind (rbind (getitem j "chirp") iter) (map_result scale_chirp))
      (fun ch =>
    Ok (mkResults ty natt' f0 f1 per bw (Some navg) (Some hist) (Some ch)
          None))))))
  else if py_eq ty (PStr "burst") then
    rbind (require "filename" "No filename in response." j) (fun fn =>
    Ok (mkResults ty natt f0 f1 per bw None None None (Some fn)))
  else
    match ty with
    | PStr s => Raise (withmsg BadResponseException ("Invalid type '" ++ s ++ "'"))
    | PBool _ | PInt _ | PFloat _ => Raise (bare ValueError)
    | _ => Raise (bare TypeError)
    end))))))).

(** [datetime.timedelta(seconds = x)], in microseconds.  A [timedelta]
    holds between -999999999 and 999999999 whole days; a duration outside
    raises [OverflowError]. *)
Definition timedelta_seconds (x : pyval) : result Z :=
  rbind (match x with
         | PInt z => Ok (z * second)
         | PBool b => Ok (if b then second else 0)
         | PFloat q => Ok (round_half_even (q * inject_Z second))
         | _ => Raise (bare TypeError)
         end) (fun us =>
  let days := us / (86400 * second) in
  if (-999999999 <=? days) && (days <=? 999999999) then Ok us
  else Raise (bare OverflowError)).

(** [time.sleep(n)] for an integer [n].  The length is first turned into a
    64-bit count of nanoseconds, which raises [OverflowError] when it does
    not fit; a negative length raises [ValueError]. *)
Definition time_sleep (n : Z) : M world unit :=
  if (n <? -9223372036) || (9223372036 <? n) then raise (bare OverflowError)
  else if n <? 0 then raise (bare ValueError)
  else sleep n.

Definition attribute (o : option pyval) : result pyval :=
  match o with
  | Some v => Ok v
  | None => Raise (bare AttributeError)
  end.

(** The timeout computed by [__getResults], in seconds:
    [(nTx * nRx) * (nSubBursts + nAverages) * nAttenuators * 2 + timeout]. *)
Definition timeoutSeconds (c : Config) (a : API) : result pyval :=
  rbind (rbind (attribute (txAntenna c)) sum) (fun nTx =>
  rbind (rbind (attribute (rxAntenna c)) sum) (fun nRx =>
  rbind (mul nTx nRx) (fun pairs =>
  rbind (add (nSubBursts c) (nAverages c)) (fun chirps =>
  rbind (mul pairs chirps) (fun x =>
  rbind (mul x (nAttenuators c)) (fun x =>
  rbind (mul x (PInt 2)) (fun x =>
  add x (PInt (timeout a))))))))).

(** The [while] loop of [__getResults]. *)
Fixpoint poll_results (E : env) (fuel : nat) (init_time timeout_us : Z)
    (cb : callback Results) (updateCallback : callback response)
  : M world Results :=
  match fuel with
  | O => out_of_fuel
  | S fuel' =>
      t <- now ;;
      if t - init_time <? timeout_us then
        response <- getRequest E "radar/results" None ;;
        j <- lift_result (response_json response) ;;
        st <- lift_result (getitem j "status") ;;
        if py_eq st (PStr "idle") then raise (bare NoChirpStartedException)
        else if py_eq st (PStr "finished") then
          (if cb_is_None cb then ret tt
           else r <- lift_result (Results_init response) ;; call cb r) ;;
          lift_result (Results_init response)
        else
          (if cb_is_None updateCallback then ret tt
           else call updateCallback response) ;;
          a <- the_api ;;
          time_sleep (resultsInterval a) ;;
          poll_results E fuel' init_time timeout_us cb updateCallback
      else raise (bare ResultsTimeoutException)
  end.

(** [Radar.__getResults] *)
Definition getResults (E : env) (fuel : nat) (cb : callback Results)
    (updateCallback : callback response) : M world Results :=
  Config_get E ;;
  init_time <- now ;;
  c <- the_config ;;
  a <- the_api ;;
  secs <- lift_result (timeoutSeconds c a) ;;
  timeout_us <- lift_result (timedelta_seconds secs) ;;
  poll_results E fuel init_time timeout_us cb updateCallback.

(** [Radar.results].  With [wait = False] the source polls in a new
    thread, which this embedding does not follow. *)
Definition results (E : env) (fuel : nat) (cb : callback Results)
    (updateCallback : callback response) (wait : bool) : M world Results :=
  if negb (cb_is_None cb) && negb (cb_callable cb)
  then raise (withmsg TypeError "Argument 'callback' should be callable.")
  else if wait then getResults E fuel cb updateCallback
  else raise (withmsg Unmodelled "threading.Thread").

(** What a burst does with a status that is not 303. *)
Definition burst_refused {A} (response : response) : M world A :=
  j <- lift_result (response_json response) ;;
  has <- lift_result (contains "errorMessage" j) ;;
  if has then
    m <- lift_result (getitem j "errorMessage") ;;
    raise (Exc RadarBusyException (Some m))
  else raise (bare RadarBusyException).


(** [Radar.burst].  The call [self.results(callback, wait)] hands [wait]
    over in the position of [updateCallback]. *)
Definition burst (E : env) (fuel : nat) (filename userData : pyval)
    (cb : callback Results) (updateCallback : callback response) (wait : bool)
  : M world (option Results) :=
  Config_get E ;;
  if py_ne filename PNone && negb (isinstance_str filename)
  then raise (withmsg ValueError "filename parameter should be of type 'str'.")
  else
  let data_obj := [("filename", filename)] in
  let data_obj :=
    if isinstance_str userData then setitem "userData" userData data_obj
    else data_obj in
  response <- postRequest E "radar/burst" (Some data_obj) None false ;;
  if negb (status_code response =? VALID_BURST_STATUS_CODE)
  then burst_refused response
  else if negb (cb_is_None cb)
  then r <- results E fuel cb (CbOther (PBool wait)) true ;; ret (Some r)
  else ret None.

(** *** class System *)

(** [datetime.datetime.strptime(v, "%Y-%m-%d %H:%M:%S")] *)
Definition parse_time (E : env) (v : pyval) : result Z :=
  match v with
  | PStr s =>
      match strptime E s with
      | Some d => Ok d
      | None => Raise (bare ValueError)
      end
  | _ => Raise (bare TypeError)
  end.

(** [System.ResetMessage] *)
Record ResetMessage : Type := mkResetMessage {
  rm_message : pyval;
  rm_time : Z }.

(** [System.reset] *)
Definition reset (E : env) : M world ResetMessage :=
  response <- postRequest E "system/reset" None None true ;;
  if negb (status_code response =? 202)
  then raise (bare SystemResetException)
  else
    j <- lift_result (response_json response) ;;
    msg <- lift_result (require "message" "No message key in response." j) ;;
    t <- lift_result (require "time" "No time key in response." j) ;;
    time <- lift_result (parse_time E t) ;;
    ret (mkResetMessage msg time).

(** [System.Housekeeping.Status]: a time stamp is [None] when the radar
    reports an empty string. *)
Record Status : Type := mkStatus {
  batteryVoltage : pyval;
  latitude : pyval;
  longitude : pyval;
  timeGPS : option Z;
  timeVAB : option Z }.

Definition timestamp_field (E : env) (v : pyval) (msg : string)
  : result (option Z) :=
  match v with
  | PStr s =>
      if 0 <? Z.of_nat (String.length s)
      then rbind (parse_time E v) (fun t => Ok (Some t))
      else Ok None
  | _ => Raise (withmsg BadResponseException msg)
  end.

(** [System.Housekeeping.Status.__init__] *)
Definition Status_init (E : env) (batVoltage timeGPS timeVAB lat long : pyval)
  : result Status :=
  if negb (is_numeric batVoltage)
  then Raise (withmsg BadResponseException
                "batteryVoltage should be a numeric type.")
  else if negb (is_numeric lat)
  then Raise (withmsg BadResponseException "latitude should be a numeric type.")
  else if negb (is_numeric long)
  then Raise (withmsg BadResponseException "longitude should be a numeric type.")
  else
    rbind (timestamp_field E timeGPS
             "timeGPS should be a string containing YYYY-mm-DD HH-MM-SS timestamp.")
      (fun tg =>
    rbind (timestamp_field E timeVAB
             "timeVAB should be a string containing YYYY-mm-DD HH-MM-SS timestamp.")
      (fun tv =>
    Ok (mkStatus batVoltage lat long tg tv))).

(** [System.Housekeeping.status] *)
Definition Housekeeping_status (E : env) : M world Status :=
  response <- getRequest E "system/housekeeping/status" None ;;
  if negb (status_code response =? 200)
  then raise (withmsg SystemHousekeepingException
                ("Unexpected status code: "
                 ++ str_of_Z (status_code response)))
  else
    j <- lift_result (response_json response) ;;
    lift_result (require_key "batteryVoltage"
                   "No batteryVoltage key in response." j) ;;
    lift_result (require_key "timeGPS" "No timeGPS key in response." j) ;;
    lift_result (require_key "timeVAB" "No timeVAB key in response." j) ;;
    lift_result (require_key "latitude" "No latitude key in response." j) ;;
    lift_result (require_key "longitude" "No longitude key in response." j) ;;
    bat <- lift_result (getitem j "batteryVoltage") ;;
    tg <- lift_result (getitem j "timeGPS") ;;
    tv <- lift_result (getitem j "timeVAB") ;;
    lat <- lift_result (getitem j "latitude") ;;
    long <- lift_result (getitem j "longitude") ;;
    lift_result (Status_init E bat tg tv lat long).

(** *** class Data *)

(** [Data.FileObject] *)
Record FileObject : Type := mkFileObject {
  fo_name : string;
  fo_path : string;
  fo_size : pyval;
  fo_date : Z }.

(** [Data.FileObject.__initFromJSON] *)
Definition FileObject_init (E : env) (resp_json : pyval) : result FileObject :=
  rbind (getitem resp_json "timestamp") (fun ts =>
  rbind (match ts with
         | PStr s =>
             match strptime E s with
             | Some d => Ok d
             | None => Raise (bare ValueError)
             end
         | _ => Raise (bare TypeError)
         end) (fun datetimeobj =>
  rbind (getitem resp_json "name") (fun name =>
  match name with
  | PStr name =>
      rbind (getitem resp_json "path") (fun path =>
      match path with
      | PStr path =>
          rbind (getitem resp_json "size") (fun size =>
          if is_numeric size
          then Ok (mkFileObject name path size datetimeobj)
          else Raise (withmsg ValueError
                 "size should be an instance of type 'float' or 'int'"))
      | _ => Raise (withmsg ValueError
               "path should be an instance of type 'str'")
      end)
  | _ => Raise (withmsg ValueError "name should be an instance of type 'str'")
  end))).

(** [Data.DirectoryListing] *)
Record DirectoryListing : Type := mkDirectoryListing {
  dl_files : list FileObject;
  dl_directories : list FileObject;
  dl_path : pyval;
  numObjectsInDir : pyval;
  numObjectsInList : pyval;
  dl_index : pyval;
  pageSize : pyval;
  pages : Z;
  page : Z }.

(** [math.ceil(a / b)] and [math.floor(a / b)] *)
Definition ceil_div (a b : pyval) : result Z :=
  rbind (truediv a b) (fun q =>
  match q with PFloat q => Ok (Qceiling q) | _ => Raise (bare TypeError) end).
Definition floor_div (a b : pyval) : result Z :=
  rbind (truediv a b) (fun q =>
  match q with PFloat q => Ok (Qfloor q) | _ => Raise (bare TypeError) end).

(** The loop of [load] that sorts the entries into directories and files. *)
Fixpoint load_files (E : env) (l : list pyval)
    (fs ds : list FileObject) : result (list FileObject * list FileObject) :=
  match l with
  | [] => Ok (fs, ds)
  | file :: l' =>
      rbind (getitem file "dir") (fun d =>
      rbind (FileObject_init E file) (fun o =>
      if truthy d then load_files E l' fs (ds ++ [o])%list
      else load_files E l' (fs ++ [o])%list ds))
  end.

(** [Data.DirectoryListing.__init__] followed by [load] *)
Definition DirectoryListing_load (E : env) (resp_json : pyval)
  : result DirectoryListing :=
  rbind (require "path" "No path key in dir listing request." resp_json)
    (fun path =>
  rbind (require_key "files" "No files key in dir listing request." resp_json)
    (fun _ =>
  rbind (getitem resp_json "length") (fun total =>
  rbind (getitem resp_json "index") (fun index =>
  rbind (getitem resp_json "list") (fun size =>
  rbind (ceil_div total size) (fun pages =>
  rbind (floor_div index size) (fun page =>
  rbind (getitem resp_json "fileCount") (fun count =>
  rbind (rbind (getitem resp_json "files") iter) (fun entries =>
  rbind (load_files E entries [] []) (fun fd =>
  Ok (mkDirectoryListing (fst fd) (snd fd) path total count index size
        pages page))))))))))).

(** [Data.dir] *)
Definition dir (E : env) (path startIndex listSize : pyval)
  : M world DirectoryListing :=
  if negb (isinstance_str path)
  then raise (withmsg ValueError "path should be of type 'str'")
  else
  response <- getRequest E "data"
    (Some [("path", path); ("index", startIndex); ("list", listSize)]) ;;
  if status_code response =? 404 then
    raise (Exc NotFoundException (Some path))
  else if status_code response =? 403 then
    raise (Exc NotADirectoryError (Some path))
  else if negb (status_code response =? 200) then
    raise (withmsg InternalRadarErrorException
             ("Radar returned unexpected status code "
              ++ str_of_Z (status_code response)))
  else
    j <- lift_result (response_json response) ;;
    lift_result (DirectoryListing_load E j).

(** [os.path.basename] and [os.path.join] on POSIX paths *)
Fixpoint basename_from (s cur : string) : string :=
  match s with
  | EmptyString => cur
  | String c s' =>
      if Ascii.eqb c "/"%char then basename_from s' ""
      else basename_from s' (cur ++ String c EmptyString)
  end.
Definition basename (p : string) : string := basename_from p "".

Definition path_join (a b : string) : string :=
  if String.prefix "/" b then b
  else match last_char a with
       | None => b
       | Some c => if Ascii.eqb c "/"%char then a ++ b else a ++ "/" ++ b
       end.

Definition mem_str (s : string) (l : list string) : bool :=
  existsb (String.eqb s) l.
Definition path_exists (w : world) (p : string) : bool :=
  mem_str p (files w) || mem_str p (dirs w).

(** [Data.download] *)
Definition download (E : env) (path : string) (dst_path : option string)
  : M world unit :=
  w <- get_state ;;
  let filename := basename path in
  let filename :=
    match dst_path with
    | Some d => if mem_str d (dirs w) then path_join d filename else d
    | None => filename
    end in
  if path_exists w filename
  then raise (Exc FileExistsError (Some (PStr filename)))
  else
  getRequest E "data/download" (Some [("path", PStr path)]) ;;
  modify (fun w => set_files (filename :: files w) w).

End apreshttp.

(** ** ApRES_RTK_SAR.py and the main loop of Run.py *)

Module ApRES_RTK_SAR.

Import apreshttp.

(** [self.stat]: "moving forward", "moving backward", "well positioned". *)
Inductive status : Type := moving_forward | moving_backward | well_positioned.

Definition status_eqb (a b : status) : bool :=
  match a, b with
  | moving_forward, moving_forward
  | moving_backward, moving_backward
  | well_positioned, well_positioned => true
  | _, _ => false
  end.

(** The attributes of the controller object that the methods below use.
    [refLat] and [refLon] are [None] while they hold the empty list they
    are initialised with. *)
Record ARS : Type := mkARS {
  nPnt : Z;
  time : string;
  lat : Q;
  lon : Q;
  alt : Q;
  geoid : Q;
  iquality : Z;
  refLat : option Q;
  refLon : option Q;
  moveDist : Q;
  rmndst : Q;
  stepsize : Q;
  min_err : Q;
  max_err : Q;
  stat : status;
  RTKsens : bool;
  DownloadFile : bool;
  DownloadFolder : string;
  t0_WPL : Z;
  wpl_int : Q }.

(** The controller together with the world it acts on ([self.ApRES] is
    the [api] of the world). *)
Record system : Type := mkSystem { self : ARS; outside : world }.

Definition liftW {A} (m : M world A) : M system A :=
  fun s =>
    match m (outside s) with
    | Some (r, w) => Some (r, mkSystem (self s) w)
    | None => None
    end.

Definition me : M system ARS := fun s => Some (Ok (self s), s).
Definition assign (f : ARS -> ARS) : M system unit :=
  modify (fun s => mkSystem (f (self s)) (outside s)).

Definition set_nPnt (v : Z) (o : ARS) : ARS :=
  mkARS v (time o) (lat o) (lon o) (alt o) (geoid o) (iquality o) (refLat o)
    (refLon o) (moveDist o) (rmndst o) (stepsize o) (min_err o) (max_err o)
    (stat o) (RTKsens o) (DownloadFile o) (DownloadFolder o) (t0_WPL o)
    (wpl_int o).
Definition set_ref (la lo : option Q) (o : ARS) : ARS :=
  mkARS (nPnt o) (time o) (lat o) (lon o) (alt o) (geoid o) (iquality o) la lo
    (moveDist o) (rmndst o) (stepsize o) (min_err o) (max_err o)
    (stat o) (RTKsens o) (DownloadFile o) (DownloadFolder o) (t0_WPL o)
    (wpl_int o).
Definition set_moveDist (d : Q) (o : ARS) : ARS :=
  mkARS (nPnt o) (time o) (lat o) (lon o) (alt o) (geoid o) (iquality o)
    (refLat o) (refLon o) d (rmndst o) (stepsize o) (min_err o) (max_err o)
    (stat o) (RTKsens o) (DownloadFile o) (DownloadFolder o) (t0_WPL o)
    (wpl_int o).
Definition set_rmndst (d : Q) (o : ARS) : ARS :=
  mkARS (nPnt o) (time o) (lat o) (lon o) (alt o) (geoid o) (iquality o)
    (refLat o) (refLon o) (moveDist o) d (stepsize o) (min_err o) (max_err o)
    (stat o) (RTKsens o) (DownloadFile o) (DownloadFolder o) (t0_WPL o)
    (wpl_int o).
Definition set_stat (s : status) (o : ARS) : ARS :=
  mkARS (nPnt o) (time o) (lat o) (lon o) (alt o) (geoid o) (iquality o)
    (refLat o) (refLon o) (moveDist o) (rmndst o) (stepsize o) (min_err o)
    (max_err o) s (RTKsens o) (DownloadFile o) (DownloadFolder o) (t0_WPL o)
    (wpl_int o).
Definition set_t0_WPL (t : Z) (o : ARS) : ARS :=
  mkARS (nPnt o) (time o) (lat o) (lon o) (alt o) (geoid o) (iquality o)
    (refLat o) (refLon o) (moveDist o) (rmndst o) (stepsize o) (min_err o)
    (max_err o) (stat o) (RTKsens o) (DownloadFile o) (DownloadFolder o) t
    (wpl_int o).

(** A parsed GGA sentence, as [ParseGGA] stores it. *)
Record gpsfix : Type := mkFix {
  fix_time : string;
  fix_lat : Q;
  fix_lon : Q;
  fix_alt : Q;
  fix_geoid : Q;
  fix_quality : Z }.

(** [updateGPS]: the attributes after the sentence that was parsed. *)
Definition updateGPS (f : gpsfix) : M system unit :=
  assign (fun o =>
    mkARS (nPnt o) (fix_time f) (fix_lat f) (fix_lon f) (fix_alt f)
      (fix_geoid f) (fix_quality f) (refLat o) (refLon o) (moveDist o)
      (rmndst o) (stepsize o) (min_err o) (max_err o) (stat o) (RTKsens o)
      (DownloadFile o) (DownloadFolder o) (t0_WPL o) (wpl_int o)).

(** [os.system("say '...'")] blocks while the message is spoken. *)
Definition say (E : env) (words : string) : M system unit :=
  liftW (emit (Say words) ;; elapse (Z.of_N (say_time E words))).
Definition print (template : string) (args : list pyval) : M system unit :=
  liftW (emit (Printed template args)).
Definition log (l : level) (template : string) (args : list pyval)
  : M system unit :=
  liftW (emit (Log l template args)).

(** [round(x, 0)] and [round(x, 1)] on floats *)
Definition round0 (x : Q) : Q := inject_Z (round_half_even x).
Definition round1 (x : Q) : Q := (inject_Z (round_half_even (x * 10)) / 10)%Q.

(** [round(x, 7)] on floats *)
Definition round7 (x : Q) : Q :=
  (inject_Z (round_half_even (x * 10000000)) / 10000000)%Q.

(** [DecimalDegree]: from the degrees and minutes of a GGA sentence
    ([ddmm.mmmm]) and its hemisphere to signed degrees.  [int(x)] rounds
    towards zero and [//] towards minus infinity. *)
Definition DecimalDegree (x : Q) (dir : string) : Q :=
  let Deg := (if Qle_bool 0 x then Qfloor x else Qceiling x) / 100 in
  let Min := (x - inject_Z (100 * Deg))%Q in
  let dd := round7 (inject_Z Deg + Min / 60) in
  let conA := String.eqb dir "N" && Qltb dd 0 in
  let conB := String.eqb dir "S" && Qltb 0 dd in
  let conC := String.eqb dir "E" && Qltb dd 0 in
  let conD := String.eqb dir "W" && Qltb 0 dd in
  if conA || conB || conC || conD then (- dd)%Q else dd.

(** [DeltaTime]: seconds and microseconds of [now - t0], days dropped. *)
Definition DeltaTime (t0 : Z) : M system Q :=
  t <- liftW now ;;
  let d := t - t0 in
  let seconds := (d / second) mod 86400 in
  let microseconds := d mod second in
  ret (round1 (inject_Z seconds + inject_Z microseconds / 1000000)%Q).

Definition TRY_BURST_TIMEOUT : Z := 30.

(** The retry loop of [robustBurst]; returns [last_burst] at its exit. *)
Fixpoint try_burst (E : env) (fuel : nat) (fn : string)
    (last_burst attempts : Z) : M system Z :=
  match fuel with
  | O => out_of_fuel
  | S fuel' =>
      t <- liftW now ;;
      if t - last_burst <? TRY_BURST_TIMEOUT * second then
        started <- try_except
          (print "INFO: burst started (attempt: {attempts})" [PInt attempts] ;;
           log LvInfo "burst started (attempt: {attempts})" [PInt attempts] ;;
           liftW (burst E fuel' (PStr fn) PNone CbNone CbNone true) ;;
           print "INFO: burst finished" [] ;;
           log LvInfo "burst finished" [] ;;
           t' <- liftW now ;;
           ret (Some t'))
          (fun e =>
             if is_instance e RadarBusyException then
               print "WARNING: radar busy, trying again" [] ;;
               log LvWarning "radar busy, trying again" [] ;;
               say E "radar busy trying again" ;;
               ret None
             else if is_instance e ConnectionError then
               print "WARNING: connection to radar rejected, trying again" [] ;;
               log LvWarning "connection to radar rejected, trying again" [] ;;
               say E "hold on" ;;
               ret None
             else raise e) ;;
        match started with
        | Some t' => ret t'
        | None => try_burst E fuel' fn last_burst (attempts + 1)
        end
      else ret last_burst
  end.

(** The fixed wait that stands where the results were polled. *)
Fixpoint waiting (fuel : nat) (t : Z) : M system unit :=
  match fuel with
  | O => out_of_fuel
  | S fuel' =>
      print "{t}/27" [PInt t] ;;
      liftW (sleep 1) ;;
      let t := t + 1 in
      if 27 <? t then ret tt else waiting fuel' t
  end.

(** The download block of [robustBurst], inside its [try]. *)
Definition fetch (E : env) (fn : string) : M system unit :=
  o <- me ;;
  if DownloadFile o then
    let dlpath := "./DownloadedFiles/" ++ DownloadFolder o ++ "/" in
    s <- get_state ;;
    if negb (path_exists (outside s) fn) then
      print "INFO: download started" [] ;;
      log LvInfo "download started" [] ;;
      liftW (download E ("Survey/" ++ fn) None) ;;
      s <- get_state ;;
      (if negb (path_exists (outside s) dlpath)
       then liftW (modify (fun w => set_dirs (dlpath :: dirs w) w))
       else ret tt) ;;
      liftW (modify (fun w =>
        set_files ((dlpath ++ fn)
                   :: filter (fun f => negb (String.eqb f fn)) (files w)) w)) ;;
      print "INFO: download finished" [] ;;
      log LvInfo "download finished" [] ;;
      say E "download finished"
    else ret tt
  else ret tt.

(** [robustBurst]; it returns [results_obj], which is always [None]. *)
Definition robustBurst (E : env) (fuel : nat) : M system (option Results) :=
  say E "Shooting" ;;
  assign (fun o => set_nPnt (nPnt o + 1) o) ;;
  o <- me ;;
  t <- liftW now ;;
  let fn := str_of_Z (nPnt o) ++ "_SARRTK_" ++ strftime E t ++ ".dat" in
  print "INFO: burst file name: {fn}" [PStr fn] ;;
  last_burst <- liftW now ;;
  last_burst <- try_burst E fuel fn last_burst 1 ;;
  t <- liftW now ;;
  (if TRY_BURST_TIMEOUT * second <=? t - last_burst then
     print "CRITICAL: burst failed after trying for {TRY_BURST_TIMEOUT} seconds"
       [PInt TRY_BURST_TIMEOUT] ;;
     print "CRITICAL: not getting results" [] ;;
     log LvCritical "burst failed after trying for {TRY_BURST_TIMEOUT} seconds"
       [PInt TRY_BURST_TIMEOUT] ;;
     log LvCritical "not getting results" [] ;;
     say E "fatal error" ;;
     say E "restart the system"
   else ret tt) ;;
  say E "waiting" ;;
  waiting fuel 0 ;;
  try_except (fetch E fn)
    (fun _ =>
       print "ERROR: download failed" [] ;;
       log LvError "download failed" [] ;;
       say E "download failed") ;;
  o <- me ;;
  let info := [PInt (nPnt o); PStr (time o); PFloat (lat o); PFloat (lon o);
               PFloat (alt o); PFloat (moveDist o); PInt (iquality o)] in
  print ">>>>>>>>>>>>>>>>>>>>>>>>>>>>>>>>>>>>>>>>>>>>>>>>>>>>" [] ;;
  print "INFO: point name --> {fn}" [PStr fn] ;;
  print "INFO: point info: {self.nPnt},{self.time},{self.lat},{self.lon},{self.alt},{self.moveDist},{self.iquality}" info ;;
  print "<<<<<<<<<<<<<<<<<<<<<<<<<<<<<<<<<<<<<<<<<<<<<<<<<<<<" [] ;;
  log LvInfo ">>>>>>>>>>>>>>>>>>>>>>>>>>>>>>>>>>>>>>>>>>>>>>>>>>>>" [] ;;
  log LvInfo "#PointName${fn}" [PStr fn] ;;
  log LvInfo "#PointInfo${self.nPnt},{self.time},{self.lat},{self.lon},{self.alt},{self.moveDist},{self.iquality}" info ;;
  log LvInfo "<<<<<<<<<<<<<<<<<<<<<<<<<<<<<<<<<<<<<<<<<<<<<<<<<<<<" [] ;;
  say E "DONE" ;;
  liftW (sleep 1) ;;
  say E "GO" ;;
  ret None.

Definition is_rtk (q : Z) : bool := (q =? 4) || (q =? 5).

(** [updateDistance].  With one of the two reference attributes still
    empty [haversine] is handed a list and raises. *)
Definition updateDistance (E : env) : M system unit :=
  o <- me ;;
  let RTKcond := if RTKsens o then is_rtk (iquality o) else true in
  match refLon o, refLat o with
  | None, None =>
      assign (fun o => set_moveDist 0 (set_ref (Some (lat o)) (Some (lon o)) o))
  | _, _ =>
      if RTKcond then
        match refLat o, refLon o with
        | Some rla, Some rlo =>
            let d := (haversine E (lat o, lon o) (rla, rlo) * 100)%Q in
            assign (set_moveDist d) ;;
            assign (set_moveDist (round0 d)) ;;
            o <- me ;;
            assign (set_rmndst (round0 (stepsize o - moveDist o))) ;;
            o <- me ;;
            if negb (status_eqb (stat o) well_positioned) then
              dt <- DeltaTime (t0_WPL o) ;;
              if Qltb (wpl_int o) dt then
                (if Qle_bool 0 (rmndst o)
                 then print "go forward --> {self.rmndst} [cm]"
                        [PFloat (rmndst o)]
                 else print "go backward --> {-self.rmndst} [cm]"
                        [PFloat (- rmndst o)]) ;;
                t <- liftW now ;;
                assign (set_t0_WPL t)
              else ret tt
            else ret tt
        | _, _ => raise (bare TypeError)
        end
      else
        say E "RTK is not available" ;;
        print "ERROR: rtk is not available" [] ;;
        log LvError "rtk is not available" [] ;;
        liftW (sleep 2)
  end.

(** [triggerApRES] *)
Definition triggerApRES (E : env) (fuel : nat) : M system unit :=
  o <- me ;;
  if is_rtk (iquality o) then
    (if status_eqb (stat o) moving_forward then
       if Qltb (max_err o) (moveDist o) then
         assign (set_stat moving_backward) ;;
         say E "Wait" ;;
         say E "Stop" ;;
         say E "Go Back" ;;
         say E "{round(self.moveDist-self.max_err,0)} to {round(self.moveDist-self.min_err,0)} centimeters"
       else ret tt
     else ret tt) ;;
    o <- me ;;
    (if status_eqb (stat o) moving_backward then
       if Qltb (moveDist o) (min_err o) then
         assign (set_stat moving_forward) ;;
         say E "Wait" ;;
         say E "Stop" ;;
         say E "Go Forward" ;;
         say E "{round(self.min_err-self.moveDist,0)} to {round(self.max_err-self.moveDist,0)} centimeters"
       else ret tt
     else ret tt) ;;
    o <- me ;;
    if negb (status_eqb (stat o) well_positioned) then
      if Qltb (min_err o) (moveDist o) && Qltb (moveDist o) (max_err o) then
        assign (set_stat well_positioned) ;;
        say E "Wait" ;;
        liftW (sleep 1) ;;
        say E "Stop" ;;
        robustBurst E fuel ;;
        assign (fun o => set_ref (Some (lat o)) (Some (lon o)) o) ;;
        assign (set_stat moving_forward)
      else ret tt
    else ret tt
  else ret tt.

(** One turn of the main loop of [Run.py]. *)
Definition cycle (E : env) (fuel : nat) (f : gpsfix) : M system unit :=
  updateGPS f ;;
  updateDistance E ;;
  triggerApRES E fuel.

End ApRES_RTK_SAR.

Import apreshttp ApRES_RTK_SAR.

(* ===================================================================== *)
(** * Part II: radars, sledges and fixes to run the programs on           *)
(* ===================================================================== *)

Module Scenario.

Definition json_reply (status : Z) (j : pyval) : response :=
  mkResponse status (Some "application/json") (Some j) "".

(** The configuration a radar reports, with the eight keys of
    [radar/config]. *)
Record device_config : Type := mkDevice {
  d_nAttenuators : Z;
  d_nSubBursts : Z;
  d_nAverages : Z;
  d_rfAttn : list Q;
  d_afGain : list Q;
  d_userData : string;
  d_txAntenna : list Z;
  d_rxAntenna : list Z }.

Definition config_json (d : device_config) : pyval :=
  PDict [("nAttenuators", PInt (d_nAttenuators d));
         ("nSubBursts", PInt (d_nSubBursts d));
         ("nAverages", PInt (d_nAverages d));
         ("rfAttn", PList (map PFloat (d_rfAttn d)));
         ("afGain", PList (map PFloat (d_afGain d)));
         ("userData", PStr (d_userData d));
         ("txAntenna", PList (map PInt (d_txAntenna d)));
         ("rxAntenna", PList (map PInt (d_rxAntenna d)))].

(** The cache after that configuration has been read. *)
Definition config_of (d : device_config) : Config :=
  mkConfig (PInt (d_nAttenuators d)) (PInt (d_nSubBursts d))
    (PInt (d_nAverages d)) (PList (map PFloat (d_afGain d)))
    (PList (map PFloat (d_rfAttn d))) (Some (PStr (d_userData d)))
    (Some (PTuple (map PInt (d_txAntenna d))))
    (Some (PTuple (map PInt (d_rxAntenna d)))).

(** The settings of [Run.py]: one attenuator, five sub-bursts, two
    transmitters and two receivers. *)
Definition survey_config : device_config :=
  mkDevice 1 5 0 [25%Q] [(-14)%Q] "" [1; 1; 0; 0; 0; 0; 0; 0]
    [1; 0; 1; 0; 0; 0; 0; 0].

Definition ends_with (suffix s : string) : bool :=
  let n := String.length s in
  let k := String.length suffix in
  (k <=? n)%nat && String.eqb (substring (n - k) k s) suffix.

Definition quiet_env (r : Z -> request -> exchange) : env :=
  mkEnv r (fun _ _ => 0%Q) (fun _ => "20240101_120000") (fun _ => Some 0)
    (fun _ => 0%N).

(** The API object of [InitiateApRES]. *)
Definition fresh_api : API :=
  mkAPI "http://192.168.1.1" 30 1 2 false 0 "18052021" empty_config.

Definition fresh_world : world := mkWorld 0 fresh_api [] [] [] [].

(** The second page of a directory of twenty objects, sixteen per page. *)
Definition entry_json (name : string) (is_dir : bool) : pyval :=
  PDict [("name", PStr name); ("path", PStr ("Survey/" ++ name));
         ("size", PInt 4096); ("timestamp", PStr "2024-01-01 12:00:00");
         ("dir", PBool is_dir)].

Definition page2_json : pyval :=
  PDict [("path", PStr "Survey"); ("length", PInt 20); ("index", PInt 16);
         ("list", PInt 16); ("fileCount", PInt 4);
         ("files", PList [entry_json "17_SARRTK.dat" false;
                          entry_json "18_SARRTK.dat" false;
                          entry_json "old" true;
                          entry_json "20_SARRTK.dat" false])].

Definition file_object (name : string) : FileObject :=
  mkFileObject name ("Survey/" ++ name) (PInt 4096) 0.

Definition page2_listing : DirectoryListing :=
  mkDirectoryListing
    [file_object "17_SARRTK.dat"; file_object "18_SARRTK.dat";
     file_object "20_SARRTK.dat"]
    [file_object "old"]
    (PStr "Survey") (PInt 20) (PInt 4) (PInt 16) (PInt 16) 2 1.

Definition silent_radar : Z -> request -> exchange :=
  fun _ _ => mkExchange 0 Unreachable.

(** A radar that reports the configuration [d] to every request with
    status 200, whatever is posted to it: it silently keeps its settings. *)
Definition steady_radar (d : device_config) : Z -> request -> exchange :=
  fun _ _ => mkExchange 1000 (Reply (json_reply 200 (config_json d))).

(** What a run returned, and what it put on the wire (oldest first). *)
Definition returned {St A} (r : option (result A * St)) : option (result A) :=
  match r with
  | Some (x, _) => Some x
  | None => None
  end.

Definition final {St A} (r : option (result A * St)) : option St :=
  match r with
  | Some (_, s) => Some s
  | None => None
  end.

Definition sent (w : option world) : list (verb * string * dict) :=
  match w with
  | Some w => rev (map (fun rq => (req_verb rq, req_url rq, req_data rq)) (wire w))
  | None => []
  end.

Definition cached (w : option world) : option Config :=
  match w with
  | Some w => Some (config (api w))
  | None => None
  end.

Definition no_antenna : pyval := PTuple (repeat (PInt 0) 8).

(** An antenna flag. *)
Definition binary (v : pyval) : Prop := v = PInt 0 \/ v = PInt 1.

Definition survey_env : env := quiet_env (steady_radar survey_config).

(** A radar that reports [d] when asked for its configuration and
    answers every POST with the exchange [post]. *)
Definition scripted_radar (d : device_config) (post : exchange)
  : Z -> request -> exchange :=
  fun _ rq =>
    match req_verb rq with
    | GET => mkExchange 1000 (Reply (json_reply 200 (config_json d)))
    | POST => post
    end.

(** Replies to a burst request: started, refused with and without a
    message, and no reply at all. *)
Definition started : exchange :=
  mkExchange 1000 (Reply (mkResponse 303 None None "")).

(** Refusals whose body is not a JSON object: a JSON number, and a page of
    text. *)
Definition refused_with_number : exchange :=
  mkExchange 1000 (Reply (mkResponse 403 None (Some (PInt 5)) "5")).
Definition refused_in_text : exchange :=
  mkExchange 1000 (Reply (mkResponse 403 (Some "text/html") None "busy")).

Definition burst_env (post : exchange) : env :=
  quiet_env (scripted_radar survey_config post).

(** The configuration of the timeout example: two transmitters, one
    receiver, five sub-bursts, no average, one attenuator. *)
Definition example_config : device_config :=
  mkDevice 1 5 0 [25%Q] [(-14)%Q] "" [1; 1; 0; 0; 0; 0; 0; 0]
    [1; 0; 0; 0; 0; 0; 0; 0].

(** A radar that is busy for ever: it reports [d] on [radar/config] and
    "busy" on every other route, half a second after each request. *)
Definition busy_radar (d : device_config) : Z -> request -> exchange :=
  fun _ rq =>
    if ends_with "/api/radar/config" (req_url rq)
    then mkExchange 500000 (Reply (json_reply 200 (config_json d)))
    else mkExchange 500000
           (Reply (json_reply 200 (PDict [("status", PStr "busy")]))).

(** The sledge of [Run.py] after its first shot: steps of 150 cm, the band
    from [min_err] to [max_err], RTK required, nothing downloaded.  It
    stands on its reference point. *)
Definition sledge (st : status) (min_err max_err : Q) : ARS :=
  mkARS 0 "120000.00" 0 0 0 0 4 (Some 0%Q) (Some 0%Q) 0 0 150 min_err max_err
    st true false "RTK150cmMan" 0 (1 # 2).

Definition on_site (o : ARS) : system := mkSystem o fresh_world.

(** The controller fed with displacements instead of fixes: the state and
    the number of shots after each of them. *)
Fixpoint displacements (E : env) (fuel : nat) (ds : list Q) (s : system)
  : list (status * Z) :=
  match ds with
  | [] => []
  | d :: ds' =>
      match (assign (set_moveDist d) ;; triggerApRES E fuel) s with
      | Some (Ok _, s') =>
          (stat (self s'), nPnt (self s')) :: displacements E fuel ds' s'
      | _ => []
      end
  end.

(** The bursts requested so far. *)
Definition bursts_sent (s : option system) : list string :=
  match s with
  | Some s =>
      rev (flat_map (fun rq =>
             if ends_with "/api/radar/burst" (req_url rq)
             then match lookup "filename" (req_data rq) with
                  | Some (PStr f) => [f]
                  | _ => []
                  end
             else []) (wire (outside s)))
  | None => []
  end.

(** A stand-in for the great-circle distance on the scale of a survey
    line: degrees of latitude and longitude counted as 111320 m each. *)
Definition flat_distance (p q : Q * Q) : Q :=
  ((Qabs (fst p - fst q) + Qabs (snd p - snd q)) * 111320)%Q.

(** A radar that starts every burst, one second per exchange. *)
Definition willing_radar : Z -> request -> exchange :=
  fun _ rq =>
    match req_verb rq with
    | GET => mkExchange 1000000 (Reply (json_reply 200 (config_json survey_config)))
    | POST => mkExchange 1000000 (Reply (mkResponse 303 None None ""))
    end.

(** A radar that is busy with an earlier burst, and one that is switched
    off; each attempt to reach them takes a second. *)
Definition occupied_radar : Z -> request -> exchange :=
  fun _ rq =>
    match req_verb rq with
    | GET => mkExchange 1000000 (Reply (json_reply 200 (config_json survey_config)))
    | POST => mkExchange 1000000 (Reply (json_reply 503
                (PDict [("errorCode", PInt 503);
                        ("errorMessage", PStr "Radar busy")])))
    end.

Definition absent_radar : Z -> request -> exchange :=
  fun _ _ => mkExchange 1000000 Unreachable.

Definition field_env (r : Z -> request -> exchange) : env :=
  mkEnv r flat_distance (fun _ => "20240101_120000") (fun _ => Some 0)
    (fun _ => 1500000%N).

(** A fix with RTK quality [cm] centimetres north of the origin. *)
Definition fix_north (cm : Z) : gpsfix :=
  mkFix "120000.00" (cm # 11132000) 0 0 0 4.

(** The main loop fed with fixes: the state and the number of shots after
    each turn. *)
Fixpoint cycles (E : env) (fuel : nat) (fs : list gpsfix) (s : system)
  : list (status * Z) :=
  match fs with
  | [] => []
  | f :: fs' =>
      match cycle E fuel f s with
      | Some (Ok _, s') =>
          (stat (self s'), nPnt (self s')) :: cycles E fuel fs' s'
      | _ => []
      end
  end.

(** A radar that answers as [willing_radar] does as long as the client has
    sent no more than [k] requests, and is out of reach from then on. *)
Definition fading_radar (k : Z) : Z -> request -> exchange :=
  fun n rq => if n <=? k then willing_radar n rq else absent_radar n rq.

(** The controller fed with displacements, the evaluation that raises
    included: whether each evaluation returned, the state it left and the
    number of shots counted.  The run ends with the evaluation that
    raises. *)
Fixpoint evaluations (E : env) (fuel : nat) (ds : list Q) (s : system)
  : list (bool * status * Z) :=
  match ds with
  | [] => []
  | d :: ds' =>
      match (assign (set_moveDist d) ;; triggerApRES E fuel) s with
      | Some (Ok _, s') =>
          (true, stat (self s'), nPnt (self s')) :: evaluations E fuel ds' s'
      | Some (Raise _, s') => [(false, stat (self s'), nPnt (self s'))]
      | None => []
      end
  end.

(** The main loop fed with fixes: the state, the number of shots, the
    displacement and the latitude of the reference point after each
    turn. *)
Fixpoint turns (E : env) (fuel : nat) (fs : list gpsfix) (s : system)
  : list (status * Z * Q * option Q) :=
  match fs with
  | [] => []
  | f :: fs' =>
      match cycle E fuel f s with
      | Some (Ok _, s') =>
          (stat (self s'), nPnt (self s'), moveDist (self s'),
           refLat (self s')) :: turns E fuel fs' s'
      | _ => []
      end
  end.

(** The records of a given level in the log, oldest first. *)
Definition logged (l : level) (s : option system) : list string :=
  match s with
  | Some s =>
      rev (flat_map (fun e =>
             match e with
             | Log l' t _ =>
                 match l, l' with
                 | LvInfo, LvInfo | LvWarning, LvWarning | LvError, LvError
                 | LvCritical, LvCritical => [t]
                 | _, _ => []
                 end
             | _ => []
             end) (events (outside s)))
  | None => []
  end.

Definition spoken (s : option system) : list string :=
  match s with
  | Some s =>
      rev (flat_map (fun e => match e with Say t => [t] | _ => [] end)
             (events (outside s)))
  | None => []
  end.

(** The routes requested, oldest first. *)
Definition routes (s : option system) : list (verb * string) :=
  match s with
  | Some s => rev (map (fun rq => (req_verb rq, req_url rq)) (wire (outside s)))
  | None => []
  end.


(** A configuration whose chirps would take longer than a [timedelta]
    can hold. *)
Definition endless_config : device_config :=
  mkDevice 1 (10 ^ 14) 0 [25%Q] [(-14)%Q] "" [1; 0; 0; 0; 0; 0; 0; 0]
    [1; 0; 0; 0; 0; 0; 0; 0].

End Scenario.

Import Scenario.

(** ** Vocabulary of the statements *)

Module Spec.





(** The number of antennas switched on in a mask. *)
Definition total (mask : list Z) : Z := fold_right Z.add 0 mask.

(** A reported configuration with one setting per attenuator. *)
Definition well_formed (d : device_config) : Prop :=
  Z.of_nat (List.length (d_rfAttn d)) = d_nAttenuators d
  /\ Z.of_nat (List.length (d_afGain d)) = d_nAttenuators d.

(** The requests [getRequest] and [postRequest] put on the wire, and the
    world once the exchange has taken [l] microseconds. *)
Definition get_request (a : API) (url : string) (data : option dict)
  : request :=
  mkRequest GET (formCompleteURL a url)
    (let d := match data with None => [] | Some d => d end in
     if debugEnable a then setitem "requestid" (PInt (requestCount a + 1)) d
     else d)
    None true.

Definition post_request (a : API) (url : string) (data : option dict)
    (files : option dict) (redirects : bool) : request :=
  mkRequest POST (formCompleteURL a url)
    (let d := match data with
              | None => [("apikey", PStr (apiKey a))]
              | Some d => if has_key "apikey" d then d
                          else setitem "apikey" (PStr (apiKey a)) d
              end in
     if debugEnable a then setitem "requestid" (PInt (requestCount a + 1)) d
     else d)
    files redirects.

Definition after_exchange (w : world) (rq : request) (l : N) : world :=
  mkWorld (clock w + Z.of_N l)
    (set_requestCount (requestCount (api w) + 1) (api w))
    (rq :: wire w) (events w) (files w) (dirs w).

(** The request [Radar.Config.get] sends. *)
Definition config_request (a : API) : request :=
  mkRequest GET (formCompleteURL a "radar/config")
    (if debugEnable a then [("requestid", PInt (requestCount a + 1))] else [])
    None true.

(** The timeout of the wait for the results as the documentation gives it,
    in seconds: two seconds for every chirp of every pair of antennas at
    every attenuator setting, and the HTTP timeout on top. *)
Definition timeout_formula (d : device_config) (a : API) : Z :=
  total (d_txAntenna d) * total (d_rxAntenna d)
  * (d_nSubBursts d + d_nAverages d) * d_nAttenuators d * 2
  + timeout a.

(** A response to [radar/results] while the burst is under way: it passes
    the validation and its status is neither "idle" nor "finished". *)
Definition still_busy (r : response) : Prop :=
  validateResponse r = Ok tt
  /\ exists j st, json r = Some j /\ getitem j "status" = Ok st
       /\ py_eq st (PStr "idle") = false
       /\ py_eq st (PStr "finished") = false.

(** The world after [Radar.Config.get] has read the configuration [d]
    in an exchange that took [l] microseconds. *)
Definition after_get (w : world) (d : device_config) (l : N) : world :=
  mkWorld (clock w + Z.of_N l)
    (set_config (config_of d)
       (set_requestCount (requestCount (api w) + 1) (api w)))
    (config_request (api w) :: wire w) (events w) (files w) (dirs w).

(** A computation that leaves the controller object as it is, whatever it
    does to the world and however it ends. *)
Definition keeps_self {A} (m : M system A) : Prop :=
  forall s r s', m s = Some (r, s') -> self s' = self s.

(** [DeltaTime] read at the clock value [t]. *)
Definition DeltaTime_at (t t0 : Z) : Q :=
  round1 (inject_Z (((t - t0) / second) mod 86400)
          + inject_Z ((t - t0) mod second) / 1000000)%Q.

(** What [updateDistance] does to the controller object when the clock
    shows [t]; [None] when [haversine] is handed an empty reference. *)
Definition distance_effect (E : env) (t : Z) (o : ARS) : option ARS :=
  let RTKcond := if RTKsens o then is_rtk (iquality o) else true in
  match refLon o, refLat o with
  | None, None =>
      Some (set_moveDist 0 (set_ref (Some (lat o)) (Some (lon o)) o))
  | _, _ =>
      if RTKcond then
        match refLat o, refLon o with
        | Some rla, Some rlo =>
            let d := (haversine E (lat o, lon o) (rla, rlo) * 100)%Q in
            let o1 := set_moveDist (round0 d) (set_moveDist d o) in
            let o2 := set_rmndst (round0 (stepsize o1 - moveDist o1)) o1 in
            if negb (status_eqb (stat o2) well_positioned)
               && Qltb (wpl_int o2) (DeltaTime_at t (t0_WPL o2))
            then Some (set_t0_WPL t o2)
            else Some o2
        | _, _ => None
        end
      else Some o
  end.

(** What [triggerApRES] does to the controller object when it returns, and
    whether it has called [robustBurst]. *)
Definition trigger_effect (o : ARS) : ARS * bool :=
  if is_rtk (iquality o) then
    let o1 :=
      if status_eqb (stat o) moving_forward
         && Qltb (max_err o) (moveDist o)
      then set_stat moving_backward o else o in
    let o2 :=
      if status_eqb (stat o1) moving_backward
         && Qltb (moveDist o1) (min_err o1)
      then set_stat moving_forward o1 else o1 in
    if negb (status_eqb (stat o2) well_positioned)
       && (Qltb (min_err o2) (moveDist o2) && Qltb (moveDist o2) (max_err o2))
    then
      let o3 := set_nPnt (nPnt o2 + 1) (set_stat well_positioned o2) in
      (set_stat moving_forward
         (set_ref (Some (lat o3)) (Some (lon o3)) o3), true)
    else (o2, false)
  else (o, false).

(** The attributes a parsed sentence overwrites. *)
Definition with_fix (f : gpsfix) (o : ARS) : ARS :=
  mkARS (nPnt o) (fix_time f) (fix_lat f) (fix_lon f) (fix_alt f)
    (fix_geoid f) (fix_quality f) (refLat o) (refLon o) (moveDist o)
    (rmndst o) (stepsize o) (min_err o) (max_err o) (stat o) (RTKsens o)
    (DownloadFile o) (DownloadFolder o) (t0_WPL o) (wpl_int o).

(** The exception class that the error code of a response stands for. *)
Definition error_of_code (code : Z) : option exn_class :=
  if code =? 401 then Some InvalidAPIKeyException
  else if code =? 404 then Some NotFoundException
  else if code =? 500 then Some InternalRadarErrorException
  else if code =? 503 then Some RadarBusyException
  else None.

(** The form fields [set] builds when it is given the number of averages,
    the antenna masks and the user data only. *)
Definition requested (nAverages txAnt rxAnt userData : pyval) : result dict :=
  rbind (numeric_field "nAverages" "nAverages should be numeric" nAverages [])
    (fun d =>
  rbind (antenna_entry "txAntenna" "txAnt" txAnt d) (fun d =>
  rbind (antenna_entry "rxAntenna" "rxAnt" rxAnt d) (fun d =>
  Ok (if py_ne userData PNone && isinstance_str userData
      then setitem "userData" userData d else d)))).

(** The world after [set] has posted [data] and read back the
    configuration [d]. *)
Definition after_set (w : world) (d : device_config) (data : dict) (l1 l2 : N)
  : world :=
  let w1 := after_get w d l1 in
  let w2 := after_exchange w1
              (post_request (api w1) "radar/config" (Some data) None true) l2 in
  set_api (set_config (config_of d) (api w2)) w2.

(** The world after a record has been written, and after a message has
    been spoken. *)
Definition noted (e : event) (w : world) : world :=
  set_events (e :: events w) w.
Definition heard (E : env) (words : string) (w : world) : world :=
  set_clock (clock (noted (Say words) w) + Z.of_N (say_time E words))
    (noted (Say words) w).

(** Where [Data.download] writes the file. *)
Definition download_target (w : world) (path : string)
    (dst_path : option string) : string :=
  match dst_path with
  | Some d => if mem_str d (dirs w) then path_join d (basename path) else d
  | None => basename path
  end.

End Spec.

Import Spec.

(* ===================================================================== *)
(** * Part III: properties                                                *)
(* ===================================================================== *)

(** ** Generic facts *)

Lemma rbind_Ok {A B} (r : result A) (k : A -> result B) (b : B) :
  rbind r k = Ok b -> exists a, r = Ok a /\ k a = Ok b.
Proof.
  destruct r as [a | e]; simpl; intros H.
  - exists a. split; [reflexivity | exact H].
  - discriminate H.
Qed.

Ltac rbind_inv H :=
  let a := fresh "a" in
  let Ha := fresh "Ha" in
  apply rbind_Ok in H; destruct H as (a & Ha & H).

Lemma Qltb_true (x y : Q) : Qltb x y = true <-> (x < y)%Q.
Proof.
  unfold Qltb. rewrite negb_true_iff. split.
  - intros H. apply Qnot_le_lt. intros Hle.
    apply Qle_bool_iff in Hle. congruence.
  - intros H. destruct (Qle_bool y x) eqn:Hle; [| reflexivity].
    apply Qle_bool_iff in Hle. apply Qlt_not_le in H. contradiction.
Qed.

Lemma Qltb_false (x y : Q) : Qltb x y = false <-> (y <= x)%Q.
Proof.
  unfold Qltb. rewrite negb_false_iff. apply Qle_bool_iff.
Qed.

(** ** The root URL (API.assignRootURL, APIChild.formCompleteURL) *)

(** C7.  The sanitiser removes one trailing character only: a root given
    with two trailing slashes is stored with a trailing slash, and the
    request URL built from it has two slashes before [api]; the empty
    string is stored as ["http:/"], which does not even start with
    ["http://"]. *)
Theorem assignRootURL_leaves_a_slash :
  assignRootURL (PStr "192.168.1.1//") = Ok "http://192.168.1.1/"
  /\ rbind (API_init (PStr "192.168.1.1//"))
       (fun a => Ok (formCompleteURL a "radar/burst"))
     = Ok "http://192.168.1.1//api/radar/burst"
  /\ assignRootURL (PStr "") = Ok "http:/"
  /\ String.prefix "http://" "http:/" = false
  /\ last_char "http://192.168.1.1/" = Some "/"%char.
Proof. repeat split; reflexivity. Qed.

(** On the address used by the survey scripts the sanitiser does what its
    documentation says. *)
Example assignRootURL_survey :
  assignRootURL (PStr "192.168.1.1") = Ok "http://192.168.1.1"
  /\ assignRootURL (PStr "http://radar.localnet/") = Ok "http://radar.localnet"
  /\ assignRootURL (PStr " http://radar.localnet") = Ok "http://radar.localnet"
  /\ assignRootURL (PInt 3) = Raise (bare TypeError).
Proof. repeat split; reflexivity. Qed.

(** ** Rounding to the nearest integer and to the nearest float *)

Lemma round_half_even_near (x : Q) :
  (x - (1 # 2) <= inject_Z (round_half_even x) <= x + (1 # 2))%Q.
Proof.
  unfold round_half_even.
  pose proof (Qfloor_le x) as Hlo. pose proof (Qlt_floor x) as Hhi.
  rewrite inject_Z_plus in Hhi. change (inject_Z 1) with 1%Q in Hhi.
  destruct (Qltb (x - inject_Z (Qfloor x)) (1 # 2)) eqn:H1.
  - apply Qltb_true in H1. split; lra.
  - apply Qltb_false in H1.
    destruct (Qltb (1 # 2) (x - inject_Z (Qfloor x))) eqn:H2.
    + rewrite inject_Z_plus. change (inject_Z 1) with 1%Q. split; lra.
    + apply Qltb_false in H2.
      destruct (Z.even (Qfloor x));
        [| rewrite inject_Z_plus; change (inject_Z 1) with 1%Q]; split; lra.
Qed.

Lemma Qfloor_between (x : Q) (n : Z) :
  (inject_Z n <= x)%Q -> (x < inject_Z (n + 1))%Q -> Qfloor x = n.
Proof.
  intros Hlo Hhi.
  pose proof (Qfloor_le x) as H1. pose proof (Qlt_floor x) as H2.
  assert (Qfloor x < n + 1).
  { rewrite Zlt_Qlt. eapply Qle_lt_trans; eassumption. }
  assert (n < Qfloor x + 1).
  { rewrite Zlt_Qlt. eapply Qle_lt_trans; eassumption. }
  lia.
Qed.

Lemma round_half_even_int (x : Q) (z : Z) :
  (x == inject_Z z)%Q -> round_half_even x = z.
Proof.
  intros H. unfold round_half_even.
  assert (Hf : Qfloor x = z).
  { apply Qfloor_between; rewrite H; [apply Qle_refl |].
    rewrite <- Zlt_Qlt. lia. }
  rewrite Hf.
  destruct (Qltb (x - inject_Z z) (1 # 2)) eqn:H1; [reflexivity |].
  apply Qltb_false in H1. rewrite H in H1. lra.
Qed.

Lemma two_pow_pos (e : Z) : (0 < 2 ^ e)%Q.
Proof. apply Qpower_0_lt. reflexivity. Qed.

Lemma two_pow_succ (e : Z) : (2 ^ (e + 1) == 2 * 2 ^ e)%Q.
Proof. rewrite Qpower_plus by (intros H; discriminate H). simpl. ring. Qed.

Lemma Qabs_make (n : Z) (d : positive) :
  (Qabs (n # d) == inject_Z (Z.abs n) / inject_Z (Zpos d))%Q.
Proof. unfold Qabs. rewrite (Qmake_Qdiv (Z.abs n) d). reflexivity. Qed.

(** [ilog2] brackets the magnitude between two powers of two. *)
Lemma ilog2_spec (q : Q) :
  ~ (q == 0)%Q -> (2 ^ ilog2 q <= Qabs q)%Q /\ (Qabs q < 2 ^ (ilog2 q + 1))%Q.
Proof.
  intros Hq. unfold ilog2.
  destruct q as [n d]. cbn [Qnum Qden].
  assert (Hn : 0 < Z.abs n).
  { assert (n <> 0); [| lia]. intros ->. apply Hq. reflexivity. }
  pose proof (Z.log2_spec (Z.abs n) Hn) as [Hn1 Hn2].
  pose proof (Z.log2_spec (Zpos d) eq_refl) as [Hd1 Hd2].
  pose proof (Z.log2_nonneg (Z.abs n)) as Hn0.
  pose proof (Z.log2_nonneg (Zpos d)) as Hd0.
  set (a := Z.log2 (Z.abs n)) in *. set (b := Z.log2 (Zpos d)) in *.
  rewrite Z.pow_succ_r in Hn2, Hd2 by assumption.
  rewrite Zle_Qle in Hn1, Hd1. rewrite Zlt_Qlt in Hn2, Hd2.
  rewrite inject_Z_mult in Hn2, Hd2.
  rewrite Zpower_Qpower in Hn1, Hn2, Hd1, Hd2 by assumption.
  change (inject_Z 2) with 2%Q in *.
  pose proof (two_pow_pos a) as Pa. pose proof (two_pow_pos b) as Pb.
  assert (Hab : (2 ^ (a - b) * 2 ^ b == 2 ^ a)%Q).
  { rewrite Qpower_minus by (intros H; discriminate H). field.
    intros H. rewrite H in Pb. apply (Qlt_irrefl 0), Pb. }
  pose proof (two_pow_pos (a - b)) as Pab.
  assert (Hx : (Qabs (n # d) * inject_Z (Zpos d) == inject_Z (Z.abs n))%Q).
  { rewrite Qabs_make. field. intros H. discriminate H. }
  pose proof (Qabs_nonneg (n # d)) as Hx0.
  set (x := Qabs (n # d)) in *.
  set (N := inject_Z (Z.abs n)) in *. set (D := inject_Z (Zpos d)) in *.
  set (A := (2 ^ a)%Q) in *. set (B := (2 ^ b)%Q) in *.
  destruct (Qle_bool (2 ^ (a - b)) x) eqn:Ht.
  - apply Qle_bool_iff in Ht. split; [exact Ht |].
    rewrite two_pow_succ. set (C := (2 ^ (a - b))%Q) in *.
    nra.
  - assert (Hlt : (x < 2 ^ (a - b))%Q).
    { apply Qnot_le_lt. intros H. apply Qle_bool_iff in H.
      rewrite H in Ht. discriminate. }
    replace (a - b - 1 + 1) with (a - b) by lia.
    split; [| exact Hlt].
    assert (Hc : (2 * 2 ^ (a - b - 1) == 2 ^ (a - b))%Q).
    { rewrite <- two_pow_succ. replace (a - b - 1 + 1) with (a - b) by lia.
      reflexivity. }
    pose proof (two_pow_pos (a - b - 1)) as Pc.
    set (C := (2 ^ (a - b))%Q) in *. set (C' := (2 ^ (a - b - 1))%Q) in *.
    nra.
Qed.

Lemma scaled_below (d B : Q) : (1 <= B -> d * B < 1 -> d < 1)%Q.
Proof. intros HB H. nra. Qed.

Lemma scaled_above (d B : Q) : (1 <= B -> - 1 < d * B -> - 1 < d)%Q.
Proof. intros HB H. nra. Qed.

(** The float quotient of two integers below [2 ^ 53] lies in the same unit
    interval as the exact quotient: the rounding error is less than one
    part in [2 ^ 53] of the quotient, hence less than [1 / b], the least
    distance from a fraction of denominator [b] to the next integer. *)
Lemma binary64_quotient (a b : Z) :
  Z.abs a < 2 ^ 53 -> 0 < b < 2 ^ 53 ->
  exists r, binary64 (inject_Z a / inject_Z b) = Some r
            /\ Qfloor r = a / b /\ Qceiling r = - ((- a) / b).
Proof.
  intros Ha [Hb0 Hb].
  assert (HB : (0 < inject_Z b)%Q).
  { change 0%Q with (inject_Z 0). rewrite <- (Zlt_Qlt 0 b). exact Hb0. }
  assert (HB' : ~ (inject_Z b == 0)%Q) by lra.
  assert (Hq : (inject_Z a / inject_Z b * inject_Z b == inject_Z a)%Q)
    by (field; exact HB').
  unfold binary64.
  set (q := (inject_Z a / inject_Z b)%Q) in *.
  destruct (Qeq_bool q 0) eqn:Hz.
  - apply Qeq_bool_eq in Hz. rewrite Hz in Hq.
    assert (a = 0).
    { assert (H : (inject_Z a == 0)%Q) by (rewrite <- Hq; ring).
      unfold Qeq in H. simpl in H. lia. }
    subst a. exists 0%Q. split; [reflexivity |].
    split; reflexivity.
  - apply Qeq_bool_neq in Hz.
    destruct (ilog2_spec q Hz) as [He1 He2].
    set (e := ilog2 q) in *.
    assert (Habs : (Qabs q * inject_Z b == inject_Z (Z.abs a))%Q).
    { destruct (Z.le_gt_cases 0 a) as [Hs | Hs].
      - rewrite Z.abs_eq by exact Hs. rewrite Qabs_pos; [exact Hq |].
        rewrite (Zle_Qle 0 a) in Hs. change (inject_Z 0) with 0%Q in Hs.
        unfold q. apply Qle_shift_div_l; [exact HB | lra].
      - rewrite Z.abs_neq by lia. rewrite Qabs_neg.
        + rewrite inject_Z_opp. lra.
        + rewrite (Zlt_Qlt a 0) in Hs. change (inject_Z 0) with 0%Q in Hs.
          unfold q. apply Qle_shift_div_r; [exact HB | lra]. }
    assert (Ha1 : (1 <= inject_Z (Z.abs a))%Q).
    { change 1%Q with (inject_Z 1). rewrite <- (Zle_Qle 1 (Z.abs a)).
      assert (a <> 0); [| lia]. intros ->. apply Hz. unfold q. reflexivity. }
    assert (Ha2 : (inject_Z (Z.abs a) < 2 ^ 53)%Q).
    { rewrite Zlt_Qlt in Ha. rewrite Zpower_Qpower in Ha by lia. exact Ha. }
    assert (Hb1 : (1 <= inject_Z b)%Q).
    { change 1%Q with (inject_Z 1). rewrite <- (Zle_Qle 1 b). lia. }
    assert (Hb2 : (inject_Z b < 2 ^ 53)%Q).
    { rewrite Zlt_Qlt in Hb. rewrite Zpower_Qpower in Hb by lia. exact Hb. }
    pose proof (Qabs_nonneg q) as Hq0.
    assert (He53 : e < 53).
    { apply (Qpower_lt_compat_l_inv 2); [| reflexivity].
      eapply Qle_lt_trans; [exact He1 |].
      eapply Qle_lt_trans; [| exact Ha2].
      rewrite <- Habs. set (x := Qabs q) in *. nra. }
    assert (Hem53 : -53 < e + 1).
    { apply (Qpower_lt_compat_l_inv 2); [| reflexivity].
      eapply Qlt_trans; [| exact He2].
      assert (H53 : (2 ^ (-53) * 2 ^ 53 == 1)%Q) by reflexivity.
      pose proof (two_pow_pos (-53)) as P53.
      set (x := Qabs q) in *. set (u := (2 ^ (-53))%Q) in *.
      set (K := (2 ^ 53)%Q) in *. nra. }
    replace (Z.max (e - 52) (-1074)) with (e - 52) by lia.
    set (p := e - 52).
    pose proof (two_pow_pos p) as HP.
    assert (HPe : (2 ^ p * 2 ^ 52 == 2 ^ e)%Q).
    { rewrite <- Qpower_plus by (intros H; discriminate H).
      unfold p. replace (e - 52 + 52) with e by lia. reflexivity. }
    assert (HPB : (2 ^ p * inject_Z b < 2)%Q).
    { assert (H53 : (2 ^ 53 == 2 * 2 ^ 52)%Q) by reflexivity.
      pose proof (two_pow_pos 52) as P52.
      set (P := (2 ^ p)%Q) in *. set (K := (2 ^ 52)%Q) in *.
      set (K' := (2 ^ 53)%Q) in *. set (x := Qabs q) in *.
      set (T := (2 ^ e)%Q) in *.
      set (B := inject_Z b) in *. set (A := inject_Z (Z.abs a)) in *.
      assert (P * K * B < 2 * K)%Q by nra.
      nra. }
    pose proof (round_half_even_near (q / 2 ^ p)) as [Hm1 Hm2].
    set (m := round_half_even (q / 2 ^ p)) in *.
    assert (Hx : (q / 2 ^ p * 2 ^ p == q)%Q) by (field; lra).
    set (x := (q / 2 ^ p)%Q) in *.
    set (r := (inject_Z m * 2 ^ p)%Q).
    assert (Hr1 : ((r - q) * inject_Z b < 1)%Q).
    { unfold r. set (P := (2 ^ p)%Q) in *. set (B := inject_Z b) in *.
      assert ((inject_Z m - x) * P <= (1 # 2) * P)%Q by nra.
      nra. }
    assert (Hr2 : (- 1 < (r - q) * inject_Z b)%Q).
    { unfold r. set (P := (2 ^ p)%Q) in *. set (B := inject_Z b) in *.
      assert (- ((1 # 2) * P) <= (inject_Z m - x) * P)%Q by nra.
      nra. }
    assert (Hover : Qle_bool (2 ^ 1024) (Qabs r) = false).
    { destruct (Qle_bool (2 ^ 1024) (Qabs r)) eqn:Ho; [| reflexivity].
      exfalso. apply Qle_bool_iff in Ho.
      assert (H54 : (2 ^ 54 < 2 ^ 1024)%Q)
        by (apply Qpower_lt_compat_l; [lia | reflexivity]).
      assert (Hlt : (Qabs r < 2 ^ 54)%Q).
      { assert (H5 : (2 ^ 54 == 2 * 2 ^ 53)%Q) by reflexivity.
        pose proof (two_pow_pos 53) as P53.
        assert (Hqa : (Qabs q < 2 ^ 53)%Q).
        { eapply Qle_lt_trans; [| exact Ha2]. rewrite <- Habs.
          set (y := Qabs q) in *. nra. }
        apply Qabs_Qlt_condition.
        assert (Hqq : (- 2 ^ 53 < q /\ q < 2 ^ 53)%Q)
          by (apply Qabs_Qlt_condition; exact Hqa).
        assert (1 <= 2 ^ 53)%Q by (apply Qpower_1_le; [lra | lia]).
        set (K := (2 ^ 53)%Q) in *. set (K' := (2 ^ 54)%Q) in *.
        set (B := inject_Z b) in *.
        pose proof (scaled_below _ _ Hb1 Hr1).
        pose proof (scaled_above _ _ Hb1 Hr2).
        split; lra. }
      lra. }
    rewrite Hover. exists r. split; [reflexivity |].
    pose proof (Z.div_mod a b ltac:(lia)) as Hdm.
    pose proof (Z.mod_pos_bound a b Hb0) as Hmod.
    assert (Hqn : (q * inject_Z b ==
                   inject_Z (a / b) * inject_Z b + inject_Z (a mod b))%Q).
    { rewrite Hq. rewrite Hdm at 1.
      rewrite inject_Z_plus, inject_Z_mult. ring. }
    destruct (Z.eq_dec (a mod b) 0) as [H0 | Hn0].
    + (* the quotient is an integer, which the rounding keeps *)
      rewrite H0 in Hqn.
      assert (Hqi : (q == inject_Z (a / b))%Q).
      { set (B := inject_Z b) in *. set (n := inject_Z (a / b)) in *.
        change (inject_Z 0) with 0%Q in Hqn. nra. }
      assert (Hp0 : 0 <= - p) by (unfold p; lia).
      assert (HPi : (inject_Z (2 ^ (- p)) * 2 ^ p == 1)%Q).
      { rewrite Zpower_Qpower by exact Hp0. change (inject_Z 2) with 2%Q.
        rewrite <- Qpower_plus by (intros H; discriminate H).
        replace (- p + p) with 0 by lia. reflexivity. }
      assert (Hm : m = a / b * 2 ^ (- p)).
      { apply round_half_even_int. rewrite inject_Z_mult.
        set (P := (2 ^ p)%Q) in *. set (I := inject_Z (2 ^ (- p))) in *.
        assert (Hxx : (x * P == inject_Z (a / b) * I * P)%Q).
        { rewrite Hx, Hqi. rewrite <- Qmult_assoc, HPi. ring. }
        set (n := inject_Z (a / b)) in *. nra. }
      assert (Hri : (r == inject_Z (a / b))%Q).
      { unfold r. rewrite Hm, inject_Z_mult, <- Qmult_assoc, HPi. ring. }
      split.
      * rewrite (Qfloor_comp _ _ Hri). apply Qfloor_Z.
      * rewrite (Qceiling_comp _ _ Hri), Qceiling_Z.
        rewrite Z.div_opp_l_z by lia. lia.
    + assert (Hrem : (1 <= inject_Z (a mod b))%Q)
        by (change 1%Q with (inject_Z 1);
            rewrite <- (Zle_Qle 1 (a mod b)); lia).
      assert (Hlo : (inject_Z (a / b) < r)%Q).
      { set (B := inject_Z b) in *. set (n := inject_Z (a / b)) in *.
        set (R := inject_Z (a mod b)) in *. nra. }
      assert (Hrem' : (inject_Z (a mod b) <= inject_Z b - 1)%Q).
      { assert (H : a mod b <= b - 1) by lia.
        rewrite Zle_Qle in H. unfold Z.sub in H.
        rewrite inject_Z_plus, inject_Z_opp in H. exact H. }
      assert (Hhi : (r < inject_Z (a / b) + 1)%Q).
      { set (B := inject_Z b) in *. set (n := inject_Z (a / b)) in *.
        set (R := inject_Z (a mod b)) in *. nra. }
      split.
      * apply Qfloor_between; [lra |].
        rewrite inject_Z_plus. exact Hhi.
      * unfold Qceiling.
        rewrite (Qfloor_between (- r) (- (a / b) - 1)).
        -- rewrite Z.div_opp_l_nz by lia. lia.
        -- unfold Z.sub. rewrite inject_Z_plus, !inject_Z_opp.
           change (inject_Z 1) with 1%Q. lra.
        -- replace (- (a / b) - 1 + 1) with (- (a / b)) by lia.
           rewrite inject_Z_opp. lra.
Qed.

(** ** Directory listings (Data.DirectoryListing.load) *)

Lemma floor_div_int (a b : Z) :
  Z.abs a < 2 ^ 53 -> 0 < b < 2 ^ 53 ->
  floor_div (PInt a) (PInt b) = Ok (a / b).
Proof.
  intros Ha Hb. unfold floor_div, truediv. cbn [int_of].
  replace (b =? 0) with false by (symmetry; apply Z.eqb_neq; lia).
  destruct (binary64_quotient a b Ha Hb) as (r & -> & Hf & _).
  cbn [rbind]. now rewrite Hf.
Qed.

Lemma ceil_div_int (a b : Z) :
  Z.abs a < 2 ^ 53 -> 0 < b < 2 ^ 53 ->
  ceil_div (PInt a) (PInt b) = Ok (- ((- a) / b)).
Proof.
  intros Ha Hb. unfold ceil_div, truediv. cbn [int_of].
  replace (b =? 0) with false by (symmetry; apply Z.eqb_neq; lia).
  destruct (binary64_quotient a b Ha Hb) as (r & -> & _ & Hc).
  cbn [rbind]. now rewrite Hc.
Qed.

(** C6.  A listing built from a response that reports [total] objects,
    pages of [size] > 0 entries and the start index [index], all three
    below [2 ^ 53] in magnitude, has [page = floor (index / size)] and
    [pages = ceil (total / size)]: the page is the integer quotient, and
    both numbers sit in the only unit interval that the floor and the
    ceiling allow.  The division of the source is the float division; the
    bound is where its rounding cannot reach the next integer. *)
Theorem DirectoryListing_pagination
    (E : env) (resp : pyval) (total size index : Z) (d : DirectoryListing) :
  getitem resp "length" = Ok (PInt total) ->
  getitem resp "list" = Ok (PInt size) ->
  getitem resp "index" = Ok (PInt index) ->
  0 < size < 2 ^ 53 ->
  Z.abs total < 2 ^ 53 ->
  Z.abs index < 2 ^ 53 ->
  DirectoryListing_load E resp = Ok d ->
  page d = index / size
  /\ size * page d <= index < size * (page d + 1)
  /\ size * (pages d - 1) < total <= size * pages d.
Proof.
  intros Hlen Hlist Hidx Hsize Htotal Hindex Hload.
  unfold DirectoryListing_load in Hload.
  rbind_inv Hload. rbind_inv Hload.
  rewrite Hlen, Hlist, Hidx in Hload. cbn [rbind] in Hload.
  rewrite (ceil_div_int total size Htotal Hsize) in Hload.
  rewrite (floor_div_int index size Hindex Hsize) in Hload.
  cbn [rbind] in Hload.
  repeat rbind_inv Hload.
  injection Hload as <-. cbn [page pages].
  destruct Hsize as [Hsize _].
  pose proof (Z.div_mod index size ltac:(lia)) as Hi.
  pose proof (Z.mod_pos_bound index size Hsize) as Hib.
  pose proof (Z.div_mod (- total) size ltac:(lia)) as Ht.
  pose proof (Z.mod_pos_bound (- total) size Hsize) as Htb.
  repeat split; nia.
Qed.

(** The example of the claim: twenty objects, sixteen per page, start
    index sixteen give page 1 of 2. *)
Lemma DirectoryListing_pagination_witness :
  DirectoryListing_load (quiet_env silent_radar) page2_json = Ok page2_listing
  /\ page page2_listing = 1
  /\ pages page2_listing = 2.
Proof.
  assert (H : DirectoryListing_load (quiet_env silent_radar) page2_json
              = Ok page2_listing) by (vm_compute; reflexivity).
  split; [exact H |].
  destruct (DirectoryListing_pagination (quiet_env silent_radar) page2_json
              20 16 16 page2_listing
              eq_refl eq_refl eq_refl ltac:(lia) ltac:(lia) ltac:(lia) H)
    as (Hp & _ & Hps).
  split; [exact Hp | lia].
Defined.

(** The bound is needed: a count of [2 ^ 53 + 1] objects in pages of one is
    divided as a float, and the float nearest to it is [2 ^ 53]. *)
Example DirectoryListing_float_division :
  ceil_div (PInt (2 ^ 53 + 1)) (PInt 1) = Ok (2 ^ 53)
  /\ floor_div (PInt (2 ^ 53 + 1)) (PInt 1) = Ok (2 ^ 53)
  /\ floor_div (PInt (2 ^ 53 - 1)) (PInt 1) = Ok (2 ^ 53 - 1)
  /\ ceil_div (PInt 1) (PInt 0) = Raise (bare ZeroDivisionError)
  /\ ceil_div (PInt (2 ^ 1024)) (PInt 1) = Raise (bare OverflowError).
Proof. repeat split; vm_compute; reflexivity. Qed.

(** ** Updating the configuration (Radar.Config.set) *)

Lemma antenna_loop_counts (name : string) (l : list pyval) (c c' : Z) :
  antenna_loop name l c = Ok c' -> c' = c + Z.of_nat (List.length l).
Proof.
  revert c. induction l as [| v l IH]; intros c H; simpl in H.
  - injection H as <-. simpl. lia.
  - destruct (py_ne v (PInt 0) && py_ne v (PInt 1)); [discriminate |].
    apply IH in H. simpl List.length. lia.
Qed.

Lemma antenna_loop_binary (name : string) (l : list pyval) (c : Z) :
  Forall binary l ->
  antenna_loop name l c = Ok (c + Z.of_nat (List.length l)).
Proof.
  intros H. revert c. induction H as [| v l Hv _ IH]; intros c.
  - simpl. f_equal. lia.
  - cbn [antenna_loop].
    replace (py_ne v (PInt 0) && py_ne v (PInt 1)) with false
      by (destruct Hv as [-> | ->]; reflexivity).
    rewrite IH. f_equal. simpl List.length. lia.
Qed.

Lemma str_binary (l : list pyval) :
  Forall binary l -> exists strs, map_result str l = Ok strs.
Proof.
  induction 1 as [| v l Hv _ (strs & IH)].
  - exists []. reflexivity.
  - destruct Hv as [-> | ->]; cbn [map_result str rbind]; rewrite IH;
      eexists; reflexivity.
Qed.

(** The test [count > 0] of [set] looks at the number of entries, which is
    eight, not at the number of antennas switched on: every tuple of eight
    flags passes, the one without any antenna included. *)
Lemma antenna_field_accepts_binary (name : string) (l : list pyval) :
  List.length l = 8%nat -> Forall binary l ->
  exists s, antenna_field name (PTuple l) = Ok s.
Proof.
  intros Hlen Hbin. unfold antenna_field.
  rewrite Hlen. cbn [Z.of_nat Z.eqb Pos.of_succ_nat Pos.succ Pos.eqb].
  rewrite (antenna_loop_binary name l 0 Hbin), Hlen.
  destruct (str_binary l Hbin) as (strs & ->).
  eexists. reflexivity.
Qed.

(** The other masks are refused: a value that is not a tuple, a tuple of
    another length, an entry that is neither 0 nor 1. *)
Lemma antenna_field_rejects :
  (forall name l, List.length l <> 8%nat ->
     antenna_field name (PTuple l)
     = Raise (withmsg ValueError (name ++ " should be an 8-element tuple.")))
  /\ (forall name l,
     antenna_field name (PList l)
     = Raise (withmsg ValueError (name ++ " should be an 8-element tuple.")))
  /\ (forall name l c v l',
     Forall binary l -> py_ne v (PInt 0) = true -> py_ne v (PInt 1) = true ->
     exists e, antenna_loop name (l ++ v :: l')%list c = Raise e
               /\ exn_kind e = ValueError).
Proof.
  repeat split.
  - intros name l Hlen. unfold antenna_field.
    replace (Z.of_nat (List.length l) =? 8) with false; [reflexivity |].
    symmetry. apply Z.eqb_neq. lia.
  - intros name l c v l' Hbin H0 H1. revert c.
    induction Hbin as [| x l Hx _ IH]; intros c.
    + cbn [app antenna_loop]. rewrite H0, H1. cbn [andb].
      eexists. split; reflexivity.
    + cbn [app antenna_loop].
      replace (py_ne x (PInt 0) && py_ne x (PInt 1)) with false
        by (destruct Hx as [-> | ->]; reflexivity).
      apply IH.
Qed.

(** C2.  A mask without any antenna is not refused: [set] posts it.  The
    radar is only asked for its configuration (the [get] that opens
    [set]) before the masks are looked at. *)
Theorem Config_set_posts_empty_mask :
  (let r := Config_set survey_env PNone PNone PNone PNone PNone
              no_antenna PNone PNone fresh_world in
   returned r = Some (Ok true)
   /\ sent (final r)
      = [(GET, "http://192.168.1.1/api/radar/config", []);
         (POST, "http://192.168.1.1/api/radar/config",
          [("txAntenna", PStr "0,0,0,0,0,0,0,0");
           ("apikey", PStr "18052021")])])
  /\ (let r := Config_set survey_env PNone PNone PNone PNone PNone
                 PNone no_antenna PNone fresh_world in
      returned r = Some (Ok true)
      /\ sent (final r)
         = [(GET, "http://192.168.1.1/api/radar/config", []);
            (POST, "http://192.168.1.1/api/radar/config",
             [("rxAntenna", PStr "0,0,0,0,0,0,0,0");
              ("apikey", PStr "18052021")])]).
Proof. split; split; vm_compute; reflexivity. Qed.

(** A mask of another shape is refused after the opening [get] and before
    anything is posted. *)
Example Config_set_refuses_short_mask :
  let r := Config_set survey_env PNone PNone PNone PNone PNone
             (PTuple [PInt 1; PInt 0]) PNone PNone fresh_world in
  returned r
  = Some (Raise (withmsg ValueError "txAnt should be an 8-element tuple."))
  /\ sent (final r) = [(GET, "http://192.168.1.1/api/radar/config", [])].
Proof. split; vm_compute; reflexivity. Qed.

Example Config_set_refuses_other_flag :
  let r := Config_set survey_env PNone PNone PNone PNone PNone PNone
             (PTuple [PInt 1; PInt 0; PInt 2; PInt 0; PInt 0; PInt 0; PInt 0;
                      PInt 0]) PNone fresh_world in
  (exists e, returned r = Some (Raise e) /\ exn_kind e = ValueError)
  /\ sent (final r) = [(GET, "http://192.168.1.1/api/radar/config", [])].
Proof. split; [eexists; split |]; vm_compute; reflexivity. Qed.

(** C4.  With status 200 the answer is read back, but the number of
    averages, the antenna masks and the user data are not compared with
    what was asked for: the radar below keeps its settings and [set]
    returns the config object all the same. *)
Theorem Config_set_unchecked_fields :
  (let r := Config_set survey_env PNone (PInt 4) PNone PNone PNone PNone
              PNone PNone fresh_world in
   returned r = Some (Ok true)
   /\ option_map nAverages (cached (final r)) = Some (PInt 0))
  /\ (let r := Config_set survey_env PNone PNone PNone PNone PNone
                 (PTuple [PInt 0; PInt 0; PInt 0; PInt 0; PInt 0; PInt 0;
                          PInt 0; PInt 1]) PNone PNone fresh_world in
      returned r = Some (Ok true)
      /\ option_map txAntenna (cached (final r))
         = Some (Some (PTuple [PInt 1; PInt 1; PInt 0; PInt 0; PInt 0; PInt 0;
                               PInt 0; PInt 0])))
  /\ (let r := Config_set survey_env PNone PNone PNone PNone PNone PNone
                 PNone (PStr "line 7") fresh_world in
      returned r = Some (Ok true)
      /\ option_map userData (cached (final r)) = Some (Some (PStr ""))).
Proof. repeat split; vm_compute; reflexivity. Qed.

(** The counts and the attenuator settings are compared. *)
Example Config_set_checked_fields :
  returned (Config_set survey_env (PInt 2) PNone PNone PNone PNone PNone
              PNone PNone fresh_world)
  = Some (Raise (withmsg DidNotUpdateException "nAttenuators did not update."))
  /\ returned (Config_set survey_env PNone PNone (PInt 10) PNone PNone PNone
                 PNone PNone fresh_world)
     = Some (Raise (withmsg DidNotUpdateException "nSubBursts did not update."))
  /\ returned (Config_set survey_env PNone PNone PNone (PList [PInt 30]) PNone
                 PNone PNone PNone fresh_world)
     = Some (Raise (withmsg DidNotUpdateException "rfAttn1 did not update."))
  /\ returned (Config_set survey_env PNone PNone PNone PNone (PInt (-4))
                 PNone PNone PNone fresh_world)
     = Some (Raise (withmsg DidNotUpdateException "afGain1 did not update."))
  /\ returned (Config_set survey_env (PInt 1) PNone (PInt 5)
                 (PList [PInt 25]) (PInt (-14)) PNone PNone PNone fresh_world)
     = Some (Ok true).
Proof. repeat split; vm_compute; reflexivity. Qed.

(** ** Sequencing *)

Lemma bind_ok {St A B} (m : M St A) (k : A -> M St B) s a s1 :
  m s = Some (Ok a, s1) -> bind m k s = k a s1.
Proof. intros H. unfold bind. now rewrite H. Qed.

Lemma bind_raise {St A B} (m : M St A) (k : A -> M St B) s e s1 :
  m s = Some (Raise e, s1) -> bind m k s = Some (Raise e, s1).
Proof. intros H. unfold bind. now rewrite H. Qed.

Lemma bind_Some {St A B} (m : M St A) (k : A -> M St B) s r s' :
  bind m k s = Some (r, s') ->
  (exists a s1, m s = Some (Ok a, s1) /\ k a s1 = Some (r, s'))
  \/ (exists e, m s = Some (Raise e, s') /\ r = Raise e).
Proof.
  unfold bind. destruct (m s) as [[[a | e] s1] |]; intros H.
  - left. now exists a, s1.
  - right. injection H as <- <-. now exists e.
  - discriminate.
Qed.

Lemma bind_Ok {St A B} (m : M St A) (k : A -> M St B) s b s' :
  bind m k s = Some (Ok b, s') ->
  exists a s1, m s = Some (Ok a, s1) /\ k a s1 = Some (Ok b, s').
Proof.
  intros H. apply bind_Some in H. destruct H as [H | (e & _ & H)].
  - exact H.
  - discriminate.
Qed.

(** ** Starting a burst (Radar.burst, Radar.trialBurst) *)

Section BurstStart.

Variable E : env.
Variable fuel : nat.
Variables w w1 : world.
Hypothesis refreshed : Config_get E w = Some (Ok tt, w1).




End BurstStart.






(** A refusal whose body is not a JSON object raises as well, with what
    the look-up of the message raises. *)
Example burst_refused_other_bodies :
  returned (burst (burst_env refused_with_number) 0 (PStr "1_SARRTK.dat")
              PNone CbNone CbNone true fresh_world)
  = Some (Raise (bare TypeError))
  /\ returned (burst (burst_env refused_in_text) 0 (PStr "1_SARRTK.dat")
                 PNone CbNone CbNone true fresh_world)
     = Some (Raise (bare JSONDecodeError)).
Proof. split; vm_compute; reflexivity. Qed.

(** ** Waiting for the results (Radar.__getResults) *)

Lemma sum_fold (zs : list Z) (a : Z) :
  fold_left (fun acc x => rbind acc (fun v => add v x)) (map PInt zs)
    (Ok (PInt a))
  = Ok (PInt (a + total zs)).
Proof.
  revert a. induction zs as [| z zs IH]; intros a; simpl.
  - f_equal. f_equal. lia.
  - change (add (PInt a) (PInt z)) with (@Ok pyval (PInt (a + z))).
    rewrite IH. f_equal. f_equal. lia.
Qed.

Lemma sum_mask (zs : list Z) : sum (PTuple (map PInt zs)) = Ok (PInt (total zs)).
Proof. unfold sum. simpl. now rewrite sum_fold. Qed.

(** The formula of the timeout on a configuration of integers. *)
Lemma timeoutSeconds_formula (d : device_config) (a : API) :
  timeoutSeconds (config_of d) a = Ok (PInt (timeout_formula d a)).
Proof.
  unfold timeoutSeconds, config_of. cbn [txAntenna rxAntenna attribute rbind].
  rewrite !sum_mask. reflexivity.
Qed.
Lemma validate_config (d : device_config) ct txt :
  validateResponse (mkResponse 200 ct (Some (config_json d)) txt) = Ok tt.
Proof.
  unfold validateResponse. cbn [content_type].
  destruct ct as [ct |]; [| reflexivity].
  destruct (String.eqb ct "application/json"); reflexivity.
Qed.

Lemma py_eq_int (a b : Z) : py_eq (PInt a) (PInt b) = (a =? b).
Proof.
  cbn. destruct (Z.eqb_spec a b) as [-> | Hab].
  - apply Qeq_bool_refl.
  - destruct (Qeq_bool (inject_Z a) (inject_Z b)) eqn:H; [| reflexivity].
    apply Qeq_bool_eq in H. unfold Qeq in H. simpl in H. lia.
Qed.

Lemma readResponse_dict (nA nS nV : Z) (rf af tx rx : list pyval) (ud : string)
    ct txt (w : world) :
  readResponse
    (mkResponse 200 ct
       (Some (PDict [("nAttenuators", PInt nA); ("nSubBursts", PInt nS);
                     ("nAverages", PInt nV); ("rfAttn", PList rf);
                     ("afGain", PList af); ("userData", PStr ud);
                     ("txAntenna", PList tx); ("rxAntenna", PList rx)])) txt) w
  = let c := mkConfig (PInt nA) (PInt nS) (PInt nV) (PList af) (PList rf)
               (Some (PStr ud)) (Some (PTuple tx)) (Some (PTuple rx)) in
    (if py_eq (PInt (Z.of_nat (List.length rf))) (PInt nA)
        && py_eq (PInt (Z.of_nat (List.length af))) (PInt nA)
     then ret tt
     else raise (withmsg BadResponseException
       "Number of attenuator settings did not match nAttenuators in response."))
      (set_api (set_config c (api w)) w).
Proof. vm_compute. reflexivity. Qed.

Lemma readResponse_reads (d : device_config) ct txt (w : world) :
  well_formed d ->
  readResponse (mkResponse 200 ct (Some (config_json d)) txt) w
  = Some (Ok tt, set_api (set_config (config_of d) (api w)) w).
Proof.
  intros (Hrf & Haf).
  unfold config_json. rewrite readResponse_dict. cbv zeta.
  rewrite !length_map, Hrf, Haf, !py_eq_int, !Z.eqb_refl.
  reflexivity.
Qed.

Lemma Config_get_reads (E : env) (w : world) (d : device_config) (l : N) ct txt :
  well_formed d ->
  radar E (requestCount (api w) + 1) (config_request (api w))
  = mkExchange l (Reply (mkResponse 200 ct (Some (config_json d)) txt)) ->
  Config_get E w = Some (Ok tt, after_get w d l).
Proof.
  intros Hd Hradar.
  unfold Config_get, getRequest, bind, the_api, next_request, transmit, bind, modify, the_api, elapse, modify.
  cbn.
  unfold config_request in Hradar. rewrite Hradar. cbn [answer latency].
  unfold ret at 1. rewrite validate_config. cbn [lift_result].  unfold ret at 1 2.
  cbn [status_code Z.eqb Pos.eqb negb].
  rewrite (readResponse_reads d ct txt _ Hd).
  reflexivity.
Qed.

(** ** Round trips *)

Section RoundTrip.

Variable E : env.
Variable w : world.

Lemma getRequest_run (url : string) (data : option dict) :
  getRequest E url data w
  = let rq := get_request (api w) url data in
    let x := radar E (requestCount (api w) + 1) rq in
    let w' := after_exchange w rq (latency x) in
    match answer x with
    | Unreachable => Some (Raise (bare RequestsConnectionError), w')
    | Reply r =>
        match validateResponse r with
        | Ok _ => Some (Ok r, w')
        | Raise e => Some (Raise e, w')
        end
    end.
Proof.
  unfold getRequest, bind, the_api, next_request, transmit, bind, modify,
    the_api, elapse, modify.
  cbn. unfold get_request, after_exchange.
  destruct (answer _); [reflexivity |].
  unfold ret at 1. destruct (validateResponse r) as [[] | e]; reflexivity.
Qed.

Lemma postRequest_run (url : string) (data files : option dict)
    (redirects : bool) :
  postRequest E url data files redirects w
  = let rq := post_request (api w) url data files redirects in
    let x := radar E (requestCount (api w) + 1) rq in
    let w' := after_exchange w rq (latency x) in
    match answer x with
    | Unreachable => Some (Raise (bare RequestsConnectionError), w')
    | Reply r =>
        match validateResponse r with
        | Ok _ => Some (Ok r, w')
        | Raise e => Some (Raise e, w')
        end
    end.
Proof.
  unfold postRequest, bind, the_api, next_request, transmit, bind, modify,
    the_api, elapse, modify.
  cbn. unfold post_request, after_exchange.
  destruct (answer _); [reflexivity |].
  unfold ret at 1. destruct (validateResponse r) as [[] | e]; reflexivity.
Qed.

End RoundTrip.

Section Polling.

Variable E : env.
Variable rt : string.
Variables I L : Z.
Hypothesis interval : 0 < I <= 9223372036.
Hypothesis busy :
  forall n rq, req_url rq = rt ++ "/api/radar/results" ->
    exists l r, radar E n rq = mkExchange l (Reply r) /\ still_busy r
                /\ Z.of_N l <= L.

Lemma time_sleep_run (w : world) :
  time_sleep I w = Some (Ok tt, set_clock (clock w + I * second) w).
Proof.
  unfold time_sleep.
  replace (I <? -9223372036) with false by (symmetry; apply Z.ltb_ge; lia).
  replace (9223372036 <? I) with false by (symmetry; apply Z.ltb_ge; lia).
  replace (I <? 0) with false by (symmetry; apply Z.ltb_ge; lia).
  reflexivity.
Qed.

(** One turn of the loop while the radar is busy: a request, a sleep. *)
Lemma poll_results_step (fuel : nat) (init T : Z) (w : world) :
  root (api w) = rt -> resultsInterval (api w) = I ->
  clock w - init < T ->
  exists w2,
    poll_results E (S fuel) init T CbNone CbNone w
    = poll_results E fuel init T CbNone CbNone w2
    /\ root (api w2) = rt /\ resultsInterval (api w2) = I
    /\ clock w + I * second <= clock w2 <= clock w + L + I * second.
Proof.
  intros Hroot Hint Hlt.
  destruct (busy (requestCount (api w) + 1)
              (get_request (api w) "radar/results" None))
    as (l & r & Hx & (Hval & j & st & Hj & Hst & Hidle & Hfin) & Hl).
  { unfold get_request, formCompleteURL. cbn. now rewrite Hroot. }
  exists (set_clock (clock w + Z.of_N l + I * second)
            (after_exchange w (get_request (api w) "radar/results" None) l)).
  split.
  - cbn [poll_results]. unfold bind at 1, now at 1.
    replace (clock w - init <? T) with true by (symmetry; apply Z.ltb_lt; lia).
    erewrite bind_ok
      by (rewrite getRequest_run; cbv zeta; rewrite Hx; cbn [answer latency];
          rewrite Hval; reflexivity).
    erewrite bind_ok by (unfold response_json; rewrite Hj; reflexivity).
    erewrite bind_ok by (rewrite Hst; reflexivity).
    rewrite Hidle, Hfin. cbn [cb_is_None].
    erewrite bind_ok by reflexivity.
    erewrite bind_ok by reflexivity.
    cbn [after_exchange api set_requestCount resultsInterval].
    rewrite Hint.
    erewrite bind_ok by apply time_sleep_run.
    reflexivity.
  - cbn. repeat split; try assumption; lia.
Qed.

(** While the radar stays busy the loop ends by raising the timeout, at
    its first test after the timeout has elapsed: not before, and within
    one turn of the loop after. *)
Lemma poll_results_times_out (fuel : nat) (init T : Z) (w : world) :
  root (api w) = rt -> resultsInterval (api w) = I ->
  Z.max 0 (T - (clock w - init)) < Z.of_nat fuel ->
  exists w',
    poll_results E fuel init T CbNone CbNone w
    = Some (Raise (bare ResultsTimeoutException), w')
    /\ T <= clock w' - init
    /\ (clock w' - init < T + L + I * second \/ clock w' = clock w).
Proof.
  revert w. induction fuel as [| fuel IH]; intros w Hroot Hint Hfuel.
  - simpl in Hfuel. lia.
  - destruct (Z.ltb_spec (clock w - init) T) as [Hlt | Hge].
    + destruct (poll_results_step fuel init T w Hroot Hint Hlt)
        as (w2 & -> & Hroot2 & Hint2 & Hclock).
      destruct (IH w2 Hroot2 Hint2) as (w' & Hrun & Hlo & Hhi).
      { unfold second in Hclock. lia. }
      exists w'. split; [exact Hrun |]. split; [exact Hlo |].
      left. lia.
    + exists w. split; [| split; [lia | now right]].
      cbn [poll_results]. unfold bind at 1, now at 1.
      replace (clock w - init <? T) with false
        by (symmetry; apply Z.ltb_ge; lia).
      reflexivity.
Qed.

Lemma latency_bound_nonneg : 0 <= L.
Proof.
  destruct (busy 0 (mkRequest GET (rt ++ "/api/radar/results") [] None true)
              eq_refl) as (l & _ & _ & _ & Hl).
  lia.
Qed.

End Polling.

Lemma timedelta_seconds_int (z : Z) :
  - 999999999 * 86400 <= z < 1000000000 * 86400 ->
  timedelta_seconds (PInt z) = Ok (z * second).
Proof.
  intros Hz. unfold timedelta_seconds. cbn [rbind].
  rewrite Z.div_mul_cancel_r by (unfold second; lia).
  assert (-999999999 <= z / 86400 <= 999999999).
  { split.
    - apply Z.div_le_lower_bound; lia.
    - assert (z / 86400 < 1000000000); [| lia].
      apply Z.div_lt_upper_bound; lia. }
  replace (-999999999 <=? z / 86400) with true
    by (symmetry; apply Z.leb_le; lia).
  replace (z / 86400 <=? 999999999) with true
    by (symmetry; apply Z.leb_le; lia).
  reflexivity.
Qed.

(** C5.  The timeout of the wait is computed from the configuration just
    fetched: the product of the numbers of transmit and receive antennas,
    times sub-bursts plus averages, times attenuators, times two seconds,
    plus the HTTP timeout.  While the radar stays busy, answering each
    poll within [L] microseconds, the wait ends with
    [ResultsTimeoutException] at the first test of the loop after that
    time has elapsed since the configuration was read: not before, and
    less than one poll and one pause after.  The timeout has to be a
    length that [timedelta] holds, and the pause one that [time.sleep]
    takes. *)
Theorem getResults_timeout
    (E : env) (w : world) (d : device_config) (l : N) (L : Z)
    (ct : option string) (txt : string) :
  well_formed d ->
  radar E (requestCount (api w) + 1) (config_request (api w))
  = mkExchange l (Reply (mkResponse 200 ct (Some (config_json d)) txt)) ->
  (forall n rq, req_url rq = root (api w) ++ "/api/radar/results" ->
     exists l' r, radar E n rq = mkExchange l' (Reply r) /\ still_busy r
                  /\ Z.of_N l' <= L) ->
  0 < resultsInterval (api w) <= 9223372036 ->
  - 999999999 * 86400 <= timeout_formula d (api w) < 1000000000 * 86400 ->
  timeoutSeconds (config_of d) (api w) = Ok (PInt (timeout_formula d (api w)))
  /\ exists fuel0, forall fuel, (fuel0 <= fuel)%nat ->
       exists w',
         getResults E fuel CbNone CbNone w
         = Some (Raise (bare ResultsTimeoutException), w')
         /\ timeout_formula d (api w) * second
            <= clock w' - (clock w + Z.of_N l)
            < Z.max 0 (timeout_formula d (api w) * second)
              + L + resultsInterval (api w) * second.
Proof.
  intros Hd Hcfg Hbusy Hint Hrange.
  split; [apply timeoutSeconds_formula |].
  set (secs := timeout_formula d (api w)) in *.
  exists (S (Z.to_nat (Z.max 0 (secs * second)))). intros fuel Hfuel.
  unfold getResults.
  rewrite (bind_ok _ _ _ _ _ (Config_get_reads E w d l ct txt Hd Hcfg)).
  erewrite bind_ok by reflexivity.
  erewrite bind_ok by reflexivity.
  erewrite bind_ok by reflexivity.
  cbn [after_get api clock config set_config].
  erewrite bind_ok
    by (rewrite timeoutSeconds_formula; reflexivity).
  cbn [timeout_formula timeout set_requestCount set_config].
  change (timeout_formula d
            (set_config (config_of d)
               (set_requestCount (requestCount (api w) + 1) (api w))))
    with secs.
  erewrite bind_ok by (rewrite (timedelta_seconds_int secs Hrange); reflexivity).
  pose proof (latency_bound_nonneg E _ L Hbusy) as HL.
  destruct (poll_results_times_out E (root (api w)) (resultsInterval (api w)) L
              Hint Hbusy fuel (clock w + Z.of_N l) (secs * second)
              (after_get w d l)) as (w' & Hrun & Hlo & Hhi);
    try reflexivity.
  { cbn [after_get clock]. lia. }
  exists w'. split; [exact Hrun |].
  cbn [after_get clock] in Hhi. unfold second in *. lia.
Qed.

(** The example of the claim: two transmitters, one receiver, five
    sub-bursts, no average, one attenuator and the default HTTP timeout of
    thirty seconds give fifty seconds.  The radar answers in half a second
    and the pause is two seconds, so the wait ends less than 52.5 s after
    the configuration was read; it does end at 50 s, the twentieth poll
    having started at 47.5 s. *)
Lemma getResults_timeout_witness :
  well_formed example_config
  /\ timeout_formula example_config fresh_api = 50
  /\ timeoutSeconds (config_of example_config) fresh_api = Ok (PInt 50)
  /\ (exists fuel0, forall fuel, (fuel0 <= fuel)%nat ->
       exists w',
         getResults (quiet_env (busy_radar example_config)) fuel CbNone CbNone
           fresh_world
         = Some (Raise (bare ResultsTimeoutException), w')
         /\ 50 * second <= clock w' - 500000 < 50 * second + 2500000)
  /\ option_map (fun w => (clock w, List.length (wire w)))
       (final (getResults (quiet_env (busy_radar example_config)) 30
                 CbNone CbNone fresh_world))
     = Some (50500000, 21%nat).
Proof.
  assert (Hd : well_formed example_config) by (split; reflexivity).
  split; [exact Hd |].
  split; [reflexivity |].
  assert (Hbusy : forall n rq,
            req_url rq = root (api fresh_world) ++ "/api/radar/results" ->
            exists l' r,
              radar (quiet_env (busy_radar example_config)) n rq
              = mkExchange l' (Reply r) /\ still_busy r
              /\ Z.of_N l' <= 500000).
  { intros n rq Hurl. exists 500000%N. eexists. split.
    - change (radar (quiet_env (busy_radar example_config)) n rq)
        with (busy_radar example_config n rq).
      unfold busy_radar. rewrite Hurl. reflexivity.
    - split; [| cbn; lia].
      split; [reflexivity |].
      exists (PDict [("status", PStr "busy")]), (PStr "busy").
      repeat split; reflexivity. }
  destruct (getResults_timeout (quiet_env (busy_radar example_config))
              fresh_world example_config 500000 500000
              (Some "application/json") ""
              Hd eq_refl Hbusy ltac:(cbn; lia) ltac:(cbn; lia))
    as (Hsecs & fuel0 & Hrun).
  split; [exact Hsecs |].
  split; [| vm_compute; reflexivity].
  exists fuel0. intros fuel Hfuel.
  destruct (Hrun fuel Hfuel) as (w' & Hw' & Hbounds).
  exists w'. split; [exact Hw' |].
  cbn in Hbounds. unfold second. cbn. lia.
Defined.

(** ** The controller object under the methods of the controller *)

Create HintDb keeps.

Lemma keeps_ret {A} (a : A) : keeps_self (ret a).
Proof. intros s r s' [= <- <-]. reflexivity. Qed.

Lemma keeps_raise {A} (e : exn) : keeps_self (@raise system A e).
Proof. intros s r s' [= <- <-]. reflexivity. Qed.

Lemma keeps_out_of_fuel {A} : keeps_self (@out_of_fuel system A).
Proof. intros s r s' [=]. Qed.

Lemma keeps_liftW {A} (m : M world A) : keeps_self (liftW m).
Proof.
  intros s r s'. unfold liftW.
  destruct (m (outside s)) as [[x w'] |]; intros [= <- <-]. reflexivity.
Qed.

Lemma keeps_bind {A B} (m : M system A) (k : A -> M system B) :
  keeps_self m -> (forall a, keeps_self (k a)) -> keeps_self (bind m k).
Proof.
  intros Hm Hk s r s' H. apply bind_Some in H.
  destruct H as [(a & s1 & H1 & H2) | (e & H1 & _)].
  - rewrite (Hk a _ _ _ H2). exact (Hm _ _ _ H1).
  - exact (Hm _ _ _ H1).
Qed.

Lemma keeps_try_except {A} (m : M system A) (h : exn -> M system A) :
  keeps_self m -> (forall e, keeps_self (h e)) -> keeps_self (try_except m h).
Proof.
  intros Hm Hh s r s'. unfold try_except.
  destruct (m s) as [[[a | e] s1] |] eqn:H1.
  - intros [= <- <-]. exact (Hm _ _ _ H1).
  - intros H2. rewrite (Hh e _ _ _ H2). exact (Hm _ _ _ H1).
  - discriminate.
Qed.

Lemma keeps_me : keeps_self me.
Proof. intros s r s' [= <- <-]. reflexivity. Qed.

Lemma keeps_get_state : keeps_self (@get_state system).
Proof. intros s r s' [= <- <-]. reflexivity. Qed.

Lemma keeps_say (E : env) (words : string) : keeps_self (say E words).
Proof. apply keeps_liftW. Qed.

Lemma keeps_print (t : string) (args : list pyval) : keeps_self (print t args).
Proof. apply keeps_liftW. Qed.

Lemma keeps_log (l : level) (t : string) (args : list pyval) :
  keeps_self (log l t args).
Proof. apply keeps_liftW. Qed.

Lemma keeps_if {A} (b : bool) (m1 m2 : M system A) :
  keeps_self m1 -> keeps_self m2 -> keeps_self (if b then m1 else m2).
Proof. destruct b; auto. Qed.

#[local] Hint Resolve keeps_ret keeps_raise keeps_out_of_fuel keeps_liftW
  keeps_bind keeps_try_except keeps_me keeps_get_state keeps_say keeps_print
  keeps_log keeps_if : keeps.

Ltac keeps :=
  repeat first
    [ apply keeps_bind; [| intros ?]
    | apply keeps_try_except; [| intros ?]
    | apply keeps_if
    | match goal with
      | |- keeps_self (match ?x with _ => _ end) => destruct x
      end
    | solve [auto with keeps] ].

Lemma keeps_try_burst (E : env) (fuel : nat) (fn : string) (last att : Z) :
  keeps_self (try_burst E fuel fn last att).
Proof.
  revert last att. induction fuel as [| fuel IH]; intros last att;
    cbn [try_burst]; keeps.
Qed.

Lemma keeps_waiting (fuel : nat) (t : Z) : keeps_self (waiting fuel t).
Proof.
  revert t. induction fuel as [| fuel IH]; intros t; cbn [waiting]; keeps.
Qed.

Lemma keeps_fetch (E : env) (fn : string) : keeps_self (fetch E fn).
Proof. unfold fetch. keeps. Qed.

#[local] Hint Resolve keeps_try_burst keeps_waiting keeps_fetch : keeps.

(** [robustBurst] counts the point and changes nothing else in the
    controller object, however the burst goes. *)
Lemma robustBurst_self (E : env) (fuel : nat) s r s' :
  robustBurst E fuel s = Some (r, s') ->
  self s' = set_nPnt (nPnt (self s) + 1) (self s).
Proof.
  unfold robustBurst. intros H.
  apply bind_Some in H. destruct H as [(a & s1 & H1 & H) | (e & H1 & _)].
  2: { exfalso. revert H1. unfold say, liftW, bind, emit, elapse, modify. cbn. discriminate. }
  apply keeps_say in H1.
  apply bind_Some in H. destruct H as [(a2 & s2 & H2 & H) | (e & H2 & _)].
  2: { discriminate H2. }
  injection H2 as _ <-.
  match type of H with
  | ?m _ = _ => assert (K : keeps_self m) by (cbv zeta; keeps)
  end.
  apply K in H. rewrite H. cbn [self]. now rewrite H1.
Qed.

(** [updateDistance] changes the controller object by [distance_effect]. *)
Lemma updateDistance_run (E : env) (s : system) :
  exists w',
    updateDistance E s
    = match distance_effect E (clock (outside s)) (self s) with
      | Some o' => Some (Ok tt, mkSystem o' w')
      | None => Some (Raise (bare TypeError), mkSystem (self s) w')
      end.
Proof.
  destruct s as [o w]. destruct o.
  unfold updateDistance, distance_effect.
  unfold bind, me, assign, modify, print, say, log, liftW, emit, elapse, sleep,
    now, DeltaTime, ret, raise, modify, bind.
  cbn -[Qltb Qle_bool round0 round1 Z.div Z.modulo Qplus Qdiv Qmult Qminus
        inject_Z is_rtk].
  destruct refLon0, refLat0, RTKsens0;
    cbn -[Qltb Qle_bool round0 round1 Z.div Z.modulo Qplus Qdiv Qmult Qminus
          inject_Z is_rtk];
    try (eexists; reflexivity).
  all: try destruct (is_rtk iquality0);
    cbn -[Qltb Qle_bool round0 round1 Z.div Z.modulo Qplus Qdiv Qmult Qminus
          inject_Z is_rtk];
    try (eexists; reflexivity).
  all: destruct stat0;
    cbn -[Qltb Qle_bool round0 round1 Z.div Z.modulo Qplus Qdiv Qmult Qminus
          inject_Z is_rtk];
    try (eexists; reflexivity).
  all: unfold DeltaTime_at;
      match goal with
      | |- context [Qltb ?a ?b] => destruct (Qltb a b)
      end;
    cbn -[Qltb Qle_bool round0 round1 Z.div Z.modulo Qplus Qdiv Qmult Qminus
          inject_Z is_rtk];
    try (eexists; reflexivity).
  all: match goal with
      | |- context [Qle_bool ?a ?b] => destruct (Qle_bool a b)
      end; eexists; reflexivity.
Qed.

Ltac run_trigger :=
  unfold triggerApRES, trigger_effect;
  unfold bind, me, assign, modify, say, liftW, emit, elapse, sleep, ret,
    modify, bind;
  cbn -[Qltb robustBurst is_rtk].

Ltac split_on_tests :=
  repeat (match goal with
          | |- context [is_rtk ?q] => destruct (is_rtk q)
          | |- context [Qltb ?a ?b] => destruct (Qltb a b)
          end;
          cbn -[Qltb robustBurst is_rtk] in *).

(** [triggerApRES], when it returns, has changed the controller object by
    [trigger_effect]. *)
Lemma triggerApRES_run (E : env) (fuel : nat) (s s' : system) :
  triggerApRES E fuel s = Some (Ok tt, s') ->
  self s' = fst (trigger_effect (self s)).
Proof.
  destruct s as [o w]. destruct o. destruct stat0.
  all: run_trigger.
  all: split_on_tests.
  all: try (intros [= <-]; reflexivity).
  all: match goal with
       | |- context [robustBurst ?E0 ?f0 ?s0] =>
           destruct (robustBurst E0 f0 s0) as [[[a | e] s1] |] eqn:Hrb;
           [apply robustBurst_self in Hrb | |]
       end.
  all: cbn -[Qltb robustBurst is_rtk] in *.
  all: try discriminate.
  all: intros [= <-]; cbn; rewrite Hrb; reflexivity.
Qed.

(** When the effect says that no burst is shot, [triggerApRES] returns,
    whatever the fuel. *)
Lemma triggerApRES_quiet (E : env) (fuel : nat) (s : system) :
  snd (trigger_effect (self s)) = false ->
  exists w',
    triggerApRES E fuel s
    = Some (Ok tt, mkSystem (fst (trigger_effect (self s))) w').
Proof.
  destruct s as [o w]. destruct o. destruct stat0.
  all: run_trigger.
  all: split_on_tests.
  all: try discriminate.
  all: intros _; eexists; reflexivity.
Qed.

Lemma round_half_even_zero (q : Q) : (q == 0)%Q -> round_half_even q = 0.
Proof.
  intros Hq. unfold round_half_even.
  rewrite (Qfloor_comp q 0 Hq). change (Qfloor 0) with 0.
  replace (Qltb (q - inject_Z 0) (1 # 2)) with true; [reflexivity |].
  symmetry. apply Qltb_true. rewrite Hq. reflexivity.
Qed.

Lemma round0_still (E : env) (p : Q * Q) :
  (forall p, haversine E p p == 0)%Q ->
  round0 (haversine E p p * 100) = 0%Q.
Proof.
  intros H. unfold round0. rewrite round_half_even_zero; [reflexivity |].
  rewrite H. reflexivity.
Qed.

Ltac q_facts :=
  repeat match goal with
    | H : Qltb _ _ = true |- _ => apply Qltb_true in H
    | H : Qltb _ _ = false |- _ => apply Qltb_false in H
    end.

Ltac split_hyp H :=
  repeat (match type of H with
          | context [is_rtk ?q] => destruct (is_rtk q) eqn:?
          | context [Qltb ?a ?b] => destruct (Qltb a b) eqn:?
          end;
          cbn -[Qltb is_rtk round0 DeltaTime_at Qmult Qminus haversine] in H).

Ltac split_goal :=
  repeat (match goal with
          | |- context [is_rtk ?q] => destruct (is_rtk q) eqn:?
          | |- context [Qltb ?a ?b] => destruct (Qltb a b) eqn:?
          end;
          cbn -[Qltb is_rtk round0 DeltaTime_at Qmult Qminus haversine]).

(** The heart of C8 on the controller object alone. *)
Lemma stationary_effect (E : env) (t t' : Z) (f : gpsfix) (o oa o1 : ARS)
    (fired : bool) :
  (forall p, haversine E p p == 0)%Q ->
  (0 <= min_err o)%Q ->
  distance_effect E t (with_fix f o) = Some oa ->
  trigger_effect oa = (o1, fired) ->
  exists ob,
    distance_effect E t' (with_fix f o1) = Some ob
    /\ snd (trigger_effect ob) = false
    /\ stat (fst (trigger_effect ob)) = stat o1
    /\ refLat (fst (trigger_effect ob)) = refLat o1
    /\ refLon (fst (trigger_effect ob)) = refLon o1
    /\ nPnt (fst (trigger_effect ob)) = nPnt o1.
Proof.
  intros Hhav Hmin Hd Ht.
  destruct o. destruct f.
  unfold with_fix, distance_effect in Hd.
  cbn -[Qltb is_rtk round0 DeltaTime_at Qmult Qminus haversine] in Hd, Hmin.
  destruct refLon0, refLat0, RTKsens0, stat0;
    cbn -[Qltb is_rtk round0 DeltaTime_at Qmult Qminus haversine] in Hd;
    split_hyp Hd; try discriminate Hd;
    injection Hd as <-;
    unfold trigger_effect in Ht;
    cbn -[Qltb is_rtk round0 DeltaTime_at Qmult Qminus haversine] in Ht;
    split_hyp Ht;
    injection Ht as <- <-.
  all: unfold with_fix, distance_effect, trigger_effect;
    cbn -[Qltb is_rtk round0 DeltaTime_at Qmult Qminus haversine];
    repeat match goal with
      | H : is_rtk ?q = _ |- _ => rewrite H
      end;
    cbn -[Qltb is_rtk round0 DeltaTime_at Qmult Qminus haversine];
    rewrite ?(round0_still E _ Hhav);
    repeat match goal with
      | H : Qltb ?a ?b = _ |- context [Qltb ?a ?b] => rewrite H
      end;
    cbn -[Qltb is_rtk round0 DeltaTime_at Qmult Qminus haversine].
  all: try solve [exfalso; q_facts; lra].
  all: match goal with
       | |- context [Qltb ?a (DeltaTime_at ?x ?y)] =>
           destruct (Qltb a (DeltaTime_at x y))
       | _ => idtac
       end.
  all: eexists; (split; [reflexivity |]).
  all: cbn -[Qltb is_rtk round0 DeltaTime_at Qmult Qminus haversine];
    repeat match goal with
      | H : is_rtk ?q = _ |- _ => rewrite H
      end;
    cbn -[Qltb is_rtk round0 DeltaTime_at Qmult Qminus haversine];
    repeat match goal with
      | H : Qltb ?a ?b = _ |- context [Qltb ?a ?b] => rewrite H
      end;
    cbn -[Qltb is_rtk round0 DeltaTime_at Qmult Qminus haversine].
  all: try solve [repeat split; reflexivity].
  all: split_goal.
  all: try solve [repeat split; reflexivity].
  all: try solve [exfalso; q_facts; lra].
Qed.

(** ** A stationary fix (updateDistance, triggerApRES) *)

Lemma cycle_run (E : env) (fuel : nat) (f : gpsfix) (s : system) :
  cycle E fuel f s
  = bind (updateDistance E) (fun _ => triggerApRES E fuel)
      (mkSystem (with_fix f (self s)) (outside s)).
Proof. reflexivity. Qed.

(** C8.  A turn of the main loop that has returned is followed, on the
    same fix, by a turn that returns as well and leaves the state, the
    reference point and the number of shots as the first turn left them.
    The band starts at or above zero, as every band set around a step
    size does ([Run.py] sets [min_err] to 0.99 times the step size, the
    test scripts to 0.9 times), and the distance from a point to itself is
    zero. *)
Theorem cycle_stationary
    (E : env) (fuel : nat) (f : gpsfix) (s s1 : system) :
  (forall p, haversine E p p == 0)%Q ->
  (0 <= min_err (self s))%Q ->
  cycle E fuel f s = Some (Ok tt, s1) ->
  exists s2,
    cycle E fuel f s1 = Some (Ok tt, s2)
    /\ stat (self s2) = stat (self s1)
    /\ refLat (self s2) = refLat (self s1)
    /\ refLon (self s2) = refLon (self s1)
    /\ nPnt (self s2) = nPnt (self s1).
Proof.
  intros Hhav Hmin H1.
  rewrite cycle_run in H1. apply bind_Ok in H1.
  destruct H1 as ([] & sa & Hd & Ht).
  destruct (updateDistance_run E (mkSystem (with_fix f (self s)) (outside s)))
    as (wa & Hrun).
  rewrite Hrun in Hd. cbn [self outside] in Hd.
  destruct (distance_effect E (clock (outside s)) (with_fix f (self s)))
    as [oa |] eqn:Hoa; [| discriminate Hd].
  injection Hd as <-.
  apply triggerApRES_run in Ht. cbn [self] in Ht.
  destruct (stationary_effect E (clock (outside s)) (clock (outside s1)) f
              (self s) oa (self s1) (snd (trigger_effect oa)) Hhav Hmin Hoa)
    as (ob & Hob & Hquiet & Hstat & Hla & Hlo & Hn).
  { rewrite Ht. now destruct (trigger_effect oa). }
  rewrite cycle_run.
  destruct (updateDistance_run E (mkSystem (with_fix f (self s1)) (outside s1)))
    as (wb & Hrun2).
  cbn [self outside] in Hrun2. rewrite Hob in Hrun2.
  rewrite (bind_ok _ _ _ _ _ Hrun2).
  destruct (triggerApRES_quiet E fuel (mkSystem ob wb) Hquiet) as (w2 & Hq).
  rewrite Hq. eexists. split; [reflexivity |].
  cbn [self]. auto.
Qed.

Lemma flat_distance_still (p : Q * Q) : (flat_distance p p == 0)%Q.
Proof.
  unfold flat_distance.
  assert (H : forall x : Q, (Qabs (x - x) == 0)%Q).
  { intros x. setoid_replace (x - x)%Q with 0%Q by ring. reflexivity. }
  rewrite !H. reflexivity.
Qed.

(** A sledge that reaches the band 155 cm from its reference point shoots
    once; the same fix again changes nothing. *)
Lemma cycle_stationary_witness :
  (0 <= min_err (sledge moving_forward (297 # 2) (321 # 2)))%Q
  /\ exists s1 s2,
       cycle (field_env willing_radar) 40 (fix_north 155)
         (on_site (sledge moving_forward (297 # 2) (321 # 2)))
       = Some (Ok tt, s1)
       /\ nPnt (self s1) = 1
       /\ cycle (field_env willing_radar) 40 (fix_north 155) s1
          = Some (Ok tt, s2)
       /\ stat (self s2) = stat (self s1)
       /\ refLat (self s2) = refLat (self s1)
       /\ refLon (self s2) = refLon (self s1)
       /\ nPnt (self s2) = nPnt (self s1).
Proof.
  assert (Hmin : (0 <= min_err (sledge moving_forward (297 # 2) (321 # 2)))%Q)
    by (cbn; unfold Qle; cbn; lia).
  split; [exact Hmin |].
  destruct (cycle (field_env willing_radar) 40 (fix_north 155)
              (on_site (sledge moving_forward (297 # 2) (321 # 2))))
    as [[[[] | e] s1] |] eqn:H1.
  - destruct (cycle_stationary (field_env willing_radar) 40 (fix_north 155)
                (on_site (sledge moving_forward (297 # 2) (321 # 2))) s1
                flat_distance_still Hmin H1) as (s2 & H2 & Hrest).
    exists s1, s2. split; [reflexivity |]. split; [| split; assumption].
    vm_compute in H1. now injection H1 as <-.
  - vm_compute in H1. discriminate H1.
  - vm_compute in H1. discriminate H1.
Defined.

(** What the hypothesis on the band is for: were zero inside the band, as
    with no band set around a step size, a sledge standing on its
    reference point would shoot at every identical fix. *)
Example cycle_refires_inside_band :
  cycles (field_env willing_radar) 40 [fix_north 0; fix_north 0; fix_north 0]
    (on_site (sledge moving_forward (-1) 1))
  = [(moving_forward, 1); (moving_forward, 2); (moving_forward, 3)].
Proof. vm_compute. reflexivity. Qed.

(** ** The band (triggerApRES) *)

(** C1, as the code has it.  With the band from 148.5 to 160.5 cm and the
    controller moving forward, the displacements 0, 50, 150, 155, 300 leave
    the states moving forward four times and then moving backward; 150 and
    155 both lie inside the band, so at each of them the controller goes
    to well positioned and calls [robustBurst] in that state (the count of
    shots goes 0, 0, 1, 2, 2).  The state is moving forward again when the
    call returns, and stays well positioned when the call raises: so it
    is on a radar that is out of reach from the start, at 150, and on one
    that is lost after the first shot, at 155.  With fixes that give
    these displacements the reference point is the fix of the shot once
    the call has returned. *)
Theorem band_sequence :
  displacements (field_env willing_radar) 40 [0; 50; 150; 155; 300]%Q
    (on_site (sledge moving_forward (297 # 2) (321 # 2)))
  = [(moving_forward, 0); (moving_forward, 0); (moving_forward, 1);
     (moving_forward, 2); (moving_backward, 2)]
  /\ map (fun d => Qltb (297 # 2) d && Qltb d (321 # 2)) [0; 50; 150; 155; 300]%Q
     = [false; false; true; true; false]
  /\ evaluations (field_env (fading_radar 0)) 40 [0; 50; 150; 155; 300]%Q
       (on_site (sledge moving_forward (297 # 2) (321 # 2)))
     = [(true, moving_forward, 0); (true, moving_forward, 0);
        (false, well_positioned, 1)]
  /\ evaluations (field_env (fading_radar 2)) 40 [0; 50; 150; 155; 300]%Q
       (on_site (sledge moving_forward (297 # 2) (321 # 2)))
     = [(true, moving_forward, 0); (true, moving_forward, 0);
        (true, moving_forward, 1); (false, well_positioned, 2)]
  /\ turns (field_env willing_radar) 40
       [fix_north 0; fix_north 50; fix_north 150; fix_north 305;
        fix_north 605]
       (on_site (sledge moving_forward (297 # 2) (321 # 2)))
     = [(moving_forward, 0, 0%Q, Some 0%Q);
        (moving_forward, 0, 50%Q, Some 0%Q);
        (moving_forward, 1, 150%Q, Some (150 # 11132000));
        (moving_forward, 2, 155%Q, Some (305 # 11132000));
        (moving_backward, 2, 300%Q, Some (305 # 11132000))].
Proof. repeat split; vm_compute; reflexivity. Qed.

(** C1 as stated fails: the trigger has fired once the displacement 150 is
    processed, before 155 is seen, and twice by the end. *)
Lemma band_fires_at_150 :
  displacements (field_env willing_radar) 40 [0; 50; 150]%Q
    (on_site (sledge moving_forward (297 # 2) (321 # 2)))
  = [(moving_forward, 0); (moving_forward, 0); (moving_forward, 1)]
  /\ last (map snd
             (displacements (field_env willing_radar) 40
                [0; 50; 150; 155; 300]%Q
                (on_site (sledge moving_forward (297 # 2) (321 # 2))))) 0
     = 2.
Proof. split; vm_compute; reflexivity. Qed.

(** ** The retry budget (robustBurst) *)

(** C9.  A radar that cannot be reached makes [requests] raise its own
    [ConnectionError]; the handler of [robustBurst] names the builtin class
    of that name, so the first attempt ends the call: nothing is retried,
    no failure is reported, and the turn of the main loop that shot the
    burst raises as well, with the state left at well positioned. *)
Theorem robustBurst_lost_connection :
  (let r := robustBurst (field_env absent_radar) 40
              (on_site (sledge moving_forward (297 # 2) (321 # 2))) in
   returned r = Some (Raise (bare RequestsConnectionError))
   /\ logged LvCritical (final r) = []
   /\ spoken (final r) = ["Shooting"]
   /\ routes (final r) = [(GET, "http://192.168.1.1/api/radar/config")])
  /\ (let r := cycle (field_env absent_radar) 40 (fix_north 155)
                 (on_site (sledge moving_forward (297 # 2) (321 # 2))) in
      returned r = Some (Raise (bare RequestsConnectionError))
      /\ option_map (fun s => stat (self s)) (final r) = Some well_positioned)
  /\ is_instance (bare RequestsConnectionError) ConnectionError = false.
Proof. repeat split; vm_compute; reflexivity. Qed.

(** With a radar that answers "busy" the budget works as the claim says:
    the attempts stop after thirty seconds, the failure is logged as
    critical and spoken, the results are never asked for, [robustBurst]
    returns, and the main loop goes on from the new reference point. *)
Example robustBurst_busy_budget :
  (let r := robustBurst (field_env occupied_radar) 60
              (on_site (sledge moving_forward (297 # 2) (321 # 2))) in
   returned r = Some (Ok None)
   /\ logged LvCritical (final r)
      = ["burst failed after trying for {TRY_BURST_TIMEOUT} seconds";
         "not getting results"]
   /\ existsb (String.eqb "fatal error") (spoken (final r)) = true
   /\ existsb (fun r => ends_with "/api/radar/results" (snd r))
        (routes (final r)) = false
   /\ List.length (bursts_sent (final r)) = 9%nat)
  /\ (let r := cycle (field_env occupied_radar) 60 (fix_north 155)
                 (on_site (sledge moving_forward (297 # 2) (321 # 2))) in
      returned r = Some (Ok tt)
      /\ option_map (fun s => (stat (self s), refLat (self s), nPnt (self s)))
           (final r)
         = Some (moving_forward, Some (155 # 11132000), 1)).
Proof. repeat split; vm_compute; reflexivity. Qed.

(* ===================================================================== *)
(** * Part IV: further properties of the two modules                      *)
(* ===================================================================== *)

(** ** The error envelope (APIChild.validateResponse) *)

(** X1.  A response declared as JSON whose body is an object with an error code
    and an error message raises the exception of that code, with the
    message; a code outside the four known ones passes.  The HTTP status
    plays no part. *)
Theorem validateResponse_error_envelope
    (st : Z) (d : dict) (code : Z) (m : pyval) (txt : string) :
  lookup "errorCode" d = Some (PInt code) ->
  lookup "errorMessage" d = Some m ->
  validateResponse (mkResponse st (Some "application/json") (Some (PDict d)) txt)
  = match error_of_code code with
    | Some c => Raise (Exc c (Some m))
    | None => Ok tt
    end.
Proof.
  intros Hc Hm. unfold validateResponse, response_json, error_of_code.
  cbn [content_type json String.eqb Ascii.eqb Bool.eqb rbind contains getitem].
  unfold has_key. rewrite Hc, Hm. cbn [rbind].
  rewrite !py_eq_int.
  destruct (code =? 401); [reflexivity |].
  destruct (code =? 404); [reflexivity |].
  destruct (code =? 500); [reflexivity |].
  destruct (code =? 503); reflexivity.
Qed.

Lemma validateResponse_error_envelope_witness :
  validateResponse (json_reply 200
    (PDict [("errorCode", PInt 503); ("errorMessage", PStr "Radar busy")]))
  = Raise (Exc RadarBusyException (Some (PStr "Radar busy")))
  /\ validateResponse (json_reply 403
       (PDict [("errorCode", PInt 403); ("errorMessage", PStr "busy")]))
     = Ok tt.
Proof.
  split.
  - apply (validateResponse_error_envelope 200
             [("errorCode", PInt 503); ("errorMessage", PStr "Radar busy")]
             503 (PStr "Radar busy") ""); reflexivity.
  - apply (validateResponse_error_envelope 403
             [("errorCode", PInt 403); ("errorMessage", PStr "busy")]
             403 (PStr "busy") ""); reflexivity.
Defined.

(** X2.  Only the exact content type [application/json] is looked into: with
    any other header, or none, the response passes whatever its body
    says. *)
Theorem validateResponse_other_content (r : response) :
  content_type r <> Some "application/json" ->
  validateResponse r = Ok tt.
Proof.
  intros H. unfold validateResponse.
  destruct (content_type r) as [ct |]; [| reflexivity].
  destruct (String.eqb_spec ct "application/json") as [-> | Hne];
    [contradiction | reflexivity].
Qed.

Lemma validateResponse_other_content_witness :
  validateResponse
    (mkResponse 401 (Some "application/json; charset=utf-8")
       (Some (PDict [("errorCode", PInt 401);
                     ("errorMessage", PStr "Invalid API key")])) "")
  = Ok tt.
Proof.
  apply validateResponse_other_content. cbn [content_type]. discriminate.
Defined.

(** ** Requests (APIChild.getRequest, APIChild.postRequest) *)

(** X3.  However a request ends, it has been counted once and put on the wire,
    the caller has been blocked for the latency of the exchange, and the
    cached configuration is as it was. *)
Theorem request_accounting (E : env) (w w' : world) (url : string)
    (data files : option dict) (redirects : bool) :
  (forall r, getRequest E url data w = Some (r, w') ->
     requestCount (api w') = requestCount (api w) + 1
     /\ wire w' = get_request (api w) url data :: wire w
     /\ clock w' = clock w
          + Z.of_N (latency (radar E (requestCount (api w) + 1)
                               (get_request (api w) url data)))
     /\ config (api w') = config (api w))
  /\ (forall r, postRequest E url data files redirects w = Some (r, w') ->
        requestCount (api w') = requestCount (api w) + 1
        /\ wire w' = post_request (api w) url data files redirects :: wire w
        /\ clock w' = clock w
             + Z.of_N (latency (radar E (requestCount (api w) + 1)
                                  (post_request (api w) url data files
                                     redirects)))
        /\ config (api w') = config (api w)).
Proof.
  split; intros r H.
  - rewrite getRequest_run in H. cbv zeta in H.
    destruct (answer _) in H; [| destruct (validateResponse _) in H];
      injection H as _ <-; repeat split.
  - rewrite postRequest_run in H. cbv zeta in H.
    destruct (answer _) in H; [| destruct (validateResponse _) in H];
      injection H as _ <-; repeat split.
Qed.

Lemma request_accounting_witness :
  exists w',
    final (getRequest survey_env "radar/config" None fresh_world) = Some w'
    /\ requestCount (api w') = 1
    /\ clock w' = 1000.
Proof.
  destruct (getRequest survey_env "radar/config" None fresh_world)
    as [[r w'] |] eqn:H; [| vm_compute in H; discriminate H].
  exists w'. split; [reflexivity |].
  destruct (request_accounting survey_env fresh_world w' "radar/config" None
              None true) as (Hg & _).
  destruct (Hg r H) as (Hn & _ & Hc & _).
  split; [exact Hn | exact Hc].
Defined.

Lemma lookup_setitem_same (k : string) (v : pyval) (d : dict) :
  lookup k (setitem k v d) = Some v.
Proof.
  induction d as [| [k' v'] d IH]; cbn.
  - now rewrite String.eqb_refl.
  - destruct (String.eqb k k') eqn:Hk; cbn.
    + now rewrite String.eqb_refl.
    + rewrite Hk. exact IH.
Qed.

Lemma lookup_setitem_other (k k' : string) (v : pyval) (d : dict) :
  k <> k' -> lookup k (setitem k' v d) = lookup k d.
Proof.
  intros Hne. induction d as [| [k2 v2] d IH]; cbn.
  - destruct (String.eqb_spec k k'); [contradiction | reflexivity].
  - destruct (String.eqb_spec k' k2) as [-> | Hk2]; cbn.
    + destruct (String.eqb_spec k k2); [contradiction | reflexivity].
    + destruct (String.eqb k k2); [reflexivity | exact IH].
Qed.

(** X4.  Every POST carries an API key: the one of the caller's form when it
    has one, the one of the API object otherwise. *)
Theorem postRequest_carries_key (E : env) (w w' : world) (url : string)
    (data files : option dict) (redirects : bool)
    (r : result response) :
  postRequest E url data files redirects w = Some (r, w') ->
  exists rq,
    wire w' = rq :: wire w
    /\ req_verb rq = POST
    /\ lookup "apikey" (req_data rq)
       = match data with
         | Some d =>
             match lookup "apikey" d with
             | Some k => Some k
             | None => Some (PStr (apiKey (api w)))
             end
         | None => Some (PStr (apiKey (api w)))
         end.
Proof.
  intros H. rewrite postRequest_run in H. cbv zeta in H.
  exists (post_request (api w) url data files redirects).
  split.
  { destruct (answer _) in H; [| destruct (validateResponse _) in H];
      injection H as _ <-; reflexivity. }
  split; [reflexivity |].
  unfold post_request. cbn [req_data].
  assert (Hk : forall d0 : dict,
             lookup "apikey"
               (if debugEnable (api w)
                then setitem "requestid" (PInt (requestCount (api w) + 1)) d0
                else d0) = lookup "apikey" d0).
  { intros d0. destruct (debugEnable (api w)); [| reflexivity].
    apply lookup_setitem_other. discriminate. }
  rewrite Hk. destruct data as [d |]; [| reflexivity].
  unfold has_key. destruct (lookup "apikey" d) eqn:Hd; [exact Hd |].
  apply lookup_setitem_same.
Qed.

Lemma postRequest_carries_key_witness :
  exists rq w',
    final (postRequest survey_env "radar/burst"
             (Some [("filename", PStr "1.dat")]) None false fresh_world)
    = Some w'
    /\ wire w' = [rq]
    /\ lookup "apikey" (req_data rq) = Some (PStr "18052021").
Proof.
  destruct (postRequest survey_env "radar/burst"
              (Some [("filename", PStr "1.dat")]) None false fresh_world)
    as [[r w'] |] eqn:H; [| vm_compute in H; discriminate H].
  destruct (postRequest_carries_key _ _ _ _ _ _ _ _ H) as (rq & Hw & _ & Hk).
  exists rq, w'. split; [reflexivity |]. split; [exact Hw | exact Hk].
Defined.

(** ** Reading and setting the configuration (Radar.Config) *)

(** X5.  A report whose lists of attenuator settings do not have
    [nAttenuators] entries is refused, after it has replaced the cached
    configuration. *)
Theorem readResponse_count_mismatch (nA nS nV : Z) (rf af tx rx : list pyval)
    (ud : string) (ct : option string) (txt : string) (w : world) :
  Z.of_nat (List.length rf) <> nA \/ Z.of_nat (List.length af) <> nA ->
  readResponse
    (mkResponse 200 ct
       (Some (PDict [("nAttenuators", PInt nA); ("nSubBursts", PInt nS);
                     ("nAverages", PInt nV); ("rfAttn", PList rf);
                     ("afGain", PList af); ("userData", PStr ud);
                     ("txAntenna", PList tx); ("rxAntenna", PList rx)])) txt) w
  = Some (Raise (withmsg BadResponseException
            "Number of attenuator settings did not match nAttenuators in response."),
          set_api (set_config
                     (mkConfig (PInt nA) (PInt nS) (PInt nV) (PList af)
                        (PList rf) (Some (PStr ud)) (Some (PTuple tx))
                        (Some (PTuple rx))) (api w)) w).
Proof.
  intros H. rewrite readResponse_dict. cbv zeta. rewrite !py_eq_int.
  replace ((Z.of_nat (List.length rf) =? nA) && (Z.of_nat (List.length af) =? nA))
    with false; [reflexivity |].
  symmetry. apply andb_false_iff.
  destruct H as [H | H]; [left | right]; now apply Z.eqb_neq.
Qed.

Lemma readResponse_count_mismatch_witness :
  option_map (fun w => nAttenuators (config (api w)))
    (final (readResponse
              (json_reply 200
                 (PDict [("nAttenuators", PInt 2); ("nSubBursts", PInt 5);
                         ("nAverages", PInt 0); ("rfAttn", PList [PInt 25]);
                         ("afGain", PList [PInt (-14)]); ("userData", PStr "");
                         ("txAntenna", PList []); ("rxAntenna", PList [])]))
              fresh_world))
  = Some (PInt 2).
Proof.
  unfold json_reply.
  rewrite (readResponse_count_mismatch 2 5 0 [PInt 25] [PInt (-14)] [] [] ""
             (Some "application/json") "" fresh_world);
    [reflexivity | left; cbn; lia].
Defined.

Lemma Config_set_believes (E : env) (w : world) (d : device_config)
    (l1 l2 : N) (ct1 ct2 : option string) (txt1 txt2 : string)
    (nAverages txAnt rxAnt userData : pyval) (data : dict) :
  well_formed d ->
  radar E (requestCount (api w) + 1) (config_request (api w))
  = mkExchange l1 (Reply (mkResponse 200 ct1 (Some (config_json d)) txt1)) ->
  requested nAverages txAnt rxAnt userData = Ok data ->
  radar E (requestCount (api (after_get w d l1)) + 1)
    (post_request (api (after_get w d l1)) "radar/config" (Some data) None true)
  = mkExchange l2 (Reply (mkResponse 200 ct2 (Some (config_json d)) txt2)) ->
  Config_set E PNone nAverages PNone PNone PNone txAnt rxAnt userData w
  = Some (Ok true, after_set w d data l1 l2).
Proof.
  intros Hd Hget Hreq Hpost.
  unfold requested in Hreq.
  rbind_inv Hreq. rbind_inv Hreq. rbind_inv Hreq. injection Hreq as <-.
  unfold Config_set.
  rewrite (bind_ok _ _ _ _ _ (Config_get_reads E w d l1 ct1 txt1 Hd Hget)).
  erewrite bind_ok by reflexivity.
  erewrite bind_ok by reflexivity.
  erewrite bind_ok by reflexivity.
  erewrite bind_ok by (rewrite Ha; reflexivity).
  erewrite bind_ok by (rewrite Ha0; reflexivity).
  erewrite bind_ok by (rewrite Ha1; reflexivity).
  erewrite bind_ok by reflexivity.
  erewrite bind_ok by reflexivity.
  cbv zeta.
  erewrite bind_ok
    by (rewrite postRequest_run; cbv zeta; rewrite Hpost; cbn [answer latency];
        rewrite validate_config; reflexivity).
  cbn [status_code Z.eqb Pos.eqb].
  erewrite bind_ok by (apply readResponse_reads; exact Hd).
  reflexivity.
Qed.

(** X6.  Whatever number of averages, antenna masks and user data [set] is
    asked for, a radar that answers the POST with status 200 and its
    configuration [d] is believed: [set] returns the config object, the
    cache holds [d], and two requests were sent. *)
Theorem Config_set_trusts_status
    (E : env) (w : world) (d : device_config) (l1 l2 : N)
    (ct1 ct2 : option string) (txt1 txt2 : string)
    (nAverages txAnt rxAnt userData : pyval) (data : dict) :
  well_formed d ->
  radar E (requestCount (api w) + 1) (config_request (api w))
  = mkExchange l1 (Reply (mkResponse 200 ct1 (Some (config_json d)) txt1)) ->
  requested nAverages txAnt rxAnt userData = Ok data ->
  radar E (requestCount (api (after_get w d l1)) + 1)
    (post_request (api (after_get w d l1)) "radar/config" (Some data) None true)
  = mkExchange l2 (Reply (mkResponse 200 ct2 (Some (config_json d)) txt2)) ->
  exists w2,
    Config_set E PNone nAverages PNone PNone PNone txAnt rxAnt userData w
    = Some (Ok true, w2)
    /\ config (api w2) = config_of d
    /\ wire w2
       = post_request (api (after_get w d l1)) "radar/config" (Some data)
           None true
         :: config_request (api w) :: wire w.
Proof.
  intros Hd Hget Hreq Hpost.
  exists (after_set w d data l1 l2). split.
  - now apply Config_set_believes with (ct1 := ct1) (ct2 := ct2)
        (txt1 := txt1) (txt2 := txt2).
  - split; reflexivity.
Qed.

(** Four averages and a label are asked of a radar that keeps no average
    and no label. *)
Lemma Config_set_trusts_status_witness :
  well_formed survey_config
  /\ exists w2,
       Config_set survey_env PNone (PInt 4) PNone PNone PNone PNone PNone
         (PStr "line 7") fresh_world
       = Some (Ok true, w2)
       /\ nAverages (config (api w2)) = PInt 0
       /\ userData (config (api w2)) = Some (PStr "").
Proof.
  assert (Hd : well_formed survey_config) by (split; reflexivity).
  split; [exact Hd |].
  destruct (Config_set_trusts_status survey_env fresh_world survey_config
              1000 1000 (Some "application/json") (Some "application/json")
              "" "" (PInt 4) PNone PNone (PStr "line 7") _
              Hd eq_refl eq_refl eq_refl) as (w2 & Hset & Hcfg & _).
  exists w2. split; [exact Hset |].
  rewrite Hcfg. split; reflexivity.
Defined.

(** ** Files (Data.dir, Data.download) *)

(** X7.  [download] never overwrites: when the target exists it raises before
    any request is made. *)
Theorem download_refuses_existing (E : env) (w : world) (path : string)
    (dst_path : option string) :
  path_exists w (download_target w path dst_path) = true ->
  download E path dst_path w
  = Some (Raise (Exc FileExistsError
                   (Some (PStr (download_target w path dst_path)))), w).
Proof.
  intros H. unfold download, download_target in *.
  unfold bind at 1, get_state at 1. now rewrite H.
Qed.

Lemma download_refuses_existing_witness :
  download survey_env "Survey/1_SARRTK.dat" None
    (set_files ["1_SARRTK.dat"] fresh_world)
  = Some (Raise (Exc FileExistsError (Some (PStr "1_SARRTK.dat"))),
          set_files ["1_SARRTK.dat"] fresh_world).
Proof.
  apply (download_refuses_existing survey_env
           (set_files ["1_SARRTK.dat"] fresh_world) "Survey/1_SARRTK.dat" None).
  reflexivity.
Defined.



(** X9.  The statuses of a listing that is refused: 404 is a path that does
    not exist, 403 a path that is no directory, anything else but 200 an
    error of the radar. *)
Theorem dir_status_errors (E : env) (w w' : world) (path : string)
    (startIndex listSize : pyval) (r : response) :
  getRequest E "data"
    (Some [("path", PStr path); ("index", startIndex); ("list", listSize)]) w
  = Some (Ok r, w') ->
  status_code r <> 200 ->
  dir E (PStr path) startIndex listSize w
  = Some (Raise (if status_code r =? 404
                 then Exc NotFoundException (Some (PStr path))
                 else if status_code r =? 403
                 then Exc NotADirectoryError (Some (PStr path))
                 else withmsg InternalRadarErrorException
                        ("Radar returned unexpected status code "
                         ++ str_of_Z (status_code r))), w').
Proof.
  intros Hget Hst. unfold dir. cbn [isinstance_str negb].
  rewrite (bind_ok _ _ _ _ _ Hget).
  destruct (status_code r =? 404); [reflexivity |].
  destruct (status_code r =? 403); [reflexivity |].
  replace (status_code r =? 200) with false
    by (symmetry; now apply Z.eqb_neq).
  reflexivity.
Qed.

Lemma dir_status_errors_witness :
  returned (dir (quiet_env (fun _ _ =>
                   mkExchange 1000 (Reply (mkResponse 403 None None ""))))
              (PStr "Survey/1.dat") (PInt 0) (PInt 16) fresh_world)
  = Some (Raise (Exc NotADirectoryError (Some (PStr "Survey/1.dat")))).
Proof.
  rewrite (dir_status_errors _ fresh_world
             (after_exchange fresh_world
                (get_request fresh_api "data"
                   (Some [("path", PStr "Survey/1.dat"); ("index", PInt 0);
                          ("list", PInt 16)])) 1000)
             "Survey/1.dat" (PInt 0) (PInt 16)
             (mkResponse 403 None None ""));
    [reflexivity | reflexivity | cbn; discriminate].
Defined.

(** ** Reset and housekeeping (System.reset, System.Housekeeping.status) *)

(** X10.  [reset] takes status 202 for the acceptance: every other status, 200
    included, raises [SystemResetException]; with 202 the message and the
    time of the body are handed back. *)
Theorem reset_needs_202 (E : env) (w w' : world) (r : response) :
  postRequest E "system/reset" None None true w = Some (Ok r, w') ->
  (status_code r <> 202 ->
   reset E w = Some (Raise (bare SystemResetException), w'))
  /\ (status_code r = 202 ->
      forall d msg ts t,
        json r = Some (PDict d) ->
        lookup "message" d = Some msg ->
        lookup "time" d = Some (PStr ts) ->
        strptime E ts = Some t ->
        reset E w = Some (Ok (mkResetMessage msg t), w')).
Proof.
  intros Hpost. split.
  - intros Hst. unfold reset. rewrite (bind_ok _ _ _ _ _ Hpost).
    replace (status_code r =? 202) with false
      by (symmetry; now apply Z.eqb_neq).
    reflexivity.
  - intros Hst d msg ts t Hj Hm Ht Hp. unfold reset.
    rewrite (bind_ok _ _ _ _ _ Hpost), Hst. cbn [Z.eqb Pos.eqb negb].
    unfold response_json. rewrite Hj.
    erewrite bind_ok by reflexivity.
    erewrite bind_ok
      by (unfold require; cbn [contains getitem rbind]; unfold has_key;
          rewrite Hm; reflexivity).
    erewrite bind_ok
      by (unfold require; cbn [contains getitem rbind]; unfold has_key;
          rewrite Ht; reflexivity).
    erewrite bind_ok by (cbn [parse_time]; rewrite Hp; reflexivity).
    reflexivity.
Qed.

Lemma reset_needs_202_witness :
  returned (reset survey_env fresh_world)
  = Some (Raise (bare SystemResetException)).
Proof.
  destruct (reset_needs_202 survey_env fresh_world
              (after_exchange fresh_world
                 (post_request fresh_api "system/reset" None None true) 1000)
              (json_reply 200 (config_json survey_config)) eq_refl)
    as (H & _).
  rewrite H; [reflexivity | cbn; discriminate].
Defined.

(** X11.  A radar without a GPS time reports an empty string for it: [status]
    returns, with [None] for that time stamp. *)
Theorem Housekeeping_status_without_gps (E : env) (w w' : world)
    (r : response) (d : dict) (bat lat long : pyval) (tv : string) (t : Z) :
  getRequest E "system/housekeeping/status" None w = Some (Ok r, w') ->
  status_code r = 200 ->
  json r = Some (PDict d) ->
  lookup "batteryVoltage" d = Some bat ->
  lookup "timeGPS" d = Some (PStr "") ->
  lookup "timeVAB" d = Some (PStr tv) ->
  lookup "latitude" d = Some lat ->
  lookup "longitude" d = Some long ->
  is_numeric bat = true -> is_numeric lat = true -> is_numeric long = true ->
  tv <> "" ->
  strptime E tv = Some t ->
  Housekeeping_status E w
  = Some (Ok (mkStatus bat lat long None (Some t)), w').
Proof.
  intros Hget Hst Hj Hb Hg Hv Hla Hlo Nb Nla Nlo Htv Hp.
  unfold Housekeeping_status.
  rewrite (bind_ok _ _ _ _ _ Hget), Hst. cbn [Z.eqb Pos.eqb negb].
  unfold response_json. rewrite Hj.
  erewrite bind_ok by reflexivity.
  unfold require_key. cbn [contains getitem rbind]. unfold has_key.
  rewrite Hb, Hg, Hv, Hla, Hlo.
  do 10 (erewrite bind_ok by reflexivity).
  unfold Status_init. rewrite Nb, Nla, Nlo. cbn [negb].
  cbn [timestamp_field String.length Z.of_nat Z.ltb Z.compare rbind].
  assert (Hlen : (0 <? Z.of_nat (String.length tv)) = true).
  { apply Z.ltb_lt. destruct tv; [contradiction | cbn; lia]. }
  rewrite Hlen. cbn [parse_time]. rewrite Hp. reflexivity.
Qed.

Lemma Housekeeping_status_without_gps_witness :
  returned (Housekeeping_status
              (quiet_env (fun _ _ =>
                 mkExchange 1000
                   (Reply (json_reply 200
                      (PDict [("batteryVoltage", PFloat (61 # 5));
                              ("timeGPS", PStr "");
                              ("timeVAB", PStr "2024-01-01 12:00:00");
                              ("latitude", PInt 0);
                              ("longitude", PInt 0)])))))
              fresh_world)
  = Some (Ok (mkStatus (PFloat (61 # 5)) (PInt 0) (PInt 0) None (Some 0))).
Proof.
  set (E := quiet_env _).
  rewrite (Housekeeping_status_without_gps E fresh_world
             (after_exchange fresh_world
                (get_request fresh_api "system/housekeeping/status" None) 1000)
             (json_reply 200
                (PDict [("batteryVoltage", PFloat (61 # 5));
                        ("timeGPS", PStr "");
                        ("timeVAB", PStr "2024-01-01 12:00:00");
                        ("latitude", PInt 0);
                        ("longitude", PInt 0)]))
             [("batteryVoltage", PFloat (61 # 5)); ("timeGPS", PStr "");
              ("timeVAB", PStr "2024-01-01 12:00:00"); ("latitude", PInt 0);
              ("longitude", PInt 0)]
             (PFloat (61 # 5)) (PInt 0) (PInt 0) "2024-01-01 12:00:00" 0);
    try reflexivity.
  discriminate.
Defined.

(** ** Positions (DecimalDegree) *)

(** X12.  The hemisphere decides the sign: north and east are never negative,
    south and west never positive, and the southern (western) value is the
    opposite of the northern (eastern) one. *)
Theorem DecimalDegree_hemisphere (x : Q) :
  (0 <= DecimalDegree x "N")%Q /\ (0 <= DecimalDegree x "E")%Q
  /\ (DecimalDegree x "S" <= 0)%Q /\ (DecimalDegree x "W" <= 0)%Q
  /\ (DecimalDegree x "S" == - DecimalDegree x "N")%Q
  /\ (DecimalDegree x "W" == - DecimalDegree x "E")%Q.
Proof.
  unfold DecimalDegree. cbv zeta.
  set (dd := round7 _).
  cbn [String.eqb Ascii.eqb Bool.eqb andb orb].
  destruct (Qltb dd 0) eqn:Hneg; destruct (Qltb 0 dd) eqn:Hpos;
    cbn [andb orb]; q_facts; repeat split; lra.
Qed.

(** The position of the classic sentence, 48 degrees 7.038 minutes
    north, 11 degrees 31 minutes east. *)
Example DecimalDegree_example :
  (DecimalDegree (4807038 # 1000) "N" == 481173 # 10000)%Q
  /\ (DecimalDegree (4807038 # 1000) "S" == - (481173 # 10000))%Q
  /\ (DecimalDegree (1131 # 1) "E" == 115166667 # 10000000)%Q.
Proof. repeat split; vm_compute; reflexivity. Qed.

(** ** The controller, step by step *)

Section Steps.

Variable E : env.
Variable o : ARS.
Variable w : world.

Lemma say_run (words : string) :
  say E words (mkSystem o w) = Some (Ok tt, mkSystem o (heard E words w)).
Proof. reflexivity. Qed.

Lemma print_run (t : string) (args : list pyval) :
  print t args (mkSystem o w)
  = Some (Ok tt, mkSystem o (noted (Printed t args) w)).
Proof. reflexivity. Qed.

Lemma log_run (l : level) (t : string) (args : list pyval) :
  log l t args (mkSystem o w) = Some (Ok tt, mkSystem o (noted (Log l t args) w)).
Proof. reflexivity. Qed.

Lemma now_run : liftW now (mkSystem o w) = Some (Ok (clock w), mkSystem o w).
Proof. reflexivity. Qed.

Lemma me_run : me (mkSystem o w) = Some (Ok o, mkSystem o w).
Proof. reflexivity. Qed.

Lemma assign_run (f : ARS -> ARS) :
  assign f (mkSystem o w) = Some (Ok tt, mkSystem (f o) w).
Proof. reflexivity. Qed.

Lemma liftW_raise {A} (m : M world A) (e : exn) (w' : world) :
  m w = Some (Raise e, w') ->
  liftW m (mkSystem o w) = Some (Raise e, mkSystem o w').
Proof. intros H. unfold liftW. cbn [outside self]. now rewrite H. Qed.

End Steps.

Ltac step :=
  erewrite bind_ok
    by first [ apply say_run | apply print_run | apply log_run | apply now_run
             | apply me_run | apply assign_run ].

Lemma Config_get_lost (E : env) (w : world) :
  answer (radar E (requestCount (api w) + 1) (config_request (api w)))
  = Unreachable ->
  Config_get E w
  = Some (Raise (bare RequestsConnectionError),
          after_exchange w (config_request (api w))
            (latency (radar E (requestCount (api w) + 1)
                        (config_request (api w))))).
Proof.
  intros H. unfold Config_get.
  erewrite bind_raise; [reflexivity |].
  rewrite getRequest_run. cbv zeta.
  change (get_request (api w) "radar/config" None) with (config_request (api w)).
  now rewrite H.
Qed.

Lemma burst_lost (E : env) (fuel : nat) (fname udata : pyval) (w : world) :
  answer (radar E (requestCount (api w) + 1) (config_request (api w)))
  = Unreachable ->
  burst E fuel fname udata CbNone CbNone true w
  = Some (Raise (bare RequestsConnectionError),
          after_exchange w (config_request (api w))
            (latency (radar E (requestCount (api w) + 1)
                        (config_request (api w))))).
Proof.
  intros H. unfold burst. erewrite bind_raise; [reflexivity |].
  now apply Config_get_lost.
Qed.

Lemma try_burst_lost (E : env) (fuel : nat) (fn : string) (last att : Z)
    (o : ARS) (w : world) :
  clock w - last < TRY_BURST_TIMEOUT * second ->
  answer (radar E (requestCount (api w) + 1) (config_request (api w)))
  = Unreachable ->
  exists w',
    try_burst E (S fuel) fn last att (mkSystem o w)
    = Some (Raise (bare RequestsConnectionError), mkSystem o w')
    /\ events w'
       = Log LvInfo "burst started (attempt: {attempts})" [PInt att]
         :: Printed "INFO: burst started (attempt: {attempts})" [PInt att]
         :: events w
    /\ wire w' = config_request (api w) :: wire w.
Proof.
  intros Hlt H. cbn [try_burst]. step.
  replace (clock w - last <? TRY_BURST_TIMEOUT * second) with true
    by (symmetry; now apply Z.ltb_lt).
  eexists. split.
  - erewrite bind_raise; [reflexivity |].
    unfold try_except.
    erewrite bind_ok by apply print_run.
    erewrite bind_ok by apply log_run.
    erewrite bind_raise
      by (apply liftW_raise; apply burst_lost; exact H).
    reflexivity.
  - split; reflexivity.
Qed.

(** ** The shot (robustBurst) *)

(** X13.  Whenever the radar cannot be reached at the first request of a shot,
    [robustBurst] ends with the connection error of [requests]: one
    request was sent, nothing critical was logged, and the point has been
    counted. *)
Theorem robustBurst_unreachable (E : env) (fuel : nat) (s : system) :
  answer (radar E (requestCount (api (outside s)) + 1)
            (config_request (api (outside s)))) = Unreachable ->
  exists s',
    robustBurst E (S fuel) s = Some (Raise (bare RequestsConnectionError), s')
    /\ logged LvCritical (Some s') = logged LvCritical (Some s)
    /\ routes (Some s')
       = (routes (Some s)
          ++ [(GET, formCompleteURL (api (outside s)) "radar/config")])%list
    /\ self s' = set_nPnt (nPnt (self s) + 1) (self s).
Proof.
  intros H. destruct s as [o w]. cbn [outside self] in *.
  unfold robustBurst.
  do 4 step. cbv zeta. do 2 step.
  match goal with
  | |- context [bind (try_burst E (S fuel) ?fn ?last 1) _ (mkSystem ?o' ?w')] =>
      destruct (try_burst_lost E fuel fn last 1 o' w') as (w2 & Hrun & Hev & Hw)
  end.
  { cbn. rewrite Z.sub_diag. reflexivity. }
  { exact H. }
  rewrite (bind_raise _ _ _ _ _ Hrun).
  eexists. split; [reflexivity |].
  cbn [logged routes outside self]. rewrite Hev, Hw. cbn.
  repeat split.
Qed.

Lemma robustBurst_unreachable_witness :
  returned (robustBurst (field_env absent_radar) 40
              (on_site (sledge moving_forward (297 # 2) (321 # 2))))
  = Some (Raise (bare RequestsConnectionError)).
Proof.
  destruct (robustBurst_unreachable (field_env absent_radar) 39
              (on_site (sledge moving_forward (297 # 2) (321 # 2))) eq_refl)
    as (s' & -> & _).
  reflexivity.
Defined.

(** X14.  However a shot ends, it has counted the point and left the state, the
    reference point and the displacement of the controller alone. *)
Theorem robustBurst_counts_once (E : env) (fuel : nat) (s s' : system)
    (r : result (option Results)) :
  robustBurst E fuel s = Some (r, s') ->
  nPnt (self s') = nPnt (self s) + 1
  /\ stat (self s') = stat (self s)
  /\ refLat (self s') = refLat (self s)
  /\ refLon (self s') = refLon (self s)
  /\ moveDist (self s') = moveDist (self s).
Proof.
  intros H. apply robustBurst_self in H. rewrite H. repeat split.
Qed.

Lemma robustBurst_counts_once_witness :
  option_map (fun s => (nPnt (self s), stat (self s)))
    (final (robustBurst (field_env occupied_radar) 60
              (on_site (sledge well_positioned (297 # 2) (321 # 2)))))
  = Some (1, well_positioned).
Proof.
  destruct (robustBurst (field_env occupied_radar) 60
              (on_site (sledge well_positioned (297 # 2) (321 # 2))))
    as [[r s'] |] eqn:H; [| vm_compute in H; discriminate H].
  destruct (robustBurst_counts_once _ _ _ _ _ H) as (Hn & Hs & _).
  cbn [final option_map]. rewrite Hn, Hs. reflexivity.
Defined.

(** ** The trigger (triggerApRES) *)

Lemma triggerApRES_needs_rtk (E : env) (fuel : nat) (s : system) :
  is_rtk (iquality (self s)) = false ->
  triggerApRES E fuel s = Some (Ok tt, s).
Proof.
  intros H. unfold triggerApRES, bind, me. now rewrite H.
Qed.

Lemma distance_effect_keeps (E : env) (t : Z) (o oa : ARS) :
  distance_effect E t o = Some oa ->
  nPnt oa = nPnt o /\ stat oa = stat o /\ iquality oa = iquality o.
Proof.
  unfold distance_effect. intros H.
  destruct (refLon o), (refLat o);
    destruct (if RTKsens o then is_rtk (iquality o) else true);
    try discriminate H;
    try (injection H as <-; repeat split);
    cbv zeta in H;
    match type of H with
    | (if ?b then _ else _) = _ =>
        destruct b; injection H as <-; repeat split
    end.
Qed.

(** X15.  Without an RTK fix a turn of the main loop never shoots, whether or
    not the controller was told to insist on RTK: however the turn ends,
    the count of shots and the state are as they were. *)
Theorem cycle_without_rtk_never_shoots
    (E : env) (fuel : nat) (f : gpsfix) (s s' : system) (r : result unit) :
  is_rtk (fix_quality f) = false ->
  cycle E fuel f s = Some (r, s') ->
  nPnt (self s') = nPnt (self s) /\ stat (self s') = stat (self s).
Proof.
  intros Hq H. rewrite cycle_run in H.
  destruct (updateDistance_run E (mkSystem (with_fix f (self s)) (outside s)))
    as (wa & Hrun).
  cbn [self outside] in Hrun.
  destruct (distance_effect E (clock (outside s)) (with_fix f (self s)))
    as [oa |] eqn:Hoa.
  - rewrite (bind_ok _ _ _ _ _ Hrun) in H.
    destruct (distance_effect_keeps _ _ _ _ Hoa) as (Hn & Hs & Hi).
    rewrite triggerApRES_needs_rtk in H by (cbn [self]; rewrite Hi; exact Hq).
    injection H as _ <-. cbn [self]. rewrite Hn, Hs. split; reflexivity.
  - rewrite (bind_raise _ _ _ _ _ Hrun) in H.
    injection H as _ <-. split; reflexivity.
Qed.

(** A fix of plain GPS quality inside the band, on a controller that does
    not insist on RTK: the displacement is taken, nothing is shot. *)
Lemma cycle_without_rtk_never_shoots_witness :
  let o := mkARS 0 "120000.00" 0 0 0 0 4 (Some 0%Q) (Some 0%Q) 0 0 150
             (297 # 2) (321 # 2) moving_forward false false "RTK150cmMan" 0
             (1 # 2) in
  let f := mkFix "120001.00" (155 # 11132000) 0 0 0 1 in
  option_map (fun s => (nPnt (self s), stat (self s), moveDist (self s)))
    (final (cycle (field_env willing_radar) 40 f (on_site o)))
  = Some (0, moving_forward, 155%Q).
Proof.
  intros o f.
  destruct (cycle (field_env willing_radar) 40 f (on_site o))
    as [[r s'] |] eqn:H; [| vm_compute in H; discriminate H].
  destruct (cycle_without_rtk_never_shoots (field_env willing_radar) 40 f
              (on_site o) s' r eq_refl H) as (Hn & Hs).
  cbn [final option_map]. rewrite Hn, Hs.
  vm_compute in H. injection H as _ <-. reflexivity.
Defined.

(** X16.  An evaluation that raises has raised inside the shot: the state is
    left at well positioned and the point has been counted. *)
Theorem triggerApRES_raise_leaves_well_positioned
    (E : env) (fuel : nat) (s s' : system) (e : exn) :
  triggerApRES E fuel s = Some (Raise e, s') ->
  stat (self s') = well_positioned
  /\ nPnt (self s') = nPnt (self s) + 1.
Proof.
  destruct s as [o w]. destruct o. destruct stat0.
  all: run_trigger.
  all: split_on_tests.
  all: try discriminate.
  all: match goal with
       | |- context [robustBurst ?E0 ?f0 ?s0] =>
           destruct (robustBurst E0 f0 s0) as [[[a | e0] s1] |] eqn:Hrb;
           [| apply robustBurst_self in Hrb |]
       end.
  all: cbn -[Qltb robustBurst is_rtk] in *.
  all: try discriminate.
  all: intros [= <- <-]; rewrite Hrb; split; reflexivity.
Qed.

Lemma triggerApRES_raise_leaves_well_positioned_witness :
  option_map (fun s => (stat (self s), nPnt (self s)))
    (final (triggerApRES (field_env absent_radar) 40
              (on_site (set_moveDist 150
                          (sledge moving_forward (297 # 2) (321 # 2))))))
  = Some (well_positioned, 1).
Proof.
  destruct (triggerApRES (field_env absent_radar) 40
              (on_site (set_moveDist 150
                          (sledge moving_forward (297 # 2) (321 # 2)))))
    as [[[[] | e] s'] |] eqn:H; try (vm_compute in H; discriminate H).
  destruct (triggerApRES_raise_leaves_well_positioned _ _ _ _ _ H)
    as (Hs & Hn).
  cbn [final option_map]. rewrite Hs, Hn. reflexivity.
Defined.

(** ** The displacement (updateDistance, DeltaTime) *)

(** X17.  The first fix of a run becomes the reference point whatever its
    quality, RTK or not. *)
Theorem updateDistance_first_fix (E : env) (s : system) :
  refLat (self s) = None -> refLon (self s) = None ->
  updateDistance E s
  = Some (Ok tt,
          mkSystem (set_moveDist 0
                      (set_ref (Some (lat (self s))) (Some (lon (self s)))
                         (self s))) (outside s)).
Proof.
  intros Hla Hlo. destruct s as [o w]. cbn [self outside] in *.
  unfold updateDistance. rewrite (bind_ok _ _ _ _ _ (me_run o w)).
  rewrite Hla, Hlo. reflexivity.
Qed.

Lemma updateDistance_first_fix_witness :
  let o := mkARS 0 "120000.00" (1 # 2) (1 # 3) 0 0 1 None None 0 0 150
             (297 # 2) (321 # 2) moving_forward true false "RTK150cmMan" 0
             (1 # 2) in
  option_map (fun s => (refLat (self s), refLon (self s)))
    (final (updateDistance (field_env willing_radar) (on_site o)))
  = Some (Some (1 # 2), Some (1 # 3)).
Proof.
  intros o.
  rewrite (updateDistance_first_fix (field_env willing_radar) (on_site o)
             eq_refl eq_refl).
  reflexivity.
Defined.

(** X18.  Once the reference point is set, a fix without RTK is left out when
    the controller insists on RTK: the controller object stays as it is,
    the operator is told, and two seconds pass. *)
Theorem updateDistance_without_rtk (E : env) (s : system) (rla rlo : Q) :
  refLat (self s) = Some rla -> refLon (self s) = Some rlo ->
  RTKsens (self s) = true ->
  is_rtk (iquality (self s)) = false ->
  exists w',
    updateDistance E s = Some (Ok tt, mkSystem (self s) w')
    /\ clock w'
       = clock (outside s) + Z.of_N (say_time E "RTK is not available")
         + 2 * second
    /\ spoken (Some (mkSystem (self s) w'))
       = (spoken (Some s) ++ ["RTK is not available"])%list.
Proof.
  intros Hla Hlo Hsens Hq. destruct s as [o w]. cbn [self outside] in *.
  unfold updateDistance. rewrite (bind_ok _ _ _ _ _ (me_run o w)).
  rewrite Hla, Hlo, Hsens, Hq.
  eexists. split; [reflexivity |]. split; [reflexivity |].
  cbn. reflexivity.
Qed.

Lemma updateDistance_without_rtk_witness :
  let o := mkARS 0 "120000.00" (1 # 2) (1 # 3) 0 0 1 (Some 0%Q) (Some 0%Q) 0 0
             150 (297 # 2) (321 # 2) moving_forward true false "RTK150cmMan"
             0 (1 # 2) in
  option_map (fun s => moveDist (self s))
    (final (updateDistance (field_env willing_radar) (on_site o)))
  = Some 0%Q.
Proof.
  intros o.
  destruct (updateDistance_without_rtk (field_env willing_radar) (on_site o)
              0 0 eq_refl eq_refl eq_refl eq_refl) as (w' & -> & _).
  reflexivity.
Defined.

(** X19.  [DeltaTime] drops whole days: a clock that is any number of days
    further on reads the same. *)
Theorem DeltaTime_drops_days (t0 days : Z) (o : ARS) (w : world) :
  returned (DeltaTime t0
              (mkSystem o (set_clock (clock w + days * (86400 * second)) w)))
  = returned (DeltaTime t0 (mkSystem o w)).
Proof.
  unfold DeltaTime, bind, liftW, now, ret.
  cbn [outside self clock set_clock returned].
  set (d := clock w - t0).
  replace (clock w + days * (86400 * second) - t0)
    with (d + (days * 86400) * second) by (unfold d; ring).
  assert (Hs : (d + days * 86400 * second) / second
               = d / second + days * 86400)
    by (apply Z.div_add; unfold second; lia).
  assert (Hm : (d + days * 86400 * second) mod second = d mod second)
    by (apply Z.mod_add; unfold second; lia).
  rewrite Hs, Hm. rewrite Z.mod_add by lia. reflexivity.
Qed.

(** ** The wait for the results, at its ends (Radar.__getResults) *)

Lemma timedelta_seconds_overflow (z : Z) :
  ~ (- 999999999 * 86400 <= z < 1000000000 * 86400) ->
  timedelta_seconds (PInt z) = Raise (bare OverflowError).
Proof.
  intros Hz. unfold timedelta_seconds. cbn [rbind].
  rewrite Z.div_mul_cancel_r by (unfold second; lia).
  assert (H : z / 86400 < -999999999 \/ 999999999 < z / 86400).
  { destruct (Z.lt_ge_cases z (- 999999999 * 86400)) as [Hlo | Hlo].
    - left. apply Z.div_lt_upper_bound; lia.
    - right. assert (1000000000 <= z / 86400); [| lia].
      apply Z.div_le_lower_bound; lia. }
  destruct H as [H | H].
  - replace (-999999999 <=? z / 86400) with false
      by (symmetry; apply Z.leb_gt; lia).
    reflexivity.
  - replace (z / 86400 <=? 999999999) with false
      by (symmetry; apply Z.leb_gt; lia).
    now rewrite andb_false_r.
Qed.

(** X20.  A configuration whose timeout is longer than a [timedelta] can hold
    makes the wait raise [OverflowError] before the first poll: the
    request for the configuration is the only one sent. *)
Theorem getResults_overflow
    (E : env) (fuel : nat) (cb : callback Results) (ucb : callback response)
    (w : world) (d : device_config) (l : N)
    (ct : option string) (txt : string) :
  well_formed d ->
  radar E (requestCount (api w) + 1) (config_request (api w))
  = mkExchange l (Reply (mkResponse 200 ct (Some (config_json d)) txt)) ->
  ~ (- 999999999 * 86400 <= timeout_formula d (api w) < 1000000000 * 86400) ->
  getResults E fuel cb ucb w
  = Some (Raise (bare OverflowError), after_get w d l).
Proof.
  intros Hd Hcfg Hrange. unfold getResults.
  rewrite (bind_ok _ _ _ _ _ (Config_get_reads E w d l ct txt Hd Hcfg)).
  erewrite bind_ok by reflexivity.
  erewrite bind_ok by reflexivity.
  erewrite bind_ok by reflexivity.
  cbn [after_get api clock config set_config].
  erewrite bind_ok by (rewrite timeoutSeconds_formula; reflexivity).
  erewrite bind_raise; [reflexivity |].
  change (timeout_formula d
            (set_config (config_of d)
               (set_requestCount (requestCount (api w) + 1) (api w))))
    with (timeout_formula d (api w)).
  now rewrite (timedelta_seconds_overflow _ Hrange).
Qed.

Lemma getResults_overflow_witness :
  well_formed endless_config
  /\ returned (getResults (quiet_env (busy_radar endless_config)) 0
                 CbNone CbNone fresh_world)
     = Some (Raise (bare OverflowError))
  /\ List.length
       (sent (final (getResults (quiet_env (busy_radar endless_config)) 0
                       CbNone CbNone fresh_world))) = 1%nat.
Proof.
  assert (Hd : well_formed endless_config) by (split; reflexivity).
  split; [exact Hd |].
  rewrite (getResults_overflow (quiet_env (busy_radar endless_config)) 0
             CbNone CbNone fresh_world endless_config 500000
             (Some "application/json") "" Hd eq_refl).
  - split; reflexivity.
  - vm_compute. intros [_ H]. discriminate H.
Defined.



(** ** Results (Radar.Results) *)

(** X22.  A results object is of one of two kinds.  A trial has the number of
    averages, the histogram and the chirps, and no file name; a burst has
    the file name and none of the three. *)
Theorem Results_init_kinds (r : response) (R : Results) :
  Results_init r = Ok R ->
  (py_eq (res_type R) (PStr "trial") = true
   /\ filename R = None /\ res_nAverages R <> None
   /\ histogram R <> None /\ chirp R <> None)
  \/ (py_eq (res_type R) (PStr "burst") = true
      /\ filename R <> None /\ res_nAverages R = None
      /\ histogram R = None /\ chirp R = None).
Proof.
  intros H. unfold Results_init in H.
  do 7 rbind_inv H.
  destruct (py_eq a0 (PStr "trial")) eqn:Htrial.
  - left. do 5 rbind_inv H. injection H as <-.
    cbn. repeat split; try assumption; discriminate.
  - destruct (py_eq a0 (PStr "burst")) eqn:Hburst.
    + right. rbind_inv H. injection H as <-.
      cbn. repeat split; try assumption; discriminate.
    + destruct a0; discriminate H.
Qed.

Lemma Results_init_kinds_witness :
  exists R,
    Results_init
      (json_reply 200
         (PDict [("status", PStr "finished"); ("type", PStr "burst");
                 ("nAttenuators", PInt 1); ("startFrequency", PInt 200);
                 ("stopFrequency", PInt 400); ("period", PInt 1);
                 ("filename", PStr "1.dat")])) = Ok R
    /\ histogram R = None.
Proof.
  eexists. split; [vm_compute; reflexivity |].
  match goal with
  | |- histogram ?R = None =>
      destruct (Results_init_kinds
                  (json_reply 200
                     (PDict [("status", PStr "finished"); ("type", PStr "burst");
                             ("nAttenuators", PInt 1);
                             ("startFrequency", PInt 200);
                             ("stopFrequency", PInt 400); ("period", PInt 1);
                             ("filename", PStr "1.dat")])) R
                  ltac:(vm_compute; reflexivity))
        as [(Ht & _) | (_ & _ & _ & Hh & _)]
  end.
  - vm_compute in Ht. discriminate Ht.
  - exact Hh.
Defined.
